(** * modpack_dl: a shallow embedding of [modpack_dl.py] and its properties

    The program turns a modpack zip (a manifest plus bundled override
    files) into a local installation: it validates the manifest,
    extracts the overrides through a staging directory, downloads every
    listed mod and finally fetches and launches the loader installer.

    The embedding follows the Python source function by function.
    Python exceptions are an explicit [outcome]; the file system, the
    standard output and the sequence of HTTP requests are threaded
    through a state-and-exception monad; the remote hosts, the working
    directory, the name of the temporary directory and the external
    installer are the environment.

    Conventions of the model:
    - a [str] is a [string] (a sequence of one-byte characters), so
      slicing and [split] count characters as Python does on ASCII;
    - the bytes of a file that [zipfile] or [json] can decode are
      represented by what they decode to (see [data]);
    - the file system has plain files and directories only (no
      symbolic links, no permissions), keyed by the components of the
      absolute normalised path. *)

From Stdlib Require Import ZArith Ascii String List.
From stdpp Require Import gmap strings list fin_maps pretty.

Local Open Scope string_scope.
Local Open Scope list_scope.
Set Warnings "-register-all".

(** ** Exceptions and results *)

Inductive exn : Type :=
  | KeyError
  | TypeError
  | IndexError
  | ValueError            (* includes json.JSONDecodeError *)
  | AssertionError
  | UnboundLocalError
  | FileExistsError
  | FileNotFoundError
  | IsADirectoryError
  | NotADirectoryError
  | HTTPError             (* requests: raise_for_status *)
  | ConnectionError       (* requests: transport failure *)
  | ShutilError           (* shutil.Error *)
  | BadZipFile.           (* zipfile.BadZipFile *)

Global Instance exn_eq_dec : EqDecision exn.
Proof. solve_decision. Defined.

Inductive outcome (A : Type) : Type :=
  | Ret (a : A)
  | Raise (e : exn).
Arguments Ret {A} a.
Arguments Raise {A} e.

(** ** Python string operations used by the source *)

Module Str.

Definition slash : ascii := "/"%char.

(** [s.split(sep)] for a one-character separator: never empty. *)
Fixpoint split (sep : ascii) (s : string) : list string :=
  match s with
  | EmptyString => [EmptyString]
  | String c s' =>
      if Ascii.eqb c sep then EmptyString :: split sep s'
      else match split sep s' with
           | [] => [String c EmptyString]
           | h :: t => String c h :: t
           end
  end.

(** [sep.join(l)] *)
Fixpoint join (sep : string) (l : list string) : string :=
  match l with
  | [] => EmptyString
  | x :: t =>
      match t with
      | [] => x
      | _ :: _ => x +:+ sep +:+ join sep t
      end
  end.

(** [l[-1]] on the result of a [split] (which is never empty). *)
Definition last (l : list string) : string := List.last l EmptyString.

(** [s.startswith(p)] *)
Fixpoint startswith (s p : string) {struct p} : bool :=
  match p with
  | EmptyString => true
  | String c p' =>
      match s with
      | EmptyString => false
      | String x s' => Ascii.eqb x c && startswith s' p'
      end
  end.

(** [s.endswith(suf)] *)
Fixpoint endswith (s suf : string) : bool :=
  if String.eqb s suf then true
  else match s with
       | EmptyString => false
       | String _ s' => endswith s' suf
       end.

(** [s[:-n]] for [n > 0]: all but the last [n] characters, the empty
    string when [s] is shorter. *)
Definition drop_last (n : nat) (s : string) : string :=
  String.substring 0 (String.length s - n) s.

(** [c in s] for a character. *)
Fixpoint has_char (c : ascii) (s : string) : bool :=
  match s with
  | EmptyString => false
  | String a s' => Ascii.eqb a c || has_char c s'
  end.

(** [p in s] for strings (substring test). *)
Fixpoint contains (s p : string) : bool :=
  if startswith s p then true
  else match s with
       | EmptyString => false
       | String _ s' => contains s' p
       end.

(** The one-character strings of [s], what iterating a [str] yields. *)
Fixpoint chars (s : string) : list string :=
  match s with
  | EmptyString => []
  | String c s' => String c EmptyString :: chars s'
  end.

End Str.

(** ** [os.path] on POSIX (posixpath) *)

Module Path.
Import Str.

(** [os.path.join(a, b)] *)
Definition join (a b : string) : string :=
  if startswith b "/" then b
  else if String.eqb a "" || endswith a "/" then a +:+ b
  else a +:+ "/" +:+ b.

(** [os.path.join(a, b, c)] *)
Definition join3 (a b c : string) : string := join (join a b) c.

(** [os.path.basename(p)]: what follows the last slash. *)
Definition basename (p : string) : string := last (split slash p).

(** The component loop of [normpath]: [acc] is [new_comps] in reverse
    order, [rooted] is [initial_slashes]. *)
Fixpoint norm_comps (rooted : bool) (acc : list string) (comps : list string)
  : list string :=
  match comps with
  | [] => rev acc
  | c :: rest =>
      if String.eqb c "" || String.eqb c "." then norm_comps rooted acc rest
      else if negb (String.eqb c "..") then norm_comps rooted (c :: acc) rest
      else match acc with
           | [] => if rooted then norm_comps rooted acc rest
                   else norm_comps rooted (c :: acc) rest
           | top :: acc' =>
               if String.eqb top ".." then norm_comps rooted (c :: acc) rest
               else norm_comps rooted acc' rest
           end
  end.

(** [os.path.normpath(p)] *)
Definition normpath (p : string) : string :=
  if String.eqb p "" then "."
  else
    let initial_slashes : nat :=
      if startswith p "/" then
        if startswith p "//" && negb (startswith p "///") then 2%nat else 1%nat
      else 0%nat in
    let comps := norm_comps (negb (Nat.eqb initial_slashes 0)) [] (split slash p) in
    let path := Str.join "/" comps in
    let path :=
      match initial_slashes with
      | 0%nat => path
      | 1%nat => "/" +:+ path
      | _ => "//" +:+ path
      end in
    if String.eqb path "" then "." else path.

(** [os.path.abspath(p)] with the working directory [cwd]. *)
Definition abspath (cwd p : string) : string :=
  if startswith p "/" then normpath p else normpath (join cwd p).

(** Longest common prefix of two component lists. *)
Fixpoint common_prefix (l1 l2 : list string) : list string :=
  match l1, l2 with
  | a :: l1', b :: l2' =>
      if String.eqb a b then a :: common_prefix l1' l2' else []
  | _, _ => []
  end.

Definition proper_comp (c : string) : bool :=
  negb (String.eqb c "") && negb (String.eqb c ".").

(** [os.path.commonpath([a, b])]: [ValueError] when absolute and
    relative paths are mixed.  (The library compares the smallest and
    the largest component list; for two paths that is their longest
    common prefix.) *)
Definition commonpath (a b : string) : outcome string :=
  let isabs_a := startswith a "/" in
  let isabs_b := startswith b "/" in
  if negb (Bool.eqb isabs_a isabs_b) then Raise ValueError
  else
    let sa := filter (fun c => Is_true (proper_comp c)) (split slash a) in
    let sb := filter (fun c => Is_true (proper_comp c)) (split slash b) in
    let common := common_prefix sa sb in
    Ret ((if isabs_a then "/" else "") +:+ Str.join "/" common).

End Path.

(** ** Parsed JSON and the Python operations the source applies to it *)

(** The value [json.load] returns.  An object keeps its members in
    document order; as in a Python [dict], the last member with a given
    key is the one looked up. *)
Inductive json : Type :=
  | JNull
  | JBool (b : bool)
  | JInt (z : Z)
  | JFloat (num : Z) (den : positive)
  | JStr (s : string)
  | JArr (items : list json)
  | JObj (members : list (string * json)).

Module Py.

(** [d[k]] on a dict given by its members. *)
Fixpoint dict_get (k : string) (members : list (string * json)) : option json :=
  match members with
  | [] => None
  | (k', v) :: rest =>
      match dict_get k rest with
      | Some v' => Some v'
      | None => if String.eqb k k' then Some v else None
      end
  end.

(** The keys of a dict, each once, in insertion order. *)
Fixpoint dict_keys (seen : list string) (members : list (string * json))
  : list string :=
  match members with
  | [] => []
  | (k, _) :: rest =>
      if existsb (String.eqb k) seen then dict_keys seen rest
      else k :: dict_keys (k :: seen) rest
  end.

(** [o[k]] for a string key [k]. *)
Definition getitem (o : json) (k : string) : outcome json :=
  match o with
  | JObj members =>
      match dict_get k members with
      | Some v => Ret v
      | None => Raise KeyError
      end
  | _ => Raise TypeError
  end.

(** Truth value, as tested by [if] and [not]. *)
Definition truthy (v : json) : bool :=
  match v with
  | JNull => false
  | JBool b => b
  | JInt z => negb (Z.eqb z 0)
  | JFloat n _ => negb (Z.eqb n 0)
  | JStr s => negb (String.eqb s "")
  | JArr items => match items with [] => false | _ => true end
  | JObj members => match members with [] => false | _ => true end
  end.

Definition is_str (v : json) (s : string) : bool :=
  match v with
  | JStr s' => String.eqb s' s
  | _ => false
  end.

(** [k in o] for a string [k]. *)
Definition contains (o : json) (k : string) : outcome bool :=
  match o with
  | JObj members => Ret (bool_decide (is_Some (dict_get k members)))
  | JArr items => Ret (existsb (fun v => is_str v k) items)
  | JStr s => Ret (Str.contains s k)
  | _ => Raise TypeError
  end.

(** What [for x in o] iterates over. *)
Definition iter (o : json) : outcome (list json) :=
  match o with
  | JArr items => Ret items
  | JObj members => Ret (map JStr (dict_keys [] members))
  | JStr s => Ret (map JStr (Str.chars s))
  | _ => Raise TypeError
  end.

(** [len(o)] *)
Definition len (o : json) : outcome Z :=
  match o with
  | JArr items => Ret (Z.of_nat (length items))
  | JObj members => Ret (Z.of_nat (length (dict_keys [] members)))
  | JStr s => Ret (Z.of_nat (String.length s))
  | _ => Raise TypeError
  end.

(** [isinstance(v, int)]: [bool] is a subclass of [int]. *)
Definition is_int (v : json) : bool :=
  match v with
  | JInt _ | JBool _ => true
  | _ => false
  end.

(** [str(v)] for a value that passed [is_int]. *)
Definition str_of_int (v : json) : string :=
  match v with
  | JInt z => pretty z
  | JBool true => "True"
  | JBool false => "False"
  | _ => ""
  end.

(** A value used where the library needs a [str] (a path, a URL, an
    argument of [+] with a [str]); anything else is a [TypeError]. *)
Definition as_str (v : json) : outcome string :=
  match v with
  | JStr s => Ret s
  | _ => Raise TypeError
  end.

(** [v == s] for a string literal [s]. *)
Definition eq_str (v : json) (s : string) : bool := is_str v s.

End Py.

(** [urllib.parse.quote(s)]: letters, digits and [_.-~/] are kept, every
    other byte becomes [%XX]. *)
Module Url.

Definition hex_digit (n : N) : ascii :=
  ascii_of_N (if (n <? 10)%N then 48 + n else 55 + n)%N.

Definition unreserved (c : ascii) : bool :=
  let n := N_of_ascii c in
  ((48 <=? n) && (n <=? 57) || (65 <=? n) && (n <=? 90)
   || (97 <=? n) && (n <=? 122))%N
  || Str.has_char c "_.-~/".

Fixpoint quote (s : string) : string :=
  match s with
  | EmptyString => EmptyString
  | String c s' =>
      if unreserved c then String c (quote s')
      else
        let n := N_of_ascii c in
        String "%" (String (hex_digit (n / 16)) (String (hex_digit (n mod 16)) (quote s')))
  end.

End Url.

(** ** The world: file system, output, network *)

(** Contents of a file.  Bytes that [zipfile] reads as an archive are a
    [ZipArchive] (its members in central-directory order), bytes that
    [json.load] parses are a [JsonDoc]; [Bytes] are contents that are
    neither. *)
Inductive data : Type :=
  | Bytes (s : string)
  | JsonDoc (j : json)
  | ZipArchive (members : list (string * data)).

Inductive node : Type :=
  | File (d : data)
  | Dir.

(** A path of the file system: the components below the root. *)
Abbreviation key := (list string).
Abbreviation FS := (gmap (list string) node).

(** One [print]: the text is [template.format( *args )]. *)
Inductive line : Type :=
  | Line (template : string) (args : list json).

(** One [s.get(url)] or [s.get(url, stream=True)]. *)
Record request : Type := Request { req_url : string; req_stream : bool }.

(** What comes of a request: no answer at all, a URL that [requests]
    rejects before sending anything, or a status
    line and a body that arrives in [chunks]; [complete] is false when
    the transport fails after the last of them.  [parsed] is what
    [response.json()] makes of the body. *)
Inductive reply : Type :=
  | NoReply
  | BadUrl               (* requests refuses the URL (MissingSchema and the like) *)
  | Reply (status : Z) (chunks : list string) (complete : bool)
          (parsed : option json).

Record world : Type := World {
  fs : FS;
  (** every state the file system has passed through, oldest first *)
  fs_trace : list FS;
  stdout : list line;
  requests : list request;
  (** the command lines handed to [subprocess.run] *)
  launched : list (list string)
}.

Record env : Type := Env {
  (** components of the working directory *)
  cwd_parts : list string;
  (** the catalog service and the download hosts *)
  http : string -> reply;
  (** the name [tempfile] picks for the staging directory *)
  tmp_name : string;
  (** what running a command does to the file system; [Raise] when the
      executable cannot be started *)
  run_process : list string -> FS -> outcome FS
}.

(** ** The monad of the program: state and exceptions *)

Definition M (A : Type) : Type := world -> outcome A * world.

Definition ret {A} (a : A) : M A := fun w => (Ret a, w).

Definition raise {A} (e : exn) : M A := fun w => (Raise e, w).

Definition bind {A B} (m : M A) (k : A -> M B) : M B :=
  fun w =>
    match m w with
    | (Ret a, w') => k a w'
    | (Raise e, w') => (Raise e, w')
    end.

Notation "x <- c1 ;; c2" := (bind c1 (fun x => c2))
  (at level 100, c1 at next level, right associativity).
Notation "c1 ;; c2" := (bind c1 (fun _ => c2))
  (at level 100, right associativity).

(** A pure computation that may raise. *)
Definition lift {A} (o : outcome A) : M A := fun w => (o, w).

(** [try: m  except e: h] *)
Definition try_except {A} (m : M A) (e : exn) (h : M A) : M A :=
  fun w =>
    match m w with
    | (Raise e', w') => if decide (e' = e) then h w' else (Raise e', w')
    | r => r
    end.

(** [try: m  finally: c]; also the exit of a [with] block. *)
Definition finally {A} (m : M A) (c : world -> world) : M A :=
  fun w => let (r, w') := m w in (r, c w').

(** [assert b] *)
Definition assert (b : bool) : M unit :=
  if b then ret tt else raise AssertionError.

(** [for x in l: body x] *)
Fixpoint for_each {A} (l : list A) (body : A -> M unit) : M unit :=
  match l with
  | [] => ret tt
  | x :: rest => body x ;; for_each rest body
  end.

Definition get_fs : M FS := fun w => (Ret (fs w), w).

(** Every change of the file system is recorded in [fs_trace]. *)
Definition put_fs (f : FS) : M unit :=
  fun w => (Ret tt, World f (fs_trace w ++ [f]) (stdout w) (requests w) (launched w)).

Definition set_fs (f : FS) (w : world) : world :=
  World f (fs_trace w ++ [f]) (stdout w) (requests w) (launched w).

(** [print(template.format( *args ))] *)
Definition print (template : string) (args : list json) : M unit :=
  fun w => (Ret tt, World (fs w) (fs_trace w) (stdout w ++ [Line template args])
                          (requests w) (launched w)).

Definition log_request (r : request) : M unit :=
  fun w => (Ret tt, World (fs w) (fs_trace w) (stdout w) (requests w ++ [r])
                          (launched w)).

Definition log_launch (cmd : list string) : M unit :=
  fun w => (Ret tt, World (fs w) (fs_trace w) (stdout w) (requests w)
                          (launched w ++ [cmd])).

(** ** File-system operations on keys *)

Module Fs.

(** The node at a key; the root is a directory. *)
Definition at_key (f : FS) (k : key) : option node :=
  match k with
  | [] => Some Dir
  | _ :: _ => f !! k
  end.

Definition parent (k : key) : key := removelast k.

(** What creating an entry at [k] requires of the directory above. *)
Definition check_parent (f : FS) (k : key) : option exn :=
  match k with
  | [] => Some IsADirectoryError
  | _ :: _ =>
      match at_key f (parent k) with
      | Some Dir => None
      | Some (File _) => Some NotADirectoryError
      | None => Some FileNotFoundError
      end
  end.

(** [os.makedirs(k, exist_ok=True)] below [base]: each missing
    directory on the way is created; what was created before a failure
    stays. *)
Fixpoint makedirs_from (base rest : key) (f : FS) : FS * option exn :=
  match rest with
  | [] => (f, None)
  | c :: rest' =>
      let k := base ++ [c] in
      match f !! k with
      | None => makedirs_from k rest' (<[k := Dir]> f)
      | Some Dir => makedirs_from k rest' f
      | Some (File _) =>
          (f, Some (match rest' with
                    | [] => FileExistsError
                    | _ :: _ => NotADirectoryError
                    end))
      end
  end.

Definition makedirs (k : key) (f : FS) : FS * option exn := makedirs_from [] k f.

(** [shutil.rmtree(base)] *)
Definition rmtree (base : key) (f : FS) : FS :=
  filter (fun kv => ¬ base `prefix_of` kv.1) f.

(** Copy of one entry of the source tree, [s] being its path below the
    source root, to the same place below [dst].  A file copied onto a
    directory goes into that directory ([shutil.copy2]). *)
Definition copy_entry (dst : key) (s : key) (n : node) (f : FS) : FS * bool :=
  match n with
  | Dir =>
      match makedirs_from dst s f with
      | (f', None) => (f', true)
      | (f', Some _) => (f', false)
      end
  | File d =>
      match makedirs_from dst (removelast s) f with
      | (f', Some _) => (f', false)
      | (f', None) =>
          let target := dst ++ s in
          match f' !! target with
          | Some Dir =>
              let inner := target ++ [List.last s ""] in
              match f' !! inner with
              | Some Dir => (f', false)
              | _ => (<[inner := File d]> f', true)
              end
          | _ => (<[target := File d]> f', true)
          end
      end
  end.

Definition copy_entries (src dst : key) (entries : list (key * node)) (f : FS)
  : FS * bool :=
  fold_left
    (fun acc kv =>
       let s := drop (length src) kv.1 in
       match s with
       | [] => acc
       | _ :: _ =>
           let (f', ok) := copy_entry dst s kv.2 acc.1 in (f', ok && acc.2)
       end)
    entries (f, true).

(** [shutil.copytree(src, dst, dirs_exist_ok=True)]: the failures of
    single entries are collected and raised together at the end. *)
Definition copytree (src dst : key) (f : FS) : FS * option exn :=
  match at_key f src with
  | None => (f, Some FileNotFoundError)
  | Some (File _) => (f, Some NotADirectoryError)
  | Some Dir =>
      match makedirs dst f with
      | (f1, Some e) => (f1, Some e)
      | (f1, None) =>
          let entries := map_to_list (filter (fun kv => src `prefix_of` kv.1) f) in
          let (f2, ok) := copy_entries src dst entries f1 in
          (f2, if ok then None else Some ShutilError)
      end
  end.

(** Components of a zip member name that [ZipFile.extract] keeps. *)
Definition clean_parts (name : string) : key :=
  filter (fun c => c ∉ [""; "."; ".."]) (Str.split Str.slash name).

(** [ZipFile.extract(name, target)]: the member lands below the target
    directory (which exists) at its cleaned name; missing directories
    between the two are created; a member whose name ends in a slash
    is a directory. *)
Definition extract_member (target : key) (name : string) (d : data) (f : FS)
  : FS * option exn :=
  let parts := clean_parts name in
  let k := target ++ parts in
  let (f1, e1) :=
    match at_key f (parent k) with
    | Some _ => (f, None)
    | None => makedirs_from target (removelast parts) f
    end in
  match e1 with
  | Some e => (f1, Some e)
  | None =>
      if Str.endswith name "/" then
        match at_key f1 k with
        | Some Dir => (f1, None)
        | Some (File _) => (f1, Some FileExistsError)
        | None =>
            match check_parent f1 k with
            | Some e => (f1, Some e)
            | None => (<[k := Dir]> f1, None)
            end
        end
      else
        match check_parent f1 k with
        | Some e => (f1, Some e)
        | None =>
            match at_key f1 k with
            | Some Dir => (f1, Some IsADirectoryError)
            | _ => (<[k := File d]> f1, None)
            end
        end
  end.

End Fs.

(** ** The library calls of the program, on the world *)

(** An HTTP response as [requests] hands it to the program. *)
Record response : Type := Response {
  status : Z;
  body_chunks : list string;
  body_complete : bool;
  body_json : option json
}.

(** [data[name]] for a zip archive: the last member of that name. *)
Fixpoint zip_getinfo (name : string) (members : list (string * data)) : option data :=
  match members with
  | [] => None
  | (n, d) :: rest =>
      match zip_getinfo name rest with
      | Some d' => Some d'
      | None => if String.eqb name n then Some d else None
      end
  end.

(** [json.load] *)
Definition json_load (d : data) : outcome json :=
  match d with
  | JsonDoc j => Ret j
  | _ => Raise ValueError
  end.

(** [s.rstrip("/")] *)
Fixpoint rstrip_slash (s : string) : string :=
  match s with
  | EmptyString => EmptyString
  | String c s' =>
      let r := rstrip_slash s' in
      if String.eqb r "" && Ascii.eqb c Str.slash then EmptyString else String c r
  end.

Definition append_bytes (chunk : string) (n : node) : node :=
  match n with
  | File (Bytes s) => File (Bytes (s +:+ chunk))
  | other => other
  end.

Section Library.
Context (E : env).

Definition getcwd : string := "/" +:+ Str.join "/" (cwd_parts E).

Definition abspath (p : string) : string := Path.abspath getcwd p.

Definition components (s : string) : key :=
  filter (fun c => c ≠ "") (Str.split Str.slash s).

(** Where the file system keeps the path [p]. *)
Definition path_key (p : string) : key := components (abspath p).

(** The node a path names; the empty path names nothing. *)
Definition stat (f : FS) (p : string) : option node :=
  if String.eqb p "" then None else Fs.at_key f (path_key p).

Definition os_path_exists (p : string) : M bool :=
  f <- get_fs ;; ret (bool_decide (is_Some (stat f p))).

Definition os_path_isdir (p : string) : M bool :=
  f <- get_fs ;;
  ret (match stat f p with Some Dir => true | _ => false end).

(** Record the new file system and raise the failure, if any. *)
Definition commit (r : FS * option exn) : M unit :=
  put_fs r.1 ;;
  match r.2 with
  | None => ret tt
  | Some e => raise e
  end.

Definition os_mkdir (p : string) : M unit :=
  f <- get_fs ;;
  if String.eqb p "" then raise FileNotFoundError
  else
    let k := path_key p in
    match Fs.at_key f k with
    | Some _ => raise FileExistsError
    | None =>
        match Fs.check_parent f k with
        | Some e => raise e
        | None => put_fs (<[k := Dir]> f)
        end
    end.

(** [os.makedirs(p, exist_ok=True)] *)
Definition os_makedirs (p : string) : M unit :=
  f <- get_fs ;;
  if String.eqb p "" then raise FileNotFoundError
  else commit (Fs.makedirs (path_key p) f).

(** [open(p, 'wb')]: the file is created or truncated. *)
Definition open_wb (p : string) : M unit :=
  f <- get_fs ;;
  if String.eqb p "" then raise FileNotFoundError
  else
    let k := path_key p in
    match Fs.check_parent f k with
    | Some e => raise e
    | None =>
        match Fs.at_key f k with
        | Some Dir => raise IsADirectoryError
        | _ => put_fs (<[k := File (Bytes "")]> f)
        end
    end.

(** [fd.write(chunk)] on the file opened at [p]. *)
Definition fd_write (p : string) (chunk : string) : M unit :=
  f <- get_fs ;; put_fs (alter (append_bytes chunk) (path_key p) f).

(** [os.rename(src, dst)] of a plain file onto a path that is free or
    holds a plain file.  The program renames nothing but the file it
    has just written, so a directory as source is left out of the
    model: it raises. *)
Definition os_rename (src dst : string) : M unit :=
  f <- get_fs ;;
  match stat f src with
  | None => raise FileNotFoundError
  | Some Dir => raise ShutilError
  | Some (File d) =>
      if String.eqb dst "" then raise FileNotFoundError
      else
        let kd := path_key dst in
        match Fs.check_parent f kd with
        | Some e => raise e
        | None =>
            match Fs.at_key f kd with
            | Some Dir => raise IsADirectoryError
            | _ => put_fs (<[kd := File d]> (delete (path_key src) f))
            end
        end
  end.

(** [shutil.move(src, dst)]: into [dst] when that is a directory. *)
Definition shutil_move (src dst : string) : M unit :=
  isd <- os_path_isdir dst ;;
  real_dst <-
    (if isd : bool then
       let rd := Path.join dst (Path.basename (rstrip_slash src)) in
       ex <- os_path_exists rd ;;
       if ex : bool then raise ShutilError else ret rd
     else ret dst) ;;
  os_rename src real_dst.

(** [shutil.copytree(src, dst, dirs_exist_ok=True)] *)
Definition shutil_copytree (src dst : string) : M unit :=
  f <- get_fs ;;
  if String.eqb src "" || String.eqb dst "" then raise FileNotFoundError
  else commit (Fs.copytree (path_key src) (path_key dst) f).

Definition zipfile_is_zipfile (fpath : string) : M bool :=
  f <- get_fs ;;
  ret (match stat f fpath with Some (File (ZipArchive _)) => true | _ => false end).

(** [zipfile.ZipFile(fpath)]: the members of the archive. *)
Definition zipfile_open (fpath : string) : M (list (string * data)) :=
  f <- get_fs ;;
  match stat f fpath with
  | Some (File (ZipArchive members)) => ret members
  | Some (File _) => raise BadZipFile
  | Some Dir => raise IsADirectoryError
  | None => raise FileNotFoundError
  end.

(** [zf.extract(name, target)] *)
Definition zip_extract (zf : list (string * data)) (name : string) (target : string)
  : M unit :=
  f <- get_fs ;;
  match zip_getinfo name zf with
  | None => raise KeyError
  | Some d => commit (Fs.extract_member (path_key target) name d f)
  end.

(** [with tempfile.TemporaryDirectory() as tempd: body tempd]: a fresh
    directory, removed with all it holds when the block is left. *)
Definition with_tempdir {A} (body : string -> M A) : M A :=
  let tempd := abspath (tmp_name E) in
  let k := path_key tempd in
  f <- get_fs ;;
  match Fs.at_key f k with
  | Some _ => raise FileExistsError
  | None =>
      match Fs.check_parent f k with
      | Some e => raise e
      | None =>
          put_fs (<[k := Dir]> f) ;;
          finally (body tempd) (fun w => set_fs (Fs.rmtree k (fs w)) w)
      end
  end.

(** [s.get(url)] and [s.get(url, stream=True)].  Without [stream] the
    whole body is read at once, so a broken transfer fails here. *)
Definition session_get (url : json) (stream : bool) : M response :=
  match url with
  | JStr u =>
      log_request (Request u stream) ;;
      match http E u with
      | NoReply => raise ConnectionError
      | BadUrl => raise ValueError
      | Reply st chunks complete parsed =>
          if negb stream && negb complete then raise ConnectionError
          else ret (Response st chunks complete parsed)
      end
  | _ => raise ValueError
  end.

Definition raise_for_status (r : response) : M unit :=
  if (400 <=? status r)%Z && (status r <? 600)%Z then raise HTTPError else ret tt.

Definition response_text (r : response) : string :=
  String.concat "" (body_chunks r).

Definition response_json (r : response) : M json :=
  match body_json r with
  | Some j => ret j
  | None => raise ValueError
  end.

(** [subprocess.run(cmd, stdout=DEVNULL, stderr=DEVNULL)] *)
Definition subprocess_run (cmd : list string) : M unit :=
  log_launch cmd ;;
  f <- get_fs ;;
  match run_process E cmd f with
  | Ret f' => put_fs f'
  | Raise e => raise e
  end.

End Library.

(** ** The program *)

Definition api_url : string := "https://addons-ecs.forgesvc.net/api/v2/".

(** The request URLs of lines 48, 57 and 124. *)
Definition download_url_request (proj_id file_id : json) : string :=
  api_url +:+ "addon/" +:+ Py.str_of_int proj_id +:+ "/file/"
          +:+ Py.str_of_int file_id +:+ "/download-url".

Definition info_request (proj_id : json) : string :=
  api_url +:+ "addon/" +:+ Py.str_of_int proj_id.

Definition modloader_request (modloader_id : string) : string :=
  api_url +:+ "minecraft/modloader/" +:+ Url.quote modloader_id.

(** [get_manifest(mod_zip)] *)
Definition get_manifest (mod_zip : list (string * data)) : outcome json :=
  match zip_getinfo "manifest.json" mod_zip with
  | None => Raise KeyError
  | Some d => json_load d
  end.

(** [output_dir_for_zip(fname)] *)
Definition output_dir_for_zip (fname : string) : string :=
  let filename := Path.basename fname in
  if Str.endswith filename ".zip" then Str.drop_last 4 filename else filename.

(** Lines 108-113 of [download_manifest_file]: where the mod goes. *)
Definition manifest_destpath (folder url : string) (required : json) : string :=
  let filename := Str.last (Str.split Str.slash url) in
  let destpath := Path.join folder filename in
  if negb (Py.truthy required) then destpath +:+ ".disabled" else destpath.

(** Lines 182-184 of [main]: [cur] is [modloader_id], unbound at first. *)
Fixpoint scan_loaders (loaders : list json) (cur : option json)
  : outcome (option json) :=
  match loaders with
  | [] => Ret cur
  | l :: rest =>
      match Py.getitem l "primary" with
      | Raise e => Raise e
      | Ret p =>
          if Py.truthy p then
            match Py.getitem l "id" with
            | Raise e => Raise e
            | Ret i => scan_loaders rest (Some i)
            end
          else scan_loaders rest cur
      end
  end.

(** Lines 194-196 of [main]: the installer file and its URL. *)
Definition installer_target (dest_path : string) (url : json)
  : outcome (string * json) :=
  if negb (Str.endswith dest_path "-installer.jar") then
    match Py.as_str url with
    | Raise e => Raise e
    | Ret u =>
        Ret (Str.drop_last 4 dest_path +:+ "-installer.jar",
             JStr (Str.drop_last 4 u +:+ "-installer.jar"))
    end
  else Ret (dest_path, url).

Section Program.
Context (E : env).

(** [is_modpack_zip(fpath)] *)
Definition is_modpack_zip (fpath : string) : M bool :=
  z <- zipfile_is_zipfile E fpath ;;
  if negb z then ret false
  else
    try_except
      (zf <- zipfile_open E fpath ;;
       mf <- lift (get_manifest zf) ;;
       t <- lift (Py.getitem mf "manifestType") ;;
       ret (Py.eq_str t "minecraftModpack"))
      KeyError
      (ret false).

(** [get_download_url(proj_id, file_id)] *)
Definition get_download_url (proj_id file_id : json) : M string :=
  assert (Py.is_int proj_id) ;;
  assert (Py.is_int file_id) ;;
  let req_url := download_url_request proj_id file_id in
  r <- session_get E (JStr req_url) false ;;
  raise_for_status r ;;
  ret (response_text r).

(** [get_info(proj_id)] *)
Definition get_info (proj_id : json) : M json :=
  assert (Py.is_int proj_id) ;;
  let req_url := info_request proj_id in
  r <- session_get E (JStr req_url) false ;;
  raise_for_status r ;;
  response_json r.

(** [is_subdir(a, b)] *)
Definition is_subdir (a b : string) : outcome bool :=
  let abs_a := abspath E a in
  let abs_b := abspath E b in
  match Path.commonpath abs_a abs_b with
  | Raise e => Raise e
  | Ret c => Ret (String.eqb c abs_b)
  end.

(** The loop of [download_to_file]. *)
Definition write_chunks (dlpath : string) (chunks : list string) : M unit :=
  for_each chunks (fun chunk => fd_write E dlpath chunk).

(** Lines 86-91 of [download_to_file]: the body is streamed into
    [dlpath]; a transfer that breaks raises after the chunks that
    arrived were written. *)
Definition stream_to_part (url : json) (dlpath : string) : M unit :=
  r <- session_get E url true ;;
  raise_for_status r ;;
  open_wb E dlpath ;;
  write_chunks dlpath (body_chunks r) ;;
  if body_complete r then ret tt else raise ConnectionError.

(** [download_to_file(url, file, overwrite)] *)
Definition download_to_file (url : json) (file : string) (overwrite : bool)
  : M unit :=
  ex <- os_path_exists E file ;;
  if ex && negb overwrite then raise FileExistsError
  else
    let dlpath := file +:+ ".part" in
    stream_to_part url dlpath ;;
    shutil_move E dlpath file.

(** [download_manifest_file(f, folder, force)] *)
Definition download_manifest_file (f : json) (folder : string) (force : bool)
  : M unit :=
  proj_id <- lift (Py.getitem f "projectID") ;;
  mod_info <- get_info proj_id ;;
  proj_id <- lift (Py.getitem f "projectID") ;;
  file_id <- lift (Py.getitem f "fileID") ;;
  url <- get_download_url proj_id file_id ;;
  required <- lift (Py.getitem f "required") ;;
  let destpath := manifest_destpath folder url required in
  ex <- os_path_exists E destpath ;;
  if ex && negb force then
    name <- lift (Py.getitem mod_info "name") ;;
    print "    Reused {}" [name]
  else
    name <- lift (Py.getitem mod_info "name") ;;
    print "    Downloading {}" [name] ;;
    download_to_file (JStr url) destpath false.

(** [get_modloader_info(modloader_id)] *)
Definition get_modloader_info (modloader_id : json) : M json :=
  id <- lift (Py.as_str modloader_id) ;;
  let req_url := modloader_request id in
  r <- session_get E (JStr req_url) false ;;
  raise_for_status r ;;
  response_json r.

(** Lines 135-137 of [extract_overrides]: the members below the
    overrides folder are extracted into the staging directory. *)
Definition extract_matching (mpack_zip : list (string * data)) (or_folder : json)
    (tempd : string) : M unit :=
  for_each (map fst mpack_zip) (fun n =>
    prefix <- lift (Py.as_str or_folder) ;;
    if Str.startswith n prefix then zip_extract E mpack_zip n tempd
    else ret tt).

(** [extract_overrides(mpack_zip, output_dir)] *)
Definition extract_overrides (mpack_zip : list (string * data)) (output_dir : string)
  : M unit :=
  with_tempdir E (fun tempd =>
    mf <- lift (get_manifest mpack_zip) ;;
    or_folder <- lift (Py.getitem mf "overrides") ;;
    extract_matching mpack_zip or_folder tempd ;;
    prefix <- lift (Py.as_str or_folder) ;;
    let output_override_dir := Path.join tempd prefix in
    inside <- lift (is_subdir output_override_dir tempd) ;;
    assert inside ;;
    shutil_copytree E output_override_dir output_dir).

End Program.

Section Main.
Context (E : env).

(** The usage text; the line break of the source is written [\n]. *)
Definition usage : string :=
  "USAGE: modpack_dl.py MODPACK_ZIP"
  +:+ String (Ascii.ascii_of_nat 10)
        "    See the README for instructions to make it playable".

(** Lines 197-201 of [main]: the installer is downloaded unless it is
    there already. *)
Definition fetch_installer (loader_info url : json) (dest_path : string) : M unit :=
  try_except
    (name <- lift (Py.getitem loader_info "name") ;;
     print "    Downloading '{}'" [name] ;;
     download_to_file E url dest_path false)
    FileExistsError
    (ret tt).

(** Lines 180-209 of [main]: the loader phase. *)
Definition retrieve_forge (mf : json) (out_dname : string) : M unit :=
  print "Retrieving Forge..." [] ;;
  minecraft <- lift (Py.getitem mf "minecraft") ;;
  loaders <- lift (Py.getitem minecraft "modLoaders") ;;
  ls <- lift (Py.iter loaders) ;;
  bound <- lift (scan_loaders ls None) ;;
  modloader_id <-
    match bound with
    | Some i => ret i
    | None => raise UnboundLocalError
    end ;;
  loader_info <- get_modloader_info E modloader_id ;;
  has_url <- lift (Py.contains loader_info "downloadUrl") ;;
  if has_url : bool then
    dest_fname <- lift (Py.getitem loader_info "filename") ;;
    dest_fname <- lift (Py.as_str dest_fname) ;;
    let dest_path := Path.join out_dname dest_fname in
    url <- lift (Py.getitem loader_info "downloadUrl") ;;
    target <- lift (installer_target dest_path url) ;;
    let dest_path := target.1 in
    let url := target.2 in
    fetch_installer loader_info url dest_path ;;
    print "Running Forge installer." [] ;;
    subprocess_run E ["java"; "-jar"; dest_path] ;;
    print "Done." []
  else
    print "Could not get download link for modloader '{}'" [modloader_id].

(** Lines 176-178 of [main]: the mods. *)
Definition download_mods (mf : json) (mod_output_dir : string) : M unit :=
  files <- lift (Py.getitem mf "files") ;;
  n <- lift (Py.len files) ;;
  print "Downloading {} mods..." [JInt n] ;;
  files <- lift (Py.getitem mf "files") ;;
  fl <- lift (Py.iter files) ;;
  for_each fl (fun f => download_manifest_file E f mod_output_dir false).

(** [main(argv)] *)
Definition main (argv : list string) : M unit :=
  tgt_zip <- lift (match argv !! 1%nat with
                   | Some a => Ret a
                   | None => Raise IndexError
                   end) ;;
  (if existsb (String.eqb "-h") argv || existsb (String.eqb "--help") argv
   then print usage [] else ret tt) ;;
  valid <- is_modpack_zip E tgt_zip ;;
  if negb valid then
    print "'{}' is not a valid modpack zip." [JStr tgt_zip]
  else
    let out_dname := output_dir_for_zip tgt_zip in
    isd <- os_path_isdir E out_dname ;;
    (if isd : bool then
       print "Output directory {} already exists, contents may be overwritten."
             [JStr out_dname]
     else os_mkdir E out_dname) ;;
    zf <- zipfile_open E tgt_zip ;;
    mf <- lift (get_manifest zf) ;;
    name <- lift (Py.getitem mf "name") ;;
    version <- lift (Py.getitem mf "version") ;;
    author <- lift (Py.getitem mf "author") ;;
    print "Modpack: {name} {version} by {author}" [name; version; author] ;;
    has_overrides <- lift (Py.contains mf "overrides") ;;
    (if has_overrides : bool then
       print "Extracting overrides." [] ;;
       extract_overrides E zf (Path.join out_dname "minecraft")
     else ret tt) ;;
    print "Creating mod folder." [] ;;
    let mod_output_dir := Path.join3 out_dname "minecraft" "mods" in
    os_makedirs E mod_output_dir ;;
    download_mods mf mod_output_dir ;;
    retrieve_forge mf out_dname.

End Main.

(** ** Notions the properties are stated with *)

(** Strict descent as the specification words it: [a] lies below [b]
    and is not [b] itself. *)
Definition strict_descendant (E : env) (a b : string) : bool :=
  bool_decide (path_key E b `prefix_of` path_key E a)
  && negb (bool_decide (path_key E a = path_key E b)).

(** A four-character extension such as [.jar] or [.zip]: what
    [s[:-4]] removes. *)
Definition archive_ext (ext : string) : bool :=
  match ext with
  | String c (String _ (String _ (String _ EmptyString))) => Ascii.eqb c "."
  | _ => false
  end.

Definition installer_suffix : string := "-installer.jar".

(** A loader entry as the manifest format has it: an [id] and a boolean
    [primary] flag. *)
Definition loader_ref (id : string) (primary : bool) (l : json) : Prop :=
  Py.getitem l "id" = Ret (JStr id) /\ Py.getitem l "primary" = Ret (JBool primary).

(** A successful, complete answer. *)
Definition answers (E : env) (url : string) (chunks : list string)
    (parsed : option json) : Prop :=
  exists st, http E url = Reply st chunks true parsed
             /\ ((400 <=? st)%Z && (st <? 600)%Z) = false.

(** The two catalog requests of one file record. *)
Definition catalog_requests (f : json) : list request :=
  match Py.getitem f "projectID", Py.getitem f "fileID" with
  | Ret p, Ret i =>
      [Request (info_request p) false; Request (download_url_request p i) false]
  | _, _ => []
  end.

(** ** A concrete installation, for running the program *)

Module Demo.

Definition file_record (proj file : Z) (required : bool) : json :=
  JObj [("projectID", JInt proj); ("fileID", JInt file); ("required", JBool required)].

Definition loader (id : string) (primary : bool) : json :=
  JObj [("id", JStr id); ("primary", JBool primary)].

Definition manifest (mtype : string) (overrides : list (string * json))
    (loaders : list json) : json :=
  JObj ([("manifestType", JStr mtype);
         ("name", JStr "Skyblock"); ("version", JStr "1.2"); ("author", JStr "ajenkins");
         ("files", JArr [file_record 10 20 true; file_record 11 21 false]);
         ("minecraft", JObj [("version", JStr "1.16.5"); ("modLoaders", JArr loaders)])]
        ++ overrides).

Definition archive (mf : data) : list (string * data) :=
  [("manifest.json", mf);
   ("overrides/", Bytes "");
   ("overrides/config/a.cfg", Bytes "k=v")].

(** The user's home with the pack in it, and [/tmp]. *)
Definition disk (pack : list (string * data)) : FS :=
  list_to_map [(["home"], Dir); (["home"; "u"], Dir); (["tmp"], Dir);
               (["home"; "u"; "pack.zip"], File (ZipArchive pack))].

Definition catalog (u : string) : reply :=
  if String.eqb u (info_request (JInt 10)) then
    Reply 200 [] true (Some (JObj [("name", JStr "ModA")]))
  else if String.eqb u (info_request (JInt 11)) then
    Reply 200 [] true (Some (JObj [("name", JStr "ModB")]))
  else if String.eqb u (download_url_request (JInt 10) (JInt 20)) then
    Reply 200 ["https://cdn/files/a.jar"] true None
  else if String.eqb u (download_url_request (JInt 11) (JInt 21)) then
    Reply 200 ["https://cdn/files/b.jar"] true None
  else if String.eqb u "https://cdn/files/a.jar" then
    Reply 200 ["AAA"; "BBB"] true None
  else if String.eqb u "https://cdn/files/b.jar" then
    Reply 200 ["CCC"] true None
  else if String.eqb u "https://cdn/files/cut.jar" then
    Reply 200 ["DDD"] false None
  else if String.eqb u (modloader_request "forge-36.0.0") then
    Reply 200 [] true
          (Some (JObj [("name", JStr "forge"); ("filename", JStr "forge-36.0.0.jar");
                       ("downloadUrl", JStr "https://maven/forge-36.0.0.jar")]))
  else if String.eqb u "https://maven/forge-36.0.0-installer.jar" then
    Reply 200 ["INSTALLER"] true None
  else Reply 404 [] true None.

Definition E : env :=
  Env ["home"; "u"] catalog "/tmp/tmpk3x" (fun _ f => Ret f).

Definition boot (pack : list (string * data)) : world :=
  World (disk pack) [] [] [] [].

Definition argv : list string := ["modpack_dl.py"; "pack.zip"].

Definition sentinel : string := "minecraftModpack".

Definition forge : list json := [loader "forge-36.0.0" true].

(** A well-formed pack. *)
Definition good_pack : list (string * data) :=
  archive (JsonDoc (manifest sentinel [("overrides", JStr "overrides")] forge)).

(** A pack whose manifest is not JSON. *)
Definition broken_pack : list (string * data) := archive (Bytes "{").

(** A pack with no primary loader. *)
Definition no_primary_pack : list (string * data) :=
  archive (JsonDoc (manifest sentinel [] [loader "forge-36.0.0" false])).

(** A pack with two primary loaders. *)
Definition two_primaries : list json :=
  [loader "forge-14.23.5" true; loader "forge-36.0.0" true; loader "liteloader" false].

(** A manifest of another type. *)
Definition other_pack : list (string * data) :=
  archive (JsonDoc (manifest "minecraftResourcePack" [] forge)).

(** A pack whose overrides are the archive's root. *)
Definition root_overrides_pack : list (string * data) :=
  archive (JsonDoc (manifest sentinel [("overrides", JStr "")] forge)).

(** A pack whose overrides point outside the staging directory. *)
Definition escaping_pack : list (string * data) :=
  archive (JsonDoc (manifest sentinel [("overrides", JStr "../outside")] forge)).

(** The installation after a first complete run on [good_pack]. *)
Definition installed : world := (main E argv (boot good_pack)).2.

End Demo.

(** ** Relations between the world before and after a computation *)

(** [m] relates every world it starts in to the world it leaves,
    whether it returns or raises. *)
Definition preserves {A} (R : world -> world -> Prop) (m : M A) : Prop :=
  forall w r w', m w = (r, w') -> R w w'.

(** Nothing printed, requested or launched. *)
Definition same_io (w w' : world) : Prop :=
  stdout w' = stdout w /\ requests w' = requests w /\ launched w' = launched w.

(** The file system was not touched. *)
Definition same_disk (w w' : world) : Prop :=
  fs w' = fs w /\ fs_trace w' = fs_trace w.

(** The only requests made are streamed downloads. *)
Definition only_streams (w w' : world) : Prop :=
  exists rest, requests w' = requests w ++ rest
               /\ Forall (fun q => req_stream q = true) rest.

(** Two file systems agree at every key outside [K]. *)
Definition agree_outside (K : key -> Prop) (f f' : FS) : Prop :=
  forall k, ~ K k -> f' !! k = f !! k.

(** Every state the file system passes through, and the one it ends in,
    differs from the initial one inside [K] only. *)
Definition confined (K : key -> Prop) (w w' : world) : Prop :=
  agree_outside K (fs w) (fs w')
  /\ exists hs, fs_trace w' = fs_trace w ++ hs
                /\ Forall (agree_outside K (fs w)) hs.

(** Every change of the file system is in the trace: the trace grows
    by states of which the last is the current one. *)
Definition recorded (w w' : world) : Prop :=
  exists hs, fs_trace w' = fs_trace w ++ hs /\ List.last hs (fs w) = fs w'.

(** A component as it appears in a key: not empty, not a dot, without
    slash. *)
Definition plain (c : string) : Prop :=
  c <> "" /\ c <> "." /\ Str.has_char Str.slash c = false.

(** The absolute path the key of [p] is computed from. *)
Definition anchored (E : env) (p : string) : string :=
  if Str.startswith p "/" then p else Path.join (getcwd E) p.

(** What [os.path.join] puts in front of its second argument. *)
Definition join_prefix (a b : string) : string :=
  if Str.startswith b "/" then ""
  else if String.eqb a "" || Str.endswith a "/" then a
  else a +:+ "/".

Definition add_requests (qs : list request) (w : world) : world :=
  World (fs w) (fs_trace w) (stdout w) (requests w ++ qs) (launched w).

Definition add_output (ls : list line) (w : world) : world :=
  World (fs w) (fs_trace w) (stdout w ++ ls) (requests w) (launched w).

(** The catalog resolves the record [f]: its add-on metadata is [info]
    and its download URL is [url]. *)
Definition resolves (E : env) (f : json) (url : string) (info : json) : Prop :=
  exists p i cs1 cs2 pj,
    Py.getitem f "projectID" = Ret p /\ Py.is_int p = true
    /\ Py.getitem f "fileID" = Ret i /\ Py.is_int i = true
    /\ answers E (info_request p) cs1 (Some info)
    /\ answers E (download_url_request p i) cs2 pj
    /\ url = String.concat "" cs2.

(** The destination derived for the record [f], an add-on called
    [name], exists in the file system [f0]. *)
Definition already_there (E : env) (folder : string) (f0 : FS) (f name : json)
  : Prop :=
  exists url info required,
    resolves E f url info
    /\ Py.getitem info "name" = Ret name
    /\ Py.getitem f "required" = Ret required
    /\ is_Some (stat E f0 (manifest_destpath folder url required)).

Definition reused_line (name : json) : line := Line "    Reused {}" [name].

(** ** Further notions the properties are stated with *)



(** * Strings *)

Lemma str_app_nil (s : string) : "" +:+ s = s.
Proof. reflexivity. Qed.

Lemma str_app_cons (c : ascii) (s t : string) : String c s +:+ t = String c (s +:+ t).
Proof. reflexivity. Qed.

Ltac ssimpl := rewrite ?str_app_cons, ?str_app_nil; simpl.

Section StringFacts.

Lemma str_app_empty_r (s : string) : s +:+ "" = s.
Proof. induction s as [|c s IH]; ssimpl; [done | by rewrite IH]. Qed.

Lemma str_app_assoc (a b c : string) : (a +:+ b) +:+ c = a +:+ (b +:+ c).
Proof. induction a as [|x a IH]; ssimpl; [done | by rewrite IH]. Qed.

Lemma str_length_app (a b : string) :
  String.length (a +:+ b) = String.length a + String.length b.
Proof. induction a as [|x a IH]; ssimpl; [done | by rewrite IH]. Qed.

Lemma substring_app_l (a b : string) :
  String.substring 0 (String.length a) (a +:+ b) = a.
Proof.
  induction a as [|x a IH]; ssimpl.
  - by destruct b.
  - by rewrite IH.
Qed.

Lemma drop_last_app (n : nat) (p e : string) :
  String.length e = n -> Str.drop_last n (p +:+ e) = p.
Proof.
  intros <-. unfold Str.drop_last. rewrite str_length_app.
  replace (String.length p + String.length e - String.length e)
    with (String.length p) by lia.
  apply substring_app_l.
Qed.

Lemma endswith_eq (s suf : string) :
  Str.endswith s suf
  = if String.eqb s suf then true
    else match s with
         | EmptyString => false
         | String _ s' => Str.endswith s' suf
         end.
Proof. by destruct s. Qed.

Lemma endswith_app (p suf : string) : Str.endswith (p +:+ suf) suf = true.
Proof.
  induction p as [|c p IH]; rewrite endswith_eq.
  - by rewrite str_app_nil, String.eqb_refl.
  - rewrite str_app_cons, IH. by case_match.
Qed.

Lemma endswith_inv (s suf : string) :
  Str.endswith s suf = true -> exists p, s = p +:+ suf.
Proof.
  induction s as [|c s IH]; rewrite endswith_eq.
  - destruct (String.eqb_spec "" suf) as [<-|]; [by exists "" | done].
  - destruct (String.eqb_spec (String c s) suf) as [<-|].
    + by exists "".
    + intros [p ->]%IH. by exists (String c p).
Qed.

Lemma has_char_app (c : ascii) (a b : string) :
  Str.has_char c (a +:+ b) = Str.has_char c a || Str.has_char c b.
Proof.
  induction a as [|x a IH]; ssimpl; [done|].
  rewrite IH. by destruct (Ascii.eqb x c).
Qed.

Lemma split_nonempty (c : ascii) (s : string) : Str.split c s <> [].
Proof.
  induction s as [|x s IH]; ssimpl; [done|].
  destruct (Ascii.eqb x c); [done|]. by destruct (Str.split c s).
Qed.

Lemma split_no_sep (c : ascii) (s : string) :
  Str.has_char c s = false -> Str.split c s = [s].
Proof.
  induction s as [|x s IH]; ssimpl; [done|].
  destruct (Ascii.eqb x c); ssimpl; [done|]. intros H. by rewrite IH.
Qed.

(** Splitting distributes over a separator between two strings. *)
Lemma split_app_sep (c : ascii) (a b : string) :
  Str.split c (a +:+ String c b) = Str.split c a ++ Str.split c b.
Proof.
  induction a as [|x a IH]; ssimpl.
  - by rewrite Ascii.eqb_refl.
  - destruct (Ascii.eqb x c); [by rewrite IH|].
    rewrite IH. pose proof (split_nonempty c a).
    by destruct (Str.split c a).
Qed.

(** Text without separator appended to a string extends its last field. *)
Lemma split_app_tail (c : ascii) (a t : string) :
  Str.has_char c t = false ->
  Str.split c (a +:+ t)
  = removelast (Str.split c a) ++ [Str.last (Str.split c a) +:+ t].
Proof.
  intros Ht. induction a as [|x a IH]; ssimpl.
  - by rewrite split_no_sep.
  - destruct (Ascii.eqb x c).
    + rewrite IH. pose proof (split_nonempty c a).
      unfold Str.last. destruct (Str.split c a) eqn:Hs; [done|]. done.
    + rewrite IH. pose proof (split_nonempty c a).
      unfold Str.last. destruct (Str.split c a) as [|h [|h' tl]] eqn:Hs; [done| |]; ssimpl; done.
Qed.

Lemma split_fields_no_sep (c : ascii) (s : string) :
  Forall (fun f => Str.has_char c f = false) (Str.split c s).
Proof.
  induction s as [|x s IH]; ssimpl; [by constructor|].
  destruct (Ascii.eqb x c) eqn:Hx; [by constructor|].
  pose proof (split_nonempty c s).
  destruct (Str.split c s) as [|h tl]; [done|].
  inversion IH; subst. constructor; [|done]. ssimpl. by rewrite Hx.
Qed.

Lemma last_no_sep (c : ascii) (s : string) :
  Str.has_char c (Str.last (Str.split c s)) = false.
Proof.
  pose proof (split_fields_no_sep c s) as HF.
  pose proof (split_nonempty c s) as Hne.
  unfold Str.last. induction (Str.split c s) as [|h tl IH]; [done|].
  inversion HF; subst. destruct tl; [done|]. apply IH; done.
Qed.

Lemma last_split_app_tail (c : ascii) (a t : string) :
  Str.has_char c t = false ->
  Str.last (Str.split c (a +:+ t)) = Str.last (Str.split c a) +:+ t.
Proof.
  intros Ht. rewrite split_app_tail by done.
  unfold Str.last. by rewrite last_last.
Qed.

Lemma last_split_sep_end (c : ascii) (a : string) :
  Str.last (Str.split c (a +:+ String c "")) = "".
Proof.
  rewrite split_app_sep. ssimpl. unfold Str.last. by rewrite last_last.
Qed.

End StringFacts.

(** * Paths *)

Section PathFacts.

Lemma last_app_nonempty {A} (l l' : list A) (d : A) :
  l' <> [] -> List.last (l ++ l') d = List.last l' d.
Proof.
  intros Hne. induction l as [|x l IH]; [done|].
  simpl. rewrite IH. destruct (l ++ l') eqn:Happ; [|done].
  by apply app_eq_nil in Happ as [_ ->].
Qed.

Lemma last_default {A} (l : list A) (d d' : A) :
  l <> [] -> List.last l d = List.last l d'.
Proof.
  induction l as [|x l IH]; [done|]. intros _.
  destruct l; [done|]. simpl in *. by apply IH.
Qed.

Lemma join_eq (a b : string) : Path.join a b = join_prefix a b +:+ b.
Proof.
  unfold Path.join, join_prefix. repeat case_match; try done.
  by rewrite str_app_assoc.
Qed.

Lemma join_prefix_shape (a b : string) :
  join_prefix a b = "" \/ exists p, join_prefix a b = p +:+ "/".
Proof.
  unfold join_prefix. destruct (Str.startswith b "/"); [by left|].
  destruct (String.eqb_spec a "") as [->|Ha]; simpl; [by left|].
  destruct (Str.endswith a "/") eqn:He.
  - apply endswith_inv in He as [p ->]. right. by exists p.
  - right. by exists a.
Qed.

Lemma join_prefix_last (a b : string) :
  Str.last (Str.split Str.slash (join_prefix a b)) = "".
Proof.
  destruct (join_prefix_shape a b) as [-> | [p ->]]; [done|].
  apply last_split_sep_end.
Qed.

Lemma startswith_slash_app (b t : string) :
  Str.startswith t "/" = false ->
  Str.startswith (b +:+ t) "/" = Str.startswith b "/".
Proof. intros Ht. destruct b as [|c b]; [by rewrite str_app_nil, Ht | rewrite str_app_cons; reflexivity]. Qed.

Lemma join_split (c : ascii) (s : string) :
  Str.join (String c "") (Str.split c s) = s.
Proof.
  induction s as [|x s IH]; [done|].
  pose proof (split_nonempty c s) as Hne. simpl.
  destruct (Ascii.eqb_spec x c) as [->|Hx].
  - destruct (Str.split c s) as [|h tl] eqn:Hs; [done|].
    change (Str.join (String c "") ("" :: h :: tl))
      with ("" +:+ String c "" +:+ Str.join (String c "") (h :: tl)).
    by rewrite IH.
  - destruct (Str.split c s) as [|h tl] eqn:Hs; [done|].
    destruct tl as [|h' tl]; simpl in *; [by rewrite IH|].
    rewrite str_app_cons. by rewrite IH.
Qed.

(** Every string ends with its last field. *)
Lemma ends_in_last_field (c : ascii) (s : string) :
  exists pre, s = pre +:+ Str.last (Str.split c s).
Proof.
  induction s as [|x s [pre IH]]; [by exists ""|].
  pose proof (split_nonempty c s) as Hne.
  pose proof (join_split c s) as Hjs.
  simpl. unfold Str.last in *.
  destruct (Ascii.eqb x c).
  - exists (String x pre). rewrite str_app_cons. f_equal.
    destruct (Str.split c s) as [|h tl] eqn:Hs; [done|]. exact IH.
  - destruct (Str.split c s) as [|h [|h' tl]] eqn:Hs; [done| |].
    + simpl in Hjs. subst h. by exists "".
    + exists (String x pre). rewrite str_app_cons. f_equal. exact IH.
Qed.

(** A suffix without slash is a suffix of the joined path exactly when
    it is one of the second argument. *)
Lemma endswith_join (a b suf : string) :
  Str.has_char Str.slash suf = false ->
  Str.endswith (Path.join a b) suf = Str.endswith b suf.
Proof.
  intros Hsuf. rewrite join_eq.
  destruct (Str.endswith b suf) eqn:Hb.
  - apply endswith_inv in Hb as [q ->].
    rewrite <- str_app_assoc. apply endswith_app.
  - destruct (Str.endswith (join_prefix a b +:+ b) suf) eqn:Hj; [|done].
    exfalso. apply endswith_inv in Hj as [q Hq].
    destruct (join_prefix_shape a b) as [Hp | [p Hp]]; rewrite Hp in Hq.
    + rewrite str_app_nil in Hq. apply Bool.not_true_iff_false in Hb. apply Hb.
      rewrite Hq. apply endswith_app.
    + assert (Str.last (Str.split Str.slash b)
              = Str.last (Str.split Str.slash q) +:+ suf) as Hlast.
      { rewrite <- (last_split_app_tail Str.slash q suf) by done.
        rewrite <- Hq, str_app_assoc.
        change ("/" +:+ b) with (String Str.slash b).
        rewrite split_app_sep. unfold Str.last.
        symmetry. apply last_app_nonempty, split_nonempty. }
      destruct (ends_in_last_field Str.slash b) as [pre Hpre].
      apply Bool.not_true_iff_false in Hb. apply Hb.
      rewrite Hpre, Hlast, <- str_app_assoc. apply endswith_app.
Qed.

Lemma basename_join (folder fn sfx : string) :
  Str.has_char Str.slash fn = false ->
  Str.has_char Str.slash sfx = false ->
  Path.basename (Path.join folder fn +:+ sfx) = fn +:+ sfx.
Proof.
  intros Hfn Hsfx. unfold Path.basename.
  rewrite join_eq, str_app_assoc, last_split_app_tail.
  - by rewrite join_prefix_last.
  - rewrite has_char_app, Hfn, Hsfx. done.
Qed.

End PathFacts.

(** * The destination of a mod file *)

(** C6. For a file record, the local file name is the final path segment
    of the resolved download URL, followed by the marker [.disabled]
    when the record is not required and by nothing when it is; the file
    lies in the mods folder. *)
Theorem destination_filename (folder url : string) (required : bool) :
  let filename := Str.last (Str.split Str.slash url) in
  let marker := if required then "" else ".disabled" in
  manifest_destpath folder url (JBool required)
  = Path.join folder filename +:+ marker
  /\ Path.basename (manifest_destpath folder url (JBool required))
     = filename +:+ marker.
Proof.
  intros filename marker. unfold manifest_destpath. fold filename.
  assert (Str.has_char Str.slash filename = false) as Hfn
      by apply last_no_sep.
  destruct required; simpl; subst marker.
  - rewrite !str_app_empty_r. split; [done|].
    rewrite <- (str_app_empty_r (Path.join folder filename)).
    rewrite basename_join; [apply str_app_empty_r | done | done].
  - split; [done|]. by apply basename_join.
Qed.

(** * The installer artifact *)

Lemma archive_ext_length (ext : string) :
  archive_ext ext = true -> String.length ext = 4 /\ Str.startswith ext "/" = false.
Proof.
  destruct ext as [|c [|c1 [|c2 [|c3 [|]]]]]; try done.
  simpl. intros Hc. apply Ascii.eqb_eq in Hc as ->. done.
Qed.

(** C7. A loader file name and URL that end in a four-character archive
    extension, the name not ending in [-installer.jar], are both
    rewritten: the extension is removed and [-installer.jar] appended.
    A file name that already ends in [-installer.jar] is kept, and so is
    its URL. *)
Theorem installer_rewrite (out_dname : string) :
  (forall base ubase ext : string,
      archive_ext ext = true ->
      Str.endswith (base +:+ ext) installer_suffix = false ->
      installer_target (Path.join out_dname (base +:+ ext)) (JStr (ubase +:+ ext))
      = Ret (Path.join out_dname (base +:+ installer_suffix),
             JStr (ubase +:+ installer_suffix)))
  /\ (forall (fname : string) (url : json),
         Str.endswith fname installer_suffix = true ->
         installer_target (Path.join out_dname fname) url
         = Ret (Path.join out_dname fname, url)).
Proof.
  split.
  - intros base ubase ext Hext Hns.
    apply archive_ext_length in Hext as [Hlen Hstart].
    unfold installer_target.
    rewrite endswith_join by done. fold installer_suffix. rewrite Hns. simpl.
    rewrite (drop_last_app 4 ubase ext) by done.
    rewrite !join_eq.
    assert (join_prefix out_dname (base +:+ ext)
            = join_prefix out_dname (base +:+ installer_suffix)) as ->.
    { unfold join_prefix. by rewrite !startswith_slash_app. }
    rewrite <- str_app_assoc, drop_last_app by done.
    by rewrite <- !str_app_assoc.
  - intros fname url Hend. unfold installer_target.
    rewrite endswith_join by done. fold installer_suffix. by rewrite Hend.
Qed.

Lemma installer_rewrite_witness :
  installer_target (Path.join "pack" ("forge-36.0.0" +:+ ".jar"))
                   (JStr ("https://maven/forge-36.0.0" +:+ ".jar"))
  = Ret (Path.join "pack" ("forge-36.0.0" +:+ installer_suffix),
         JStr ("https://maven/forge-36.0.0" +:+ installer_suffix))
  /\ installer_target (Path.join "pack" "forge-36.0.0-installer.jar")
                      (JStr "https://maven/forge-36.0.0-installer.jar")
     = Ret (Path.join "pack" "forge-36.0.0-installer.jar",
            JStr "https://maven/forge-36.0.0-installer.jar").
Proof.
  split.
  - apply (proj1 (installer_rewrite "pack")); reflexivity.
  - apply (proj2 (installer_rewrite "pack")); reflexivity.
Defined.

Example forge_jar_becomes_installer :
  installer_target (Path.join "pack" "forge-36.0.0.jar") (JStr "https://maven/forge-36.0.0.jar")
  = Ret ("pack/forge-36.0.0-installer.jar", JStr "https://maven/forge-36.0.0-installer.jar").
Proof. reflexivity. Qed.

(** * Reasoning about computations *)

Lemma bind_inv {A B} (m : M A) (k : A -> M B) w r w' :
  bind m k w = (r, w') ->
  (exists a w1, m w = (Ret a, w1) /\ k a w1 = (r, w'))
  \/ (exists e, m w = (Raise e, w') /\ r = Raise e).
Proof.
  unfold bind. destruct (m w) as [[a|e] w1]; intros H.
  - left. by exists a, w1.
  - right. exists e. by inversion H.
Qed.

Lemma bind_ret_eq {A B} (m : M A) (k : A -> M B) w a w1 :
  m w = (Ret a, w1) -> bind m k w = k a w1.
Proof. unfold bind. by intros ->. Qed.

Section Preserves.
Context (R : world -> world -> Prop) `{!Reflexive R} `{!Transitive R}.

Lemma preserves_ret {A} (a : A) : preserves R (ret a).
Proof. intros w r w' [= <- <-]. reflexivity. Qed.

Lemma preserves_raise {A} (e : exn) : preserves R (@raise A e).
Proof. intros w r w' [= <- <-]. reflexivity. Qed.

Lemma preserves_lift {A} (o : outcome A) : preserves R (lift o).
Proof. intros w r w' [= <- <-]. reflexivity. Qed.

Lemma preserves_get_fs : preserves R get_fs.
Proof. intros w r w' [= <- <-]. reflexivity. Qed.

Lemma preserves_assert (b : bool) : preserves R (assert b).
Proof. destruct b; [apply preserves_ret | apply preserves_raise]. Qed.

Lemma preserves_bind {A B} (m : M A) (k : A -> M B) :
  preserves R m -> (forall a, preserves R (k a)) -> preserves R (bind m k).
Proof.
  intros Hm Hk w r w' [(a & w1 & H1 & H2) | (e & H1 & _)]%bind_inv.
  - etransitivity; [by eapply Hm | by eapply Hk].
  - by eapply Hm.
Qed.

Lemma preserves_try_except {A} (m h : M A) (e : exn) :
  preserves R m -> preserves R h -> preserves R (try_except m e h).
Proof.
  intros Hm Hh w r w'. unfold try_except.
  destruct (m w) as [[a|e'] w1] eqn:Hrun.
  - intros [= <- <-]. by eapply Hm.
  - destruct (decide (e' = e)); intros H.
    + etransitivity; [by eapply Hm | by eapply Hh].
    + inversion H; subst. by eapply Hm.
Qed.

Lemma preserves_finally {A} (m : M A) (c : world -> world) :
  preserves R m -> (forall w, R w (c w)) -> preserves R (finally m c).
Proof.
  intros Hm Hc w r w'. unfold finally.
  destruct (m w) as [r1 w1] eqn:Hrun. intros [= <- <-].
  etransitivity; [by eapply Hm | apply Hc].
Qed.

Lemma preserves_for_each {A} (l : list A) (body : A -> M unit) :
  (forall x, preserves R (body x)) -> preserves R (for_each l body).
Proof.
  intros Hb. induction l as [|x l IH]; simpl.
  - apply preserves_ret.
  - apply preserves_bind; [apply Hb | intros _; apply IH].
Qed.

End Preserves.

Lemma same_io_refl : Reflexive same_io.
Proof. by intros w. Qed.
Global Existing Instance same_io_refl.
Lemma same_io_trans : Transitive same_io.
Proof. intros a b c (?&?&?) (?&?&?). repeat split; congruence. Qed.
Global Existing Instance same_io_trans.

Lemma same_disk_refl : Reflexive same_disk.
Proof. by intros w. Qed.
Global Existing Instance same_disk_refl.
Lemma same_disk_trans : Transitive same_disk.
Proof. intros a b c (?&?) (?&?). split; congruence. Qed.
Global Existing Instance same_disk_trans.

Lemma only_streams_refl : Reflexive only_streams.
Proof. intros w. exists []. by rewrite app_nil_r. Qed.
Global Existing Instance only_streams_refl.
Lemma only_streams_trans : Transitive only_streams.
Proof.
  intros a b c (r1 & H1 & F1) (r2 & H2 & F2). exists (r1 ++ r2). split.
  - by rewrite H2, H1, <- app_assoc.
  - by apply Forall_app.
Qed.
Global Existing Instance only_streams_trans.

Lemma confined_refl K : Reflexive (confined K).
Proof.
  intros w. split; [done|]. exists []. by rewrite app_nil_r.
Qed.
Global Existing Instance confined_refl.
Lemma confined_trans K : Transitive (confined K).
Proof.
  intros a b c (A1 & h1 & T1 & F1) (A2 & h2 & T2 & F2). split.
  - intros k Hk. by rewrite A2, A1.
  - exists (h1 ++ h2). split; [by rewrite T2, T1, <- app_assoc|].
    apply Forall_app. split; [done|].
    eapply Forall_impl; [exact F2|]. intros s Hs k Hk. by rewrite Hs, A1.
Qed.
Global Existing Instance confined_trans.

(** Printing and logging leave the file system alone; file-system calls
    print and request nothing. *)
Lemma print_same_disk t args : preserves same_disk (print t args).
Proof. by intros w r w' [= <- <-]. Qed.

Lemma print_only_streams t args : preserves only_streams (print t args).
Proof. intros w r w' [= <- <-]. exists []. by rewrite app_nil_r. Qed.

Lemma print_confined K t args : preserves (confined K) (print t args).
Proof.
  intros w r w' [= <- <-]. split; [done|]. exists []. by rewrite app_nil_r.
Qed.

Lemma put_fs_same_io f : preserves same_io (put_fs f).
Proof. by intros w r w' [= <- <-]. Qed.

Lemma put_fs_only_streams f : preserves only_streams (put_fs f).
Proof. intros w r w' [= <- <-]. exists []. by rewrite app_nil_r. Qed.

Lemma log_request_confined K q : preserves (confined K) (log_request q).
Proof.
  intros w r w' [= <- <-]. split; [done|]. exists []. by rewrite app_nil_r.
Qed.

Lemma log_request_same_disk q : preserves same_disk (log_request q).
Proof. by intros w r w' [= <- <-]. Qed.

(** * The validity check *)

Section Validity.
Context (E : env).


(** On an archive the check is decided by the manifest. *)
Lemma is_modpack_zip_archive (fpath : string) (w : world) members :
  stat E (fs w) fpath = Some (File (ZipArchive members)) ->
  is_modpack_zip E fpath w
  = match get_manifest members with
    | Raise KeyError => (Ret false, w)
    | Raise e => (Raise e, w)
    | Ret mf =>
        match Py.getitem mf "manifestType" with
        | Raise KeyError => (Ret false, w)
        | Raise e => (Raise e, w)
        | Ret t => (Ret (Py.eq_str t "minecraftModpack"), w)
        end
    end.
Proof.
  intros Hs.
  unfold is_modpack_zip, zipfile_is_zipfile, zipfile_open, try_except,
    bind, get_fs, lift, ret.
  rewrite Hs. simpl. rewrite Hs. simpl.
  destruct (get_manifest members) as [mf|e]; simpl.
  - destruct (Py.getitem mf "manifestType") as [t|e]; simpl; [done|].
    by destruct e.
  - by destruct e.
Qed.


(** A manifest that [json.load] rejects is not among them. *)
Lemma is_modpack_zip_parse_error (fpath : string) (w : world) members d :
  stat E (fs w) fpath = Some (File (ZipArchive members)) ->
  zip_getinfo "manifest.json" members = Some d ->
  json_load d = Raise ValueError ->
  is_modpack_zip E fpath w = (Raise ValueError, w).
Proof.
  intros Hs Hd Hload. rewrite (is_modpack_zip_archive _ _ _ Hs).
  unfold get_manifest. by rewrite Hd, Hload.
Qed.

Lemma eq_str_false (t : json) (s : string) : t <> JStr s -> Py.eq_str t s = false.
Proof.
  intros Hne. destruct t; try done. simpl.
  destruct (String.eqb_spec s0 s); [by subst | done].
Qed.

(** C8. When the manifest's [manifestType] is not [minecraftModpack],
    the validity check returns false and the run only prints: the file
    system is what it was, in particular no output directory is
    created, and no request is made. *)
Theorem wrong_manifest_type_creates_nothing
    (argv : list string) (tgt_zip : string) (w : world) members mf t :
  argv !! 1 = Some tgt_zip ->
  stat E (fs w) tgt_zip = Some (File (ZipArchive members)) ->
  get_manifest members = Ret mf ->
  Py.getitem mf "manifestType" = Ret t ->
  t <> JStr "minecraftModpack" ->
  is_modpack_zip E tgt_zip w = (Ret false, w)
  /\ exists w', main E argv w = (Ret tt, w')
                /\ fs w' = fs w
                /\ fs_trace w' = fs_trace w
                /\ requests w' = requests w
                /\ launched w' = launched w
                /\ stat E (fs w') (output_dir_for_zip tgt_zip)
                   = stat E (fs w) (output_dir_for_zip tgt_zip).
Proof.
  intros Harg Hs Hmf Ht Hne.
  assert (forall w0, fs w0 = fs w -> is_modpack_zip E tgt_zip w0 = (Ret false, w0))
    as Hcheck.
  { intros w0 Hw0. rewrite (is_modpack_zip_archive tgt_zip w0 members)
      by (by rewrite Hw0).
    by rewrite Hmf, Ht, eq_str_false. }
  split; [by apply Hcheck|].
  unfold main. rewrite Harg.
  destruct (existsb (String.eqb "-h") argv || existsb (String.eqb "--help") argv).
  - eexists. split.
    + unfold bind at 1. unfold lift. unfold bind at 1. unfold print at 1.
      unfold bind at 1. rewrite Hcheck by done. reflexivity.
    + done.
  - eexists. split.
    + unfold bind at 1. unfold lift. unfold bind at 1. unfold ret at 1.
      unfold bind at 1. rewrite Hcheck by done. reflexivity.
    + done.
Qed.

End Validity.

Lemma wrong_manifest_type_creates_nothing_witness :
  is_modpack_zip Demo.E "pack.zip" (Demo.boot Demo.other_pack)
  = (Ret false, Demo.boot Demo.other_pack)
  /\ exists w', main Demo.E Demo.argv (Demo.boot Demo.other_pack) = (Ret tt, w')
                /\ fs w' = fs (Demo.boot Demo.other_pack)
                /\ fs_trace w' = fs_trace (Demo.boot Demo.other_pack)
                /\ requests w' = requests (Demo.boot Demo.other_pack)
                /\ launched w' = launched (Demo.boot Demo.other_pack)
                /\ stat Demo.E (fs w') (output_dir_for_zip "pack.zip")
                   = stat Demo.E (fs (Demo.boot Demo.other_pack))
                          (output_dir_for_zip "pack.zip").
Proof.
  apply (wrong_manifest_type_creates_nothing Demo.E Demo.argv "pack.zip"
           (Demo.boot Demo.other_pack) Demo.other_pack
           (Demo.manifest "minecraftResourcePack" [] Demo.forge)
           (JStr "minecraftResourcePack")).
  - reflexivity.
  - vm_compute. reflexivity.
  - reflexivity.
  - reflexivity.
  - discriminate.
Defined.

(** C3, at a manifest that is not JSON: the parse error of [json.load]
    is not a [KeyError], so it leaves [is_modpack_zip] uncaught. *)
Lemma is_modpack_zip_raises_on_malformed_manifest :
  (is_modpack_zip Demo.E "pack.zip" (Demo.boot Demo.broken_pack)).1
  = Raise ValueError.
Proof. vm_compute. reflexivity. Qed.

(** * What the library calls touch *)

Lemma preserves_weaken {A} (R R' : world -> world -> Prop) (m : M A) :
  (forall w w', R w w' -> R' w w') -> preserves R m -> preserves R' m.
Proof. intros Hsub Hm w r w' Hrun. eapply Hsub, Hm, Hrun. Qed.

Lemma same_io_only_streams w w' : same_io w w' -> only_streams w w'.
Proof. intros (_ & Hr & _). exists []. by rewrite app_nil_r. Qed.

Lemma same_disk_confined K w w' : same_disk w w' -> confined K w w'.
Proof.
  intros [Hf Ht]. split; [by rewrite Hf|]. exists []. by rewrite app_nil_r.
Qed.

Ltac pres_step :=
  match goal with
  | |- preserves _ (bind _ _) => apply preserves_bind; [apply _ | | intros ?]
  | |- preserves _ (ret _) => apply preserves_ret; apply _
  | |- preserves _ (raise _) => apply preserves_raise; apply _
  | |- preserves _ (lift _) => apply preserves_lift; apply _
  | |- preserves _ get_fs => apply preserves_get_fs; apply _
  | |- preserves _ (assert _) => apply preserves_assert; apply _
  | |- preserves _ (for_each _ _) =>
      apply preserves_for_each; [apply _ | apply _ | intros ?]
  | |- preserves _ (try_except _ _ _) => apply preserves_try_except; [apply _ | | ]
  | |- preserves _ (if ?b then _ else _) => destruct b
  | |- preserves _ (match ?x with _ => _ end) => destruct x
  end.

Create HintDb pres.

Ltac pres := cbv zeta; repeat (pres_step; cbv zeta); eauto with pres typeclass_instances.

Global Hint Resolve put_fs_same_io put_fs_only_streams print_same_disk
  print_only_streams print_confined log_request_confined log_request_same_disk : pres.

Section LibraryFrames.
Context (E : env).

Lemma os_path_exists_same_io p : preserves same_io (os_path_exists E p).
Proof. unfold os_path_exists. pres. Qed.

Lemma os_path_exists_same_disk p : preserves same_disk (os_path_exists E p).
Proof. unfold os_path_exists. pres. Qed.

Lemma os_path_isdir_same_io p : preserves same_io (os_path_isdir E p).
Proof. unfold os_path_isdir. pres. Qed.

Lemma open_wb_same_io p : preserves same_io (open_wb E p).
Proof. unfold open_wb. pres. Qed.

Lemma fd_write_same_io p c : preserves same_io (fd_write E p c).
Proof. unfold fd_write. pres. Qed.

Lemma os_rename_same_io a b : preserves same_io (os_rename E a b).
Proof. unfold os_rename. pres. Qed.

Hint Resolve os_path_exists_same_io os_path_isdir_same_io open_wb_same_io
  fd_write_same_io os_rename_same_io : pres.

Lemma shutil_move_same_io a b : preserves same_io (shutil_move E a b).
Proof. unfold shutil_move. pres. Qed.

Lemma write_chunks_same_io p cs : preserves same_io (write_chunks E p cs).
Proof. unfold write_chunks. pres. Qed.

Lemma commit_same_io r : preserves same_io (commit r).
Proof. unfold commit. pres. Qed.

Lemma session_get_stream_only_streams url :
  preserves only_streams (session_get E url true).
Proof.
  unfold session_get. destruct url; pres.
  intros w r w' [= <- <-]. exists [Request s true]. split; [done|].
  by constructor.
Qed.

Lemma session_get_same_disk url stream :
  preserves same_disk (session_get E url stream).
Proof. unfold session_get. destruct url; pres. Qed.

Lemma raise_for_status_any R `{!Reflexive R} r : preserves R (raise_for_status r).
Proof. unfold raise_for_status. pres. Qed.

Hint Resolve shutil_move_same_io write_chunks_same_io commit_same_io
  session_get_stream_only_streams session_get_same_disk : pres.
Hint Extern 5 (preserves only_streams _) =>
  (eapply preserves_weaken; [apply same_io_only_streams|]) : pres.
Hint Extern 1 (preserves _ (raise_for_status _)) =>
  (apply raise_for_status_any; apply _) : pres.

Lemma download_to_file_only_streams url file ow :
  preserves only_streams (download_to_file E url file ow).
Proof. unfold download_to_file, stream_to_part. pres. Qed.

Lemma subprocess_run_only_streams cmd : preserves only_streams (subprocess_run E cmd).
Proof.
  unfold subprocess_run. pres.
  intros w r w' [= <- <-]. exists []. by rewrite app_nil_r.
Qed.

End LibraryFrames.

Global Hint Resolve os_path_exists_same_io os_path_exists_same_disk
  os_path_isdir_same_io open_wb_same_io fd_write_same_io os_rename_same_io
  shutil_move_same_io write_chunks_same_io commit_same_io
  session_get_stream_only_streams session_get_same_disk
  download_to_file_only_streams subprocess_run_only_streams : pres.
Global Hint Extern 5 (preserves only_streams _) =>
  (eapply preserves_weaken; [apply same_io_only_streams|]) : pres.
Global Hint Extern 1 (preserves _ (raise_for_status _)) =>
  (apply raise_for_status_any; apply _) : pres.

(** * The catalog requests of a mod *)

Section Catalog.
Context (E : env).

Lemma session_get_answers (u : string) cs pj (w : world) :
  answers E u cs pj ->
  exists r, session_get E (JStr u) false w
            = (Ret r, add_requests [Request u false] w)
            /\ raise_for_status r = ret tt
            /\ body_chunks r = cs /\ body_json r = pj.
Proof.
  intros (st & Hhttp & Hst). exists (Response st cs true pj).
  unfold session_get, bind, log_request. rewrite Hhttp. simpl.
  unfold raise_for_status. simpl. by rewrite Hst.
Qed.

Lemma get_info_run (p info : json) cs (w : world) :
  Py.is_int p = true ->
  answers E (info_request p) cs (Some info) ->
  get_info E p w = (Ret info, add_requests [Request (info_request p) false] w).
Proof.
  intros Hp Ha. destruct (session_get_answers _ _ _ w Ha) as (r & Hr & Hs & _ & Hj).
  unfold get_info. rewrite Hp. simpl.
  unfold bind at 1. unfold ret at 1.
  rewrite (bind_ret_eq _ _ _ _ _ Hr). rewrite Hs.
  unfold bind, ret, response_json. by rewrite Hj.
Qed.

Lemma get_download_url_run (p i : json) cs pj (w : world) :
  Py.is_int p = true -> Py.is_int i = true ->
  answers E (download_url_request p i) cs pj ->
  get_download_url E p i w
  = (Ret (String.concat "" cs),
     add_requests [Request (download_url_request p i) false] w).
Proof.
  intros Hp Hi Ha.
  destruct (session_get_answers _ _ _ w Ha) as (r & Hr & Hs & Hc & _).
  unfold get_download_url. rewrite Hp, Hi. simpl.
  unfold bind at 1. unfold ret at 1. unfold bind at 1. unfold ret at 1.
  rewrite (bind_ret_eq _ _ _ _ _ Hr). rewrite Hs.
  unfold bind, ret, response_text. by rewrite Hc.
Qed.

Lemma catalog_requests_resolved (f : json) url info :
  resolves E f url info ->
  exists p i, Py.getitem f "projectID" = Ret p /\ Py.getitem f "fileID" = Ret i
              /\ catalog_requests f
                 = [Request (info_request p) false;
                    Request (download_url_request p i) false].
Proof.
  intros (p & i & ? & ? & ? & Hp & _ & Hi & _). exists p, i.
  unfold catalog_requests. by rewrite Hp, Hi.
Qed.

Lemma catalog_requests_not_streamed (f : json) :
  Forall (fun q => req_stream q = false) (catalog_requests f).
Proof.
  unfold catalog_requests. repeat case_match; repeat constructor.
Qed.

(** The per-mod step up to the existence test. *)
Lemma download_manifest_file_resolved (f : json) folder force url info (w : world) :
  resolves E f url info ->
  download_manifest_file E f folder force w
  = (required <- lift (Py.getitem f "required") ;;
     let destpath := manifest_destpath folder url required in
     ex <- os_path_exists E destpath ;;
     if ex && negb force then
       name <- lift (Py.getitem info "name") ;;
       print "    Reused {}" [name]
     else
       name <- lift (Py.getitem info "name") ;;
       print "    Downloading {}" [name] ;;
       download_to_file E (JStr url) destpath false)
      (add_requests (catalog_requests f) w).
Proof.
  intros Hres. destruct (catalog_requests_resolved _ _ _ Hres) as (p0 & i0 & Hp0 & Hi0 & ->).
  destruct Hres as (p & i & cs1 & cs2 & pj & Hp & Hpi & Hi & Hii & Ha1 & Ha2 & ->).
  rewrite Hp in Hp0. rewrite Hi in Hi0. simplify_eq.
  unfold download_manifest_file.
  rewrite Hp, Hi.
  unfold bind at 1. unfold lift at 1.
  rewrite (bind_ret_eq _ _ _ _ _ (get_info_run _ _ _ _ Hpi Ha1)).
  unfold bind at 1. unfold lift at 1.
  unfold bind at 1. unfold lift at 1.
  rewrite (bind_ret_eq _ _ _ _ _ (get_download_url_run _ _ _ _ _ Hpi Hii Ha2)).
  unfold add_requests. simpl. by rewrite <- app_assoc.
Qed.

Lemma download_manifest_file_reuse (f name : json) folder (w : world) :
  already_there E folder (fs w) f name ->
  download_manifest_file E f folder false w
  = (Ret tt, add_output [reused_line name] (add_requests (catalog_requests f) w)).
Proof.
  intros (url & info & required & Hres & Hname & Hreq & Hex).
  rewrite (download_manifest_file_resolved _ _ _ _ _ _ Hres).
  rewrite Hreq. unfold bind, lift, os_path_exists, get_fs, ret. simpl.
  rewrite bool_decide_eq_true_2 by done. simpl. by rewrite Hname.
Qed.

(** A loop over files that are all there. *)
Lemma reuse_loop folder (files names : list json) (w : world) :
  Forall2 (already_there E folder (fs w)) files names ->
  for_each files (fun f => download_manifest_file E f folder false) w
  = (Ret tt, add_output (map reused_line names)
               (add_requests (flat_map catalog_requests files) w)).
Proof.
  intros HF. revert names w HF. induction files as [|f files IH]; intros names w HF.
  - inversion HF; subst. simpl. unfold ret, add_output, add_requests. simpl.
    rewrite !app_nil_r. clear HF. destruct w; reflexivity.
  - inversion HF as [|? name ? names' Hf HF']; subst. simpl.
    rewrite (bind_ret_eq _ _ _ _ _ (download_manifest_file_reuse _ _ _ _ Hf)).
    rewrite (IH names') by exact HF'. unfold add_output, add_requests. simpl.
    by rewrite <- !app_assoc.
Qed.

End Catalog.

(** * Idempotence of the mods phase *)

Lemma flat_map_catalog_not_streamed (files : list json) :
  Forall (fun q => req_stream q = false) (flat_map catalog_requests files).
Proof.
  induction files as [|f files IH]; simpl; [constructor|].
  apply Forall_app. split; [apply catalog_requests_not_streamed | done].
Qed.

Lemma fetch_installer_present (E : env) (loader_info url name : json)
    (dest_path : string) (w : world) :
  Py.getitem loader_info "name" = Ret name ->
  is_Some (stat E (fs w) dest_path) ->
  fetch_installer E loader_info url dest_path w
  = (Ret tt, add_output [Line "    Downloading '{}'" [name]] w).
Proof.
  intros Hname Hex.
  unfold fetch_installer, try_except, download_to_file, stream_to_part, os_path_exists,
    bind, lift, print, get_fs, ret, raise.
  rewrite Hname. simpl. rewrite bool_decide_eq_true_2 by done. simpl.
  by destruct (decide (FileExistsError = FileExistsError)).
Qed.

(** C5. A run over files whose derived destinations all exist logs each
    of them as reused and downloads nothing: no streamed request is
    made and the file system is not touched, so the files keep their
    contents.  An installer file that is already there is not an error
    either: the loader phase goes on as after a download. *)
Theorem second_run_downloads_nothing (E : env) :
  (forall (mf : json) (folder : string) (files names : list json) (w : world),
      Py.getitem mf "files" = Ret (JArr files) ->
      Forall2 (already_there E folder (fs w)) files names ->
      exists w',
        download_mods E mf folder w = (Ret tt, w')
        /\ stdout w'
           = stdout w ++ Line "Downloading {} mods..." [JInt (Z.of_nat (length files))]
                      :: map reused_line names
        /\ requests w' = requests w ++ flat_map catalog_requests files
        /\ Forall (fun q => req_stream q = false) (flat_map catalog_requests files)
        /\ fs w' = fs w
        /\ fs_trace w' = fs_trace w)
  /\ (forall (loader_info url name : json) (dest_path : string) (w : world),
         Py.getitem loader_info "name" = Ret name ->
         is_Some (stat E (fs w) dest_path) ->
         fetch_installer E loader_info url dest_path w
         = (Ret tt, add_output [Line "    Downloading '{}'" [name]] w)).
Proof.
  split.
  - intros mf folder files names w Hfiles HF.
    eexists. split.
    + unfold download_mods. rewrite Hfiles. simpl.
      unfold bind at 1. unfold lift at 1.
      unfold bind at 1. unfold lift at 1.
      unfold bind at 1. unfold print at 1.
      unfold bind at 1. unfold lift at 1.
      unfold bind at 1. unfold lift at 1.
      apply reuse_loop. exact HF.
    + simpl. rewrite <- app_assoc. simpl.
      repeat split; auto using flat_map_catalog_not_streamed.
  - intros. by apply fetch_installer_present.
Qed.

Lemma second_run_downloads_nothing_witness :
  (exists w',
      download_mods Demo.E
        (Demo.manifest Demo.sentinel [("overrides", JStr "overrides")] Demo.forge)
        "pack/minecraft/mods" Demo.installed = (Ret tt, w')
      /\ requests w'
         = requests Demo.installed
           ++ flat_map catalog_requests
                [Demo.file_record 10 20 true; Demo.file_record 11 21 false]
      /\ fs w' = fs Demo.installed)
  /\ fetch_installer Demo.E (JObj [("name", JStr "forge")])
       (JStr "https://maven/forge-36.0.0-installer.jar")
       "pack/forge-36.0.0-installer.jar" Demo.installed
     = (Ret tt, add_output [Line "    Downloading '{}'" [JStr "forge"]] Demo.installed).
Proof.
  split.
  - destruct (proj1 (second_run_downloads_nothing Demo.E)
                (Demo.manifest Demo.sentinel [("overrides", JStr "overrides")]
                   Demo.forge)
                "pack/minecraft/mods"
                [Demo.file_record 10 20 true; Demo.file_record 11 21 false]
                [JStr "ModA"; JStr "ModB"] Demo.installed)
      as (w' & Hrun & _ & Hreq & _ & Hfs & _).
    + reflexivity.
    + repeat constructor.
      * exists "https://cdn/files/a.jar", (JObj [("name", JStr "ModA")]), (JBool true).
        repeat split; try reflexivity.
        -- exists (JInt 10), (JInt 20), [], ["https://cdn/files/a.jar"], None.
           repeat split; try reflexivity; exists 200%Z; split; reflexivity.
        -- eexists. vm_compute. reflexivity.
      * exists "https://cdn/files/b.jar", (JObj [("name", JStr "ModB")]), (JBool false).
        repeat split; try reflexivity.
        -- exists (JInt 11), (JInt 21), [], ["https://cdn/files/b.jar"], None.
           repeat split; try reflexivity; exists 200%Z; split; reflexivity.
        -- eexists. vm_compute. reflexivity.
    + exists w'. auto.
  - apply (proj2 (second_run_downloads_nothing Demo.E)).
    + reflexivity.
    + eexists. vm_compute. reflexivity.
Defined.

(** * The order of requests in the per-mod step *)

(** C10. The per-mod step makes both catalog requests, metadata first
    and download URL second, whatever the state of the destination:
    they come before anything the step does next, which is at most a
    streamed download.  A run that reuses every file therefore still
    makes two requests per file, and no download. *)
Theorem catalog_requests_precede_reuse (E : env) :
  (forall (f : json) (folder : string) (force : bool) (url : string) (info : json)
          (w : world) r w',
      resolves E f url info ->
      download_manifest_file E f folder force w = (r, w') ->
      exists p i rest,
        Py.getitem f "projectID" = Ret p /\ Py.getitem f "fileID" = Ret i
        /\ requests w'
           = requests w
             ++ [Request (info_request p) false;
                 Request (download_url_request p i) false]
             ++ rest
        /\ Forall (fun q => req_stream q = true) rest)
  /\ (forall (folder : string) (files names : list json) (w : world),
         Forall2 (already_there E folder (fs w)) files names ->
         exists w',
           for_each files (fun f => download_manifest_file E f folder false) w
           = (Ret tt, w')
           /\ requests w' = requests w ++ flat_map catalog_requests files
           /\ length (flat_map catalog_requests files) = 2 * length files
           /\ Forall (fun q => req_stream q = false) (flat_map catalog_requests files)).
Proof.
  split.
  - intros f folder force url info w r w' Hres Hrun.
    rewrite (download_manifest_file_resolved _ _ _ _ _ _ _ Hres) in Hrun.
    destruct (catalog_requests_resolved _ _ _ _ Hres) as (p & i & Hp & Hi & Hcat).
    exists p, i.
    match type of Hrun with
    | ?m _ = _ => assert (preserves only_streams m) as Hpres
    end.
    { pres. }
    apply Hpres in Hrun as (rest & Hreq & Hrest).
    exists rest. repeat split; try done.
    rewrite Hreq. simpl. rewrite Hcat. by rewrite <- app_assoc.
  - intros folder files names w HF. eexists. split; [by apply reuse_loop|].
    simpl. split; [done|]. split; [|apply flat_map_catalog_not_streamed].
    induction HF as [|f name files names Hf _ IH]; [done|].
    destruct Hf as (url & info & _ & Hres & _).
    destruct (catalog_requests_resolved _ _ _ _ Hres) as (p & i & _ & _ & Hcat).
    simpl. rewrite length_app, Hcat, IH. simpl. lia.
Qed.

Lemma catalog_requests_precede_reuse_witness :
  (exists p i rest,
      Py.getitem (Demo.file_record 10 20 true) "projectID" = Ret p
      /\ Py.getitem (Demo.file_record 10 20 true) "fileID" = Ret i
      /\ requests (download_manifest_file Demo.E (Demo.file_record 10 20 true)
                     "pack/minecraft/mods" false Demo.installed).2
         = requests Demo.installed
           ++ [Request (info_request p) false;
               Request (download_url_request p i) false]
           ++ rest
      /\ Forall (fun q => req_stream q = true) rest)
  /\ (exists w',
         for_each [Demo.file_record 10 20 true; Demo.file_record 11 21 false]
           (fun f => download_manifest_file Demo.E f "pack/minecraft/mods" false)
           Demo.installed
         = (Ret tt, w')
         /\ requests w'
            = requests Demo.installed
              ++ flat_map catalog_requests
                   [Demo.file_record 10 20 true; Demo.file_record 11 21 false]
         /\ length (flat_map catalog_requests
                      [Demo.file_record 10 20 true; Demo.file_record 11 21 false])
            = 2 * length [Demo.file_record 10 20 true; Demo.file_record 11 21 false]
         /\ Forall (fun q => req_stream q = false)
              (flat_map catalog_requests
                 [Demo.file_record 10 20 true; Demo.file_record 11 21 false])).
Proof.
  assert (resolves Demo.E (Demo.file_record 10 20 true)
            "https://cdn/files/a.jar" (JObj [("name", JStr "ModA")])) as Ha.
  { exists (JInt 10), (JInt 20), [], ["https://cdn/files/a.jar"], None.
    repeat split; try reflexivity; exists 200%Z; split; reflexivity. }
  assert (resolves Demo.E (Demo.file_record 11 21 false)
            "https://cdn/files/b.jar" (JObj [("name", JStr "ModB")])) as Hb.
  { exists (JInt 11), (JInt 21), [], ["https://cdn/files/b.jar"], None.
    repeat split; try reflexivity; exists 200%Z; split; reflexivity. }
  split.
  - eapply (proj1 (catalog_requests_precede_reuse Demo.E)).
    + exact Ha.
    + apply surjective_pairing.
  - apply (proj2 (catalog_requests_precede_reuse Demo.E) "pack/minecraft/mods"
             [Demo.file_record 10 20 true; Demo.file_record 11 21 false]
             [JStr "ModA"; JStr "ModB"]).
    repeat constructor.
    + exists "https://cdn/files/a.jar", (JObj [("name", JStr "ModA")]), (JBool true).
      repeat split; try reflexivity; [exact Ha|].
      eexists. vm_compute. reflexivity.
    + exists "https://cdn/files/b.jar", (JObj [("name", JStr "ModB")]), (JBool false).
      repeat split; try reflexivity; [exact Hb|].
      eexists. vm_compute. reflexivity.
Defined.

(** * The loader phase *)

Lemma scan_loaders_no_primary (ls : list json) (cur : option json) :
  Forall (fun x => exists i, loader_ref i false x) ls ->
  scan_loaders ls cur = Ret cur.
Proof.
  induction 1 as [|x ls (i & _ & Hp) _ IH]; simpl; [done|].
  by rewrite Hp.
Qed.

Lemma scan_loaders_last_primary (before after : list json) (l : json) (id : string)
    (cur : option json) :
  Forall (fun x => exists i p, loader_ref i p x) before ->
  loader_ref id true l ->
  Forall (fun x => exists i, loader_ref i false x) after ->
  scan_loaders (before ++ l :: after) cur = Ret (Some (JStr id)).
Proof.
  intros Hb [Hid Hp] Ha. revert cur.
  induction Hb as [|x before (i & p & Hi & Hpx) _ IH]; intros cur; simpl.
  - rewrite Hp. simpl. rewrite Hid. by apply scan_loaders_no_primary.
  - rewrite Hpx. destruct p; simpl; [rewrite Hi|]; apply IH.
Qed.

Section Loader.
Context (E : env).

Lemma get_modloader_info_requests (id : string) (w : world) r w' :
  get_modloader_info E (JStr id) w = (r, w') ->
  requests w' = requests w ++ [Request (modloader_request id) false].
Proof.
  unfold get_modloader_info, session_get, raise_for_status, response_json,
    bind, lift, log_request, ret, raise.
  simpl. intros H. repeat case_match; simplify_eq; done.
Qed.

Lemma fetch_installer_only_streams loader_info url dest_path :
  preserves only_streams (fetch_installer E loader_info url dest_path).
Proof. unfold fetch_installer. pres. Qed.

(** C9. With several primary entries among the loaders, the metadata
    request of the loader phase is the one for the id of the last
    primary entry; the earlier ones leave no trace: whatever else the
    phase requests is a streamed download. *)
Theorem last_primary_loader_is_requested
    (mf minecraft l : json) (before after : list json) (id out_dname : string)
    (w : world) :
  Py.getitem mf "minecraft" = Ret minecraft ->
  Py.getitem minecraft "modLoaders" = Ret (JArr (before ++ l :: after)) ->
  Forall (fun x => exists i p, loader_ref i p x) before ->
  loader_ref id true l ->
  Forall (fun x => exists i, loader_ref i false x) after ->
  exists r w' rest,
    retrieve_forge E mf out_dname w = (r, w')
    /\ requests w' = requests w ++ Request (modloader_request id) false :: rest
    /\ Forall (fun q => req_stream q = true) rest.
Proof.
  intros Hmc Hml Hb Hl Ha.
  destruct (retrieve_forge E mf out_dname w) as [r w'] eqn:Hrun.
  exists r, w'.
  unfold retrieve_forge in Hrun. rewrite Hmc in Hrun.
  unfold bind at 1 in Hrun. unfold print at 1 in Hrun.
  unfold bind at 1 in Hrun. unfold lift at 1 in Hrun.
  rewrite Hml in Hrun.
  unfold bind at 1 in Hrun. unfold lift at 1 in Hrun.
  unfold bind at 1 in Hrun. unfold lift at 1 in Hrun. simpl Py.iter in Hrun.
  cbv iota beta in Hrun.
  rewrite (scan_loaders_last_primary _ _ _ _ None Hb Hl Ha) in Hrun.
  unfold bind at 1 in Hrun. unfold lift at 1 in Hrun.
  unfold bind at 1 in Hrun. unfold ret at 1 in Hrun.
  apply bind_inv in Hrun as [(info & w1 & Hinfo & Hrest) | (e & Hinfo & _)].
  - apply get_modloader_info_requests in Hinfo. simpl in Hinfo.
    match type of Hrest with
    | ?m _ = _ => assert (preserves only_streams m) as Hpres
    end.
    { pres. apply fetch_installer_only_streams. }
    apply Hpres in Hrest as (rest & Hreq & Hstreams).
    exists rest. split; [done|]. split; [|done].
    rewrite Hreq, Hinfo. by rewrite <- app_assoc.
  - apply get_modloader_info_requests in Hinfo. simpl in Hinfo.
    exists []. split; [done|]. split; [done | constructor].
Qed.

End Loader.

Lemma last_primary_loader_is_requested_witness :
  exists r w' rest,
    retrieve_forge Demo.E
      (Demo.manifest Demo.sentinel [] Demo.two_primaries) "pack"
      Demo.installed = (r, w')
    /\ requests w'
       = requests Demo.installed
         ++ Request (modloader_request "forge-36.0.0") false :: rest
    /\ Forall (fun q => req_stream q = true) rest.
Proof.
  apply (last_primary_loader_is_requested Demo.E
           (Demo.manifest Demo.sentinel [] Demo.two_primaries)
           (JObj [("version", JStr "1.16.5"); ("modLoaders", JArr Demo.two_primaries)])
           (Demo.loader "forge-36.0.0" true)
           [Demo.loader "forge-14.23.5" true]
           [Demo.loader "liteloader" false]).
  - reflexivity.
  - reflexivity.
  - repeat constructor. exists "forge-14.23.5", true. split; reflexivity.
  - split; reflexivity.
  - repeat constructor. exists "liteloader". split; reflexivity.
Defined.

(** * Keys of normalised paths *)

Lemma split_join (l : list string) :
  l <> [] -> Forall (fun c => Str.has_char Str.slash c = false) l ->
  Str.split Str.slash (Str.join "/" l) = l.
Proof.
  intros Hne HF. induction HF as [|x l Hx HF IH]; [done|].
  destruct l as [|y t].
  - simpl. by apply split_no_sep.
  - change (Str.join "/" (x :: y :: t)) with (x +:+ String Str.slash (Str.join "/" (y :: t))).
    rewrite split_app_sep, IH by done. by rewrite split_no_sep.
Qed.

Lemma norm_comps_plain (rooted : bool) (acc comps : list string) :
  Forall plain acc ->
  Forall (fun c => Str.has_char Str.slash c = false) comps ->
  Forall plain (Path.norm_comps rooted acc comps).
Proof.
  intros Hacc Hc. revert acc Hacc.
  induction Hc as [|c comps Hc _ IH]; intros acc Hacc; simpl.
  - by apply Forall_rev.
  - destruct (String.eqb_spec c "") as [->|Hne]; simpl; [by apply IH|].
    destruct (String.eqb_spec c ".") as [->|Hnd]; simpl; [by apply IH|].
    assert (plain c) as Hp by done.
    destruct (String.eqb_spec c "..") as [->|Hndd]; simpl.
    + destruct acc as [|top acc']; [destruct rooted; apply IH; auto|].
      inversion Hacc; subst.
      destruct (String.eqb top ".."); apply IH; auto.
    + apply IH. auto.
Qed.

Lemma components_join (l : list string) :
  Forall plain l ->
  filter (fun c => c <> "") (Str.split Str.slash (Str.join "/" l)) = l.
Proof.
  intros HF. destruct l as [|x t]; [done|].
  rewrite split_join; [|done|].
  - induction HF as [|y l (Hy & _ & _) _ IH]; [done|].
    rewrite filter_cons_True by done. by rewrite IH.
  - eapply Forall_impl; [exact HF|]. by intros c (_ & _ & ?).
Qed.

(** The key of an absolute path is what the component loop of
    [normpath] leaves. *)
Lemma components_normpath (a : string) :
  Str.startswith a "/" = true ->
  filter (fun c => c <> "") (Str.split Str.slash (Path.normpath a))
  = Path.norm_comps true [] (Str.split Str.slash a).
Proof.
  intros Ha. unfold Path.normpath.
  destruct (String.eqb_spec a "") as [->|Hne]; [done|].
  rewrite Ha.
  assert (Forall plain (Path.norm_comps true [] (Str.split Str.slash a))) as Hplain.
  { apply norm_comps_plain; [constructor | apply split_fields_no_sep]. }
  destruct (Str.startswith a "//" && negb (Str.startswith a "///")); simpl;
    rewrite ?str_app_nil, !filter_cons_False by (by intros ?);
    by apply components_join.
Qed.

(** Running the component loop over the front of a list leaves a stack
    to go on with. *)
Lemma norm_comps_app (rooted : bool) (acc front : list string) :
  exists acc', forall tail,
    Path.norm_comps rooted acc (front ++ tail) = Path.norm_comps rooted acc' tail.
Proof.
  revert acc. induction front as [|c front IH]; intros acc; [by exists acc|].
  simpl.
  destruct (String.eqb c "" || String.eqb c "."); [apply IH|].
  destruct (negb (String.eqb c "..")); [apply IH|].
  destruct acc as [|top acc'].
  - destruct rooted; apply IH.
  - destruct (String.eqb top ".."); apply IH.
Qed.

Lemma norm_comps_last_differs (acc : list string) (c t : string) :
  (4 < String.length t)%nat ->
  Path.norm_comps true acc [c +:+ t] <> Path.norm_comps true acc [c].
Proof.
  intros Ht.
  assert (forall s, (String.length s < 3)%nat -> String.eqb (c +:+ t) s = false) as Hshort.
  { intros s Hs. apply String.eqb_neq. intros Heq.
    apply (f_equal String.length) in Heq. rewrite str_length_app in Heq. lia. }
  simpl. rewrite !Hshort by (simpl; lia). simpl.
  assert (forall x, rev acc ++ [c +:+ t] = rev acc ++ [x] -> x <> c +:+ t -> False)
    as Hlast.
  { intros x Heq Hx. apply app_inv_head in Heq. by inversion Heq. }
  assert (c <> c +:+ t) as Hc.
  { intros Heq. apply (f_equal String.length) in Heq.
    rewrite str_length_app in Heq. lia. }
  assert (forall l : list string, rev acc ++ [c +:+ t] = rev l ->
            length l = S (length acc)) as Hlen.
  { intros l Heq. apply (f_equal length) in Heq.
    rewrite length_app, !length_rev in Heq. simpl in Heq. lia. }
  destruct (String.eqb_spec c "") as [->|?]; simpl.
  { intros Heq. apply Hlen in Heq. lia. }
  destruct (String.eqb_spec c ".") as [->|?]; simpl.
  { intros Heq. apply Hlen in Heq. lia. }
  destruct (String.eqb_spec c "..") as [->|?]; simpl.
  - destruct acc as [|top acc']; simpl.
    + intros Heq. by apply (f_equal length) in Heq.
    + destruct (String.eqb top "..").
      * intros Heq. simpl in Heq. eapply (Hlast ".."); [exact Heq|].
        intros Hdd. apply (f_equal String.length) in Hdd. simpl in Hdd.
        rewrite str_length_app in Hdd. simpl in Hdd. lia.
      * intros Heq. apply (f_equal length) in Heq.
        rewrite length_app, !length_app, !length_rev in Heq. simpl in Heq. lia.
  - intros Heq. by eapply (Hlast c).
Qed.

Section Keys.
Context (E : env).

Lemma anchored_absolute (p : string) : Str.startswith (anchored E p) "/" = true.
Proof.
  unfold anchored. destruct (Str.startswith p "/") eqn:Hp; [done|].
  rewrite join_eq. unfold join_prefix. rewrite Hp. unfold getcwd.
  destruct (String.eqb _ "" || _); by rewrite ?str_app_cons.
Qed.

Lemma path_key_eq (p : string) :
  path_key E p = Path.norm_comps true [] (Str.split Str.slash (anchored E p)).
Proof.
  unfold path_key, components, abspath, Path.abspath.
  rewrite <- components_normpath by apply anchored_absolute.
  unfold anchored. by destruct (Str.startswith p "/").
Qed.

Lemma anchored_app (p t : string) :
  Str.startswith t "/" = false -> anchored E (p +:+ t) = anchored E p +:+ t.
Proof.
  intros Ht. unfold anchored. rewrite startswith_slash_app by done.
  destruct (Str.startswith p "/") eqn:Hp; [done|].
  rewrite !join_eq. unfold join_prefix.
  rewrite startswith_slash_app, Hp by done. by rewrite str_app_assoc.
Qed.

(** The temporary file of a download is never the destination itself. *)
Lemma path_key_part_ne (file : string) :
  path_key E (file +:+ ".part") <> path_key E file.
Proof.
  rewrite !path_key_eq, anchored_app by done.
  rewrite split_app_tail by done.
  pose proof (split_nonempty Str.slash (anchored E file)) as Hne.
  rewrite (app_removelast_last "" Hne) at 3.
  destruct (norm_comps_app true [] (removelast (Str.split Str.slash (anchored E file))))
    as [acc Hacc].
  rewrite !Hacc. apply norm_comps_last_differs. simpl. lia.
Qed.

End Keys.

(** * Downloads *)

Lemma recorded_refl : Reflexive recorded.
Proof. intros w. exists []. by rewrite app_nil_r. Qed.
Global Existing Instance recorded_refl.

Lemma recorded_trans : Transitive recorded.
Proof.
  intros a b c (h1 & T1 & L1) (h2 & T2 & L2). exists (h1 ++ h2). split.
  - by rewrite T2, T1, <- app_assoc.
  - destruct h2 as [|s h2]; [rewrite app_nil_r; simpl in L2; congruence|].
    rewrite <- L2. rewrite last_app_nonempty by done. by apply last_default.
Qed.
Global Existing Instance recorded_trans.

Lemma put_fs_recorded f : preserves recorded (put_fs f).
Proof. intros w r w' [= <- <-]. by exists [f]. Qed.

Lemma put_fs_confined K f (w : world) r w' :
  agree_outside K (fs w) f -> put_fs f w = (r, w') -> confined K w w'.
Proof.
  intros Hag [= <- <-]. split; [done|]. exists [f]. split; [done|].
  by constructor.
Qed.

Lemma print_recorded t args : preserves recorded (print t args).
Proof. intros w r w' [= <- <-]. exists []. by rewrite app_nil_r. Qed.

Lemma log_request_recorded q : preserves recorded (log_request q).
Proof. intros w r w' [= <- <-]. exists []. by rewrite app_nil_r. Qed.

Global Hint Resolve put_fs_recorded print_recorded log_request_recorded : pres.

Lemma agree_outside_insert (K : key -> Prop) (f : FS) (k : key) (n : node) :
  K k -> agree_outside K f (<[k := n]> f).
Proof. intros Hk k' Hk'. rewrite lookup_insert_ne; [done|]. by intros ->. Qed.

Lemma agree_outside_alter (K : key -> Prop) (f : FS) (k : key) g :
  K k -> agree_outside K f (alter g k f).
Proof. intros Hk k' Hk'. rewrite lookup_alter_ne; [done|]. by intros ->. Qed.

Section Download.
Context (E : env).

Lemma os_path_exists_run (p : string) (w : world) :
  os_path_exists E p w = (Ret (bool_decide (is_Some (stat E (fs w) p))), w).
Proof. reflexivity. Qed.

Lemma os_path_isdir_run (p : string) (w : world) :
  os_path_isdir E p w
  = (Ret (match stat E (fs w) p with Some Dir => true | _ => false end), w).
Proof. reflexivity. Qed.

Lemma session_get_recorded url stream : preserves recorded (session_get E url stream).
Proof. unfold session_get. destruct url; pres. Qed.

Lemma open_wb_recorded p : preserves recorded (open_wb E p).
Proof. unfold open_wb. pres. Qed.

Lemma fd_write_recorded p c : preserves recorded (fd_write E p c).
Proof. unfold fd_write. pres. Qed.

Lemma open_wb_confined p : preserves (confined (eq (path_key E p))) (open_wb E p).
Proof.
  unfold open_wb. intros w r w'. unfold bind, get_fs.
  repeat case_match; try (intros [= <- <-]; reflexivity);
    apply put_fs_confined, agree_outside_insert; done.
Qed.

Lemma fd_write_confined p c : preserves (confined (eq (path_key E p))) (fd_write E p c).
Proof.
  unfold fd_write. intros w r w'. unfold bind, get_fs.
  apply put_fs_confined, agree_outside_alter. done.
Qed.

Hint Resolve session_get_recorded open_wb_recorded fd_write_recorded
  open_wb_confined fd_write_confined : pres.
Hint Extern 5 (preserves (confined _) _) =>
  (eapply preserves_weaken; [apply same_disk_confined|]) : pres.

Lemma stream_to_part_confined url dlpath :
  preserves (confined (eq (path_key E dlpath))) (stream_to_part E url dlpath).
Proof. unfold stream_to_part, write_chunks. pres. Qed.

Lemma stream_to_part_recorded url dlpath :
  preserves recorded (stream_to_part E url dlpath).
Proof. unfold stream_to_part, write_chunks. pres. Qed.

Lemma open_wb_content (p : string) (w w' : world) :
  open_wb E p w = (Ret tt, w') ->
  fs w' !! path_key E p = Some (File (Bytes "")).
Proof.
  unfold open_wb, bind, get_fs, put_fs, raise.
  repeat case_match; intros [= <-]; simpl; by rewrite lookup_insert_eq.
Qed.

(** The loop appends the chunks to what the file holds. *)
Lemma write_chunks_content (p : string) (chunks : list string) (s : string)
    (w : world) :
  fs w !! path_key E p = Some (File (Bytes s)) ->
  exists w', write_chunks E p chunks w = (Ret tt, w')
             /\ fs w' !! path_key E p
                = Some (File (Bytes (s +:+ String.concat "" chunks))).
Proof.
  revert s w. induction chunks as [|c chunks IH]; intros s w Hs.
  - exists w. split; [done|]. simpl. by rewrite str_app_empty_r.
  - unfold write_chunks. simpl.
    unfold bind at 1. unfold fd_write at 1. unfold bind at 1.
    unfold get_fs at 1. unfold put_fs at 1.
    match goal with |- context [for_each chunks _ ?w1] => set (w1' := w1) end.
    destruct (IH (s +:+ c) w1') as (w' & Hrun & Hcontent).
    { subst w1'. simpl. rewrite lookup_alter_eq, Hs. done. }
    exists w'. split; [exact Hrun|]. rewrite Hcontent.
    destruct chunks; simpl; by rewrite ?str_app_empty_r, ?str_app_assoc.
Qed.

(** A successful transfer leaves the whole body in the temporary file. *)
Lemma stream_to_part_content (url : json) (dlpath : string) (w w' : world) :
  stream_to_part E url dlpath w = (Ret tt, w') ->
  exists u st chunks pj,
    url = JStr u
    /\ http E u = Reply st chunks true pj
    /\ (400 <=? st)%Z && (st <? 600)%Z = false
    /\ fs w' !! path_key E dlpath = Some (File (Bytes (String.concat "" chunks))).
Proof.
  unfold stream_to_part. intros Hrun.
  apply bind_inv in Hrun as [(r & w1 & Hget & Hrun) | (? & _ & ?)]; [|done].
  apply bind_inv in Hrun as [([] & w2 & Hst & Hrun) | (? & _ & ?)]; [|done].
  assert ((400 <=? status r)%Z && (status r <? 600)%Z = false) as Hok.
  { unfold raise_for_status in Hst.
    by destruct ((400 <=? status r)%Z && (status r <? 600)%Z). }
  apply bind_inv in Hrun as [([] & w3 & Hopen & Hrun) | (? & _ & ?)]; [|done].
  apply bind_inv in Hrun as [([] & w4 & Hwrite & Hrun) | (? & _ & ?)]; [|done].
  destruct (body_complete r) eqn:Hcomplete; [|done].
  injection Hrun as <-.
  apply open_wb_content in Hopen.
  destruct (write_chunks_content dlpath (body_chunks r) "" w3 Hopen)
    as (w4' & Hwrite' & Hcontent).
  rewrite Hwrite in Hwrite'. injection Hwrite' as <-.
  unfold session_get in Hget. destruct url as [| | | |u| |]; try done.
  apply bind_inv in Hget as [([] & w0 & _ & Hget) | (? & Hlog & ?)]; [|done].
  destruct (http E u) as [| |st chunks complete pj] eqn:Hhttp; try done.
  simpl in Hget. destruct complete; injection Hget as <- <-; simpl in *; [|done].
  exists u, st, chunks, pj. done.
Qed.

(** What a successful move does. *)
Lemma shutil_move_success (src dst : string) (w w' : world) :
  shutil_move E src dst w = (Ret tt, w') ->
  exists d kd,
    stat E (fs w) src = Some (File d)
    /\ fs w' = <[kd := File d]> (delete (path_key E src) (fs w))
    /\ fs_trace w' = fs_trace w ++ [fs w']
    /\ Fs.at_key (fs w) kd <> Some Dir
    /\ (kd = path_key E dst \/ stat E (fs w) dst = Some Dir).
Proof.
  unfold shutil_move. rewrite (bind_ret_eq _ _ _ _ _ (os_path_isdir_run _ _)).
  intros Hrun.
  assert (forall real, os_rename E src real w = (Ret tt, w') ->
            exists d, stat E (fs w) src = Some (File d)
                      /\ fs w' = <[path_key E real := File d]> (delete (path_key E src) (fs w))
                      /\ fs_trace w' = fs_trace w ++ [fs w']
                      /\ Fs.at_key (fs w) (path_key E real) <> Some Dir) as Hren.
  { intros real. unfold os_rename, bind, get_fs, put_fs, raise.
    destruct (stat E (fs w) src) as [[d|]|]; try done.
    repeat case_match; intros [= <-]; exists d; simpl; repeat split; congruence. }
  destruct (stat E (fs w) dst) as [[d0|]|] eqn:Hdst.
  - apply Hren in Hrun as (d & ? & ? & ? & ?).
    exists d, (path_key E dst). repeat split; auto.
  - unfold bind in Hrun. rewrite os_path_exists_run in Hrun.
    destruct (bool_decide _); [done|]. unfold ret in Hrun.
    apply Hren in Hrun as (d & ? & ? & ? & ?).
    eexists d, _. repeat split; eauto.
  - apply Hren in Hrun as (d & ? & ? & ? & ?).
    exists d, (path_key E dst). repeat split; auto.
Qed.

Lemma shutil_move_failure (src dst : string) (w w' : world) e :
  shutil_move E src dst w = (Raise e, w') -> w' = w.
Proof.
  unfold shutil_move, os_rename, os_path_isdir, os_path_exists, bind, get_fs,
    put_fs, raise, ret.
  repeat case_match; simplify_eq; try done; intros [=]; done.
Qed.

End Download.

(** * The outcomes of a download *)

Lemma str_app_not_empty (a b : string) : b <> "" -> a +:+ b <> "".
Proof. intros Hb. destruct a; [by rewrite str_app_nil | by rewrite str_app_cons]. Qed.

Lemma bind_raise_eq {A B} (m : M A) (k : A -> M B) w e w1 :
  m w = (Raise e, w1) -> bind m k w = (Raise e, w1).
Proof. unfold bind. by intros ->. Qed.

Section Outcomes.
Context (E : env).

Lemma session_get_stream_run (u : string) st chunks complete pj (w : world) :
  http E u = Reply st chunks complete pj ->
  session_get E (JStr u) true w
  = (Ret (Response st chunks complete pj), add_requests [Request u true] w).
Proof. intros Hhttp. unfold session_get, bind, log_request. by rewrite Hhttp. Qed.

Lemma open_wb_run (p : string) (w : world) :
  p <> "" ->
  Fs.check_parent (fs w) (path_key E p) = None ->
  Fs.at_key (fs w) (path_key E p) <> Some Dir ->
  open_wb E p w = (Ret tt, set_fs (<[path_key E p := File (Bytes "")]> (fs w)) w).
Proof.
  intros Hp Hparent Hnd. unfold open_wb, bind, get_fs.
  apply String.eqb_neq in Hp. rewrite Hp, Hparent.
  destruct (Fs.at_key (fs w) (path_key E p)) as [[d|]|]; try reflexivity. done.
Qed.

Lemma write_chunks_confined (p : string) (chunks : list string) :
  preserves (confined (eq (path_key E p))) (write_chunks E p chunks).
Proof.
  unfold write_chunks. apply preserves_for_each; [apply _ | apply _ |].
  intros c. apply fd_write_confined.
Qed.

(** The transfer, once the request is answered with a good status and
    the temporary file can be opened: all chunks that arrive are
    written, and a broken transfer raises after them. *)
Lemma stream_to_part_run (u dlpath : string) st chunks complete pj (w : world) :
  http E u = Reply st chunks complete pj ->
  (400 <=? st)%Z && (st <? 600)%Z = false ->
  dlpath <> "" ->
  Fs.check_parent (fs w) (path_key E dlpath) = None ->
  Fs.at_key (fs w) (path_key E dlpath) <> Some Dir ->
  exists w',
    stream_to_part E (JStr u) dlpath w
    = (if complete then Ret tt else Raise ConnectionError, w')
    /\ fs w' !! path_key E dlpath = Some (File (Bytes (String.concat "" chunks)))
    /\ (forall k, k <> path_key E dlpath -> fs w' !! k = fs w !! k)
    /\ requests w' = requests w ++ [Request u true]
    /\ stdout w' = stdout w.
Proof.
  intros Hhttp Hst Hp Hparent Hnd.
  set (part := path_key E dlpath) in *.
  set (w0 := add_requests [Request u true] w).
  set (w1 := set_fs (<[part := File (Bytes "")]> (fs w0)) w0).
  destruct (write_chunks_content E dlpath chunks "" w1) as (w3 & Hwrite & Hbody).
  { subst w1. simpl. fold part. by rewrite lookup_insert_eq. }
  fold part in Hbody. rewrite str_app_nil in Hbody.
  pose proof (write_chunks_confined _ _ _ _ _ Hwrite) as [Hag _]. fold part in Hag.
  pose proof (write_chunks_same_io E _ _ _ _ _ Hwrite) as (Hout & Hreq & _).
  exists w3. split; [|repeat split].
  - unfold stream_to_part.
    rewrite (bind_ret_eq _ _ _ _ _ (session_get_stream_run u st chunks complete pj w Hhttp)).
    assert (raise_for_status (Response st chunks complete pj) w0 = (Ret tt, w0)) as Hok.
    { unfold raise_for_status. simpl. by rewrite Hst. }
    fold w0. rewrite (bind_ret_eq _ _ _ _ _ Hok).
    rewrite (bind_ret_eq _ _ _ _ _ (open_wb_run dlpath w0 Hp Hparent Hnd)).
    fold part. fold w1. simpl body_chunks.
    rewrite (bind_ret_eq _ _ _ _ _ Hwrite). simpl body_complete.
    by destruct complete.
  - exact Hbody.
  - intros k Hk. rewrite Hag by (by intros ->). subst w1 w0. simpl.
    by rewrite lookup_insert_ne.
  - by rewrite Hreq.
  - by rewrite Hout.
Qed.

(** The move of a file onto a path that holds no directory. *)
Lemma shutil_move_run (src dst : string) (d : data) (w : world) :
  dst <> "" ->
  stat E (fs w) dst <> Some Dir ->
  stat E (fs w) src = Some (File d) ->
  Fs.check_parent (fs w) (path_key E dst) = None ->
  shutil_move E src dst w
  = (Ret tt, set_fs (<[path_key E dst := File d]> (delete (path_key E src) (fs w))) w).
Proof.
  intros Hdst Hnd Hsrc Hparent. unfold shutil_move.
  rewrite (bind_ret_eq _ _ _ _ _ (os_path_isdir_run _ _ _)).
  assert (match stat E (fs w) dst with Some Dir => true | _ => false end = false) as ->.
  { by destruct (stat E (fs w) dst) as [[]|]. }
  unfold bind at 1, ret at 1. unfold os_rename, bind, get_fs.
  rewrite Hsrc. apply String.eqb_neq in Hdst as Hd. rewrite Hd, Hparent.
  unfold stat in Hnd. rewrite Hd in Hnd.
  by destruct (Fs.at_key (fs w) (path_key E dst)) as [[]|].
Qed.

End Outcomes.

(** * Downloads *)

(** C2. [download_to_file] writes the body to [file + ".part"] only,
    a path other than the destination, and moves it to the destination
    after the whole body is in it.

    - Whatever the run does, every state the file system passes through
      before the move differs from the initial one at the temporary
      path at most; a run that returns has had a complete answer with a
      good status, has moved the whole body to the destination and has
      left no temporary file; a run that raises leaves every path but
      the temporary one as it was.
    - A destination that exists is refused without [overwrite], before
      any request.
    - Otherwise the answer decides: no answer, a refused URL or an error
      status raise before the temporary file is opened, so the file
      system is untouched; a transfer that breaks raises and leaves
      what arrived in the temporary file and nothing at the
      destination; a complete transfer returns with the body at the
      destination. *)
Theorem download_never_exposes_partial_file
    (E : env) (url : json) (file : string) (overwrite : bool) (w : world) :
  let dest := path_key E file in
  let part := path_key E (file +:+ ".part") in
  let run := download_to_file E url file overwrite w in
  part <> dest
  /\ (exists hs,
        fs_trace run.2 = fs_trace w ++ hs
        /\ match run.1 with
           | Raise _ =>
               Forall (agree_outside (eq part) (fs w)) hs
               /\ agree_outside (eq part) (fs w) (fs run.2)
               /\ Forall (fun s => s !! dest = fs w !! dest) hs
               /\ fs run.2 !! dest = fs w !! dest
           | Ret _ =>
               exists u st chunks pj written,
                 url = JStr u
                 /\ http E u = Reply st chunks true pj
                 /\ (400 <=? st)%Z && (st <? 600)%Z = false
                 /\ hs = written ++ [fs run.2]
                 /\ Forall (agree_outside (eq part) (fs w)) written
                 /\ Forall (fun s => s !! dest = fs w !! dest) written
                 /\ List.last written (fs w) !! part
                    = Some (File (Bytes (String.concat "" chunks)))
                 /\ (fs run.2 !! dest = Some (File (Bytes (String.concat "" chunks)))
                     \/ stat E (fs w) file = Some Dir /\ fs run.2 !! dest = fs w !! dest)
                 /\ (overwrite = false ->
                     fs run.2 !! dest = Some (File (Bytes (String.concat "" chunks))))
                 /\ (stat E (fs w) file <> Some Dir ->
                     fs run.2 !! dest = Some (File (Bytes (String.concat "" chunks)))
                     /\ fs run.2 !! part = None
                     /\ forall k, k <> dest -> k <> part -> fs run.2 !! k = fs w !! k)
           end)
  /\ (is_Some (stat E (fs w) file) -> overwrite = false ->
      run = (Raise FileExistsError, w))
  /\ (forall u : string,
         url = JStr u ->
         stat E (fs w) file = None \/ overwrite = true ->
         match http E u with
         | NoReply => run = (Raise ConnectionError, add_requests [Request u true] w)
         | BadUrl => run = (Raise ValueError, add_requests [Request u true] w)
         | Reply st chunks complete pj =>
             if (400 <=? st)%Z && (st <? 600)%Z then
               run = (Raise HTTPError, add_requests [Request u true] w)
             else
               Fs.check_parent (fs w) part = None ->
               Fs.at_key (fs w) part <> Some Dir ->
               if complete then
                 file <> "" ->
                 stat E (fs w) file <> Some Dir ->
                 Fs.check_parent (fs w) dest = None ->
                 exists w',
                   run = (Ret tt, w')
                   /\ fs w' !! dest = Some (File (Bytes (String.concat "" chunks)))
                   /\ fs w' !! part = None
                   /\ (forall k, k <> dest -> k <> part -> fs w' !! k = fs w !! k)
                   /\ requests w' = requests w ++ [Request u true]
               else
                 exists w',
                   run = (Raise ConnectionError, w')
                   /\ fs w' !! part = Some (File (Bytes (String.concat "" chunks)))
                   /\ (forall k, k <> part -> fs w' !! k = fs w !! k)
                   /\ requests w' = requests w ++ [Request u true]
         end).
Proof.
  intros dest part run.
  assert (part <> dest) as Hne by apply path_key_part_ne.
  split; [exact Hne|]. split; [|split].
  - (* every run *)
    destruct run as [r w'] eqn:Hrun. subst run. simpl.
    assert (forall s, agree_outside (eq part) (fs w) s -> s !! dest = fs w !! dest)
      as Hdest by (intros s Hs; by apply Hs).
    unfold download_to_file in Hrun.
    rewrite (bind_ret_eq _ _ _ _ _ (os_path_exists_run _ _ _)) in Hrun.
    destruct (bool_decide (is_Some (stat E (fs w) file)) && negb overwrite) eqn:Hex.
    { injection Hrun as <- <-. exists []. rewrite app_nil_r. repeat split; done. }
    cbv zeta in Hrun.
    apply bind_inv in Hrun as [([] & w1 & Hstream & Hmove) | (e & Hstream & ->)].
    + pose proof (stream_to_part_confined _ _ _ _ _ _ Hstream) as (Hag1 & hs1 & Ht1 & HF1).
      pose proof (stream_to_part_recorded _ _ _ _ _ _ Hstream) as (hs1' & Ht1' & Hlast).
      rewrite Ht1 in Ht1'. apply app_inv_head in Ht1'. subst hs1'.
      fold part in Hag1, HF1.
      destruct r as [[]|e].
      * apply stream_to_part_content
          in Hstream as (u & st & chunks & pj & -> & Hhttp & Hst & Hbody).
        fold part in Hbody.
        apply shutil_move_success in Hmove as (d & kd & Hsrc & Hfs & Ht2 & Hkd & Hwhere).
        fold part in Hfs.
        assert (d = Bytes (String.concat "" chunks)) as ->.
        { unfold stat in Hsrc. destruct (String.eqb _ ""); [done|].
          fold part in Hsrc. unfold Fs.at_key in Hsrc.
          destruct part; [done|]. rewrite Hbody in Hsrc. by injection Hsrc. }
        assert (stat E (fs w1) file = stat E (fs w) file) as Hstat.
        { unfold stat. destruct (String.eqb file ""); [done|]. fold dest.
          unfold Fs.at_key. destruct dest; [done|]. by apply Hag1. }
        assert (kd = dest ->
                fs w' !! dest = Some (File (Bytes (String.concat "" chunks)))
                /\ fs w' !! part = None
                /\ forall k, k <> dest -> k <> part -> fs w' !! k = fs w !! k)
          as Hmoved.
        { intros ->. rewrite Hfs. repeat split.
          - by rewrite lookup_insert_eq.
          - by rewrite lookup_insert_ne, lookup_delete_eq.
          - intros k Hkd' Hkp. rewrite lookup_insert_ne, lookup_delete_ne by done.
            apply Hag1. by intros ->. }
        exists (hs1 ++ [fs w']). split; [by rewrite Ht2, Ht1, <- app_assoc|].
        exists u, st, chunks, pj, hs1. repeat split; try done.
        -- eapply Forall_impl; [exact HF1 | exact Hdest].
        -- by rewrite Hlast.
        -- destruct Hwhere as [-> | Hdir]; [left; by apply Hmoved|].
           pose proof Hdir as Hdir1. rewrite Hstat in Hdir. right. split; [done|].
           assert (kd <> dest) as Hkd'.
           { intros ->. apply Hkd. unfold stat in Hdir1.
             destruct (String.eqb file ""); [done|]. exact Hdir1. }
           rewrite Hfs, lookup_insert_ne, lookup_delete_ne by done. by apply Hag1.
        -- intros ->. destruct Hwhere as [-> | Hdir]; [by apply Hmoved|].
           rewrite Hstat in Hdir. rewrite Hdir in Hex. done.
        -- destruct Hwhere as [-> | Hdir]; [by apply Hmoved|].
           rewrite Hstat in Hdir. done.
        -- destruct Hwhere as [-> | Hdir]; [by apply Hmoved|].
           rewrite Hstat in Hdir. done.
        -- destruct Hwhere as [-> | Hdir]; [by apply Hmoved|].
           rewrite Hstat in Hdir. done.
      * apply shutil_move_failure in Hmove as ->.
        exists hs1. repeat split; try done.
        -- eapply Forall_impl; [exact HF1 | exact Hdest].
        -- by apply Hdest.
    + pose proof (stream_to_part_confined _ _ _ _ _ _ Hstream) as (Hag1 & hs1 & Ht1 & HF1).
      fold part in Hag1, HF1.
      exists hs1. repeat split; try done.
      * eapply Forall_impl; [exact HF1 | exact Hdest].
      * by apply Hdest.
  - (* the destination exists *)
    intros Hex ->. subst run. unfold download_to_file.
    rewrite (bind_ret_eq _ _ _ _ _ (os_path_exists_run _ _ _)).
    by rewrite bool_decide_eq_true_2.
  - (* the answer decides *)
    intros u -> Hpre.
    assert (bool_decide (is_Some (stat E (fs w) file)) && negb overwrite = false) as Hgo.
    { destruct Hpre as [Hnone | ->]; [|apply andb_false_r].
      rewrite Hnone. rewrite bool_decide_eq_false_2; [done|]. by intros [? ?]. }
    assert (run = (x <- stream_to_part E (JStr u) (file +:+ ".part");;
                   shutil_move E (file +:+ ".part") file) w) as Hrun.
    { subst run. unfold download_to_file.
      by rewrite (bind_ret_eq _ _ _ _ _ (os_path_exists_run _ _ _)), Hgo. }
    rewrite Hrun. clear Hrun.
    destruct (http E u) as [| |st chunks complete pj] eqn:Hhttp.
    + unfold stream_to_part, session_get, bind, log_request. by rewrite Hhttp.
    + unfold stream_to_part, session_get, bind, log_request. by rewrite Hhttp.
    + destruct ((400 <=? st)%Z && (st <? 600)%Z) eqn:Hst.
      { assert (stream_to_part E (JStr u) (file +:+ ".part") w
                = (Raise HTTPError, add_requests [Request u true] w)) as Hstop.
        { unfold stream_to_part.
          rewrite (bind_ret_eq _ _ _ _ _ (session_get_stream_run E u _ _ _ _ w Hhttp)).
          unfold bind, raise_for_status. simpl. by rewrite Hst. }
        by rewrite (bind_raise_eq _ _ _ _ _ Hstop). }
      intros Hpp Hnd.
      assert (file +:+ ".part" <> "") as Hpart by (by apply str_app_not_empty).
      destruct (stream_to_part_run E u (file +:+ ".part") st chunks complete pj w
                  Hhttp Hst Hpart Hpp Hnd)
        as (w3 & Hstream & Hbody & Hkeep & Hreq & _).
      fold part in Hbody, Hkeep.
      destruct complete.
      * intros Hfile Hnodir Hpd.
        assert (dest <> []) as Hdest0 by (intros Heq; by rewrite Heq in Hpd).
        assert (part <> []) as Hpart0 by (intros Heq; by rewrite Heq in Hpp).
        exists (set_fs (<[dest := File (Bytes (String.concat "" chunks))]>
                          (delete part (fs w3))) w3).
        split; [|repeat split].
        -- rewrite (bind_ret_eq _ _ _ _ _ Hstream).
           apply (shutil_move_run E _ _ (Bytes (String.concat "" chunks))).
           ++ exact Hfile.
           ++ unfold stat in *. destruct (String.eqb file ""); [done|]. fold dest in Hnodir |- *.
              unfold Fs.at_key in *. destruct dest; [done|]. by rewrite Hkeep.
           ++ unfold stat. rewrite (proj2 (String.eqb_neq _ _) Hpart).
              fold part. unfold Fs.at_key. destruct part; [done|]. exact Hbody.
           ++ fold dest. unfold Fs.check_parent in Hpd |- *.
              destruct dest as [|c t] eqn:Hd; [done|]. rewrite <- Hd in *.
              assert (Fs.at_key (fs w3) (Fs.parent dest) = Fs.at_key (fs w) (Fs.parent dest))
                as ->; [|exact Hpd].
              unfold Fs.at_key. destruct (Fs.parent dest) as [|c' t'] eqn:Hpar; [done|].
              apply Hkeep. intros Heq. apply Hnd. rewrite <- Heq.
              unfold Fs.at_key in Hpd |- *.
              by destruct (fs w !! (c' :: t')) as [[]|].
        -- simpl. by rewrite lookup_insert_eq.
        -- simpl. by rewrite lookup_insert_ne, lookup_delete_eq.
        -- intros k Hkd Hkp. simpl.
           rewrite lookup_insert_ne, lookup_delete_ne by done. by apply Hkeep.
        -- simpl. exact Hreq.
      * exists w3. split; [|repeat split; done].
        by rewrite (bind_raise_eq _ _ _ _ _ Hstream).
Qed.

Lemma download_never_exposes_partial_file_witness :
  let w := Demo.boot Demo.good_pack in
  (* a complete transfer *)
  (exists w',
      download_to_file Demo.E (JStr "https://cdn/files/a.jar") "a.jar" false w = (Ret tt, w')
      /\ fs w' !! path_key Demo.E "a.jar"
         = Some (File (Bytes (String.concat "" ["AAA"; "BBB"])))
      /\ fs w' !! path_key Demo.E ("a.jar" +:+ ".part") = None
      /\ (forall k, k <> path_key Demo.E "a.jar" ->
                    k <> path_key Demo.E ("a.jar" +:+ ".part") ->
                    fs w' !! k = fs w !! k)
      /\ requests w' = requests w ++ [Request "https://cdn/files/a.jar" true])
  (* an error status *)
  /\ download_to_file Demo.E (JStr "https://cdn/files/gone.jar") "gone.jar" false w
     = (Raise HTTPError, add_requests [Request "https://cdn/files/gone.jar" true] w)
  (* a transfer that breaks *)
  /\ (exists w',
         download_to_file Demo.E (JStr "https://cdn/files/cut.jar") "cut.jar" false w
         = (Raise ConnectionError, w')
         /\ fs w' !! path_key Demo.E ("cut.jar" +:+ ".part")
            = Some (File (Bytes (String.concat "" ["DDD"])))
         /\ (forall k, k <> path_key Demo.E ("cut.jar" +:+ ".part") ->
                       fs w' !! k = fs w !! k)
         /\ requests w' = requests w ++ [Request "https://cdn/files/cut.jar" true])
  (* a destination that exists *)
  /\ download_to_file Demo.E (JStr "https://cdn/files/a.jar") "pack/minecraft/mods/a.jar"
       false Demo.installed
     = (Raise FileExistsError, Demo.installed).
Proof.
  intros w. split; [|split; [|split]].
  - apply (proj2 (proj2 (proj2
             (download_never_exposes_partial_file Demo.E (JStr "https://cdn/files/a.jar")
                "a.jar" false w)))
             "https://cdn/files/a.jar" eq_refl).
    + left. vm_compute. reflexivity.
    + vm_compute. reflexivity.
    + vm_compute. discriminate.
    + discriminate.
    + vm_compute. discriminate.
    + vm_compute. reflexivity.
  - apply (proj2 (proj2 (proj2
             (download_never_exposes_partial_file Demo.E (JStr "https://cdn/files/gone.jar")
                "gone.jar" false w)))
             "https://cdn/files/gone.jar" eq_refl).
    left. vm_compute. reflexivity.
  - apply (proj2 (proj2 (proj2
             (download_never_exposes_partial_file Demo.E (JStr "https://cdn/files/cut.jar")
                "cut.jar" false w)))
             "https://cdn/files/cut.jar" eq_refl).
    + left. vm_compute. reflexivity.
    + vm_compute. reflexivity.
    + vm_compute. discriminate.
  - apply (proj1 (proj2 (proj2
             (download_never_exposes_partial_file Demo.E (JStr "https://cdn/files/a.jar")
                "pack/minecraft/mods/a.jar" false Demo.installed)))).
    + eexists. vm_compute. reflexivity.
    + reflexivity.
Defined.

(** The complete and the broken transfer of the example. *)
Example download_complete :
  let run := download_to_file Demo.E (JStr "https://cdn/files/a.jar") "a.jar" false
               (Demo.boot Demo.good_pack) in
  run.1 = Ret tt
  /\ fs run.2 !! ["home"; "u"; "a.jar"] = Some (File (Bytes "AAABBB"))
  /\ fs run.2 !! ["home"; "u"; "a.jar.part"] = None.
Proof. vm_compute. repeat split; reflexivity. Qed.

Example download_cut :
  let run := download_to_file Demo.E (JStr "https://cdn/files/cut.jar") "cut.jar" false
               (Demo.boot Demo.good_pack) in
  run.1 = Raise ConnectionError
  /\ fs run.2 !! ["home"; "u"; "cut.jar"] = None
  /\ fs run.2 !! ["home"; "u"; "cut.jar.part"] = Some (File (Bytes "DDD")).
Proof. vm_compute. repeat split; reflexivity. Qed.

Example download_refused :
  let run := download_to_file Demo.E (JStr "https://cdn/files/gone.jar") "gone.jar" false
               (Demo.boot Demo.good_pack) in
  run.1 = Raise HTTPError
  /\ fs run.2 !! ["home"; "u"; "gone.jar"] = None
  /\ fs run.2 !! ["home"; "u"; "gone.jar.part"] = None.
Proof. vm_compute. repeat split; reflexivity. Qed.

(** * The containment check *)

Lemma common_prefix_is_prefix (la lb : list string) :
  Path.common_prefix la lb = lb <-> lb `prefix_of` la.
Proof.
  revert lb. induction la as [|a la IH]; intros [|b lb]; simpl.
  - split; [by intros _ | done].
  - split; [done | by intros ?%prefix_nil_not].
  - split; [intros _; apply prefix_nil | done].
  - destruct (String.eqb_spec a b) as [->|Hab].
    + split.
      * intros [= Heq]. apply prefix_cons. by apply IH.
      * intros Hp%prefix_cons_inv_2. f_equal. by apply IH.
    + split; [done | by intros ?%prefix_cons_inv_1].
Qed.

Lemma join_plain_inj (l1 l2 : list string) :
  Forall plain l1 -> Forall plain l2 ->
  Str.join "/" l1 = Str.join "/" l2 -> l1 = l2.
Proof.
  intros H1 H2 Heq.
  rewrite <- (components_join l1 H1), <- (components_join l2 H2). by rewrite Heq.
Qed.

Lemma filter_proper_plain (pre : list string) (l : list string) :
  Forall (fun c => c = "") pre -> Forall plain l ->
  filter (fun c => Is_true (Path.proper_comp c)) (pre ++ l) = l.
Proof.
  intros Hpre Hl. rewrite filter_app.
  assert (filter (fun c => Is_true (Path.proper_comp c)) pre = []) as ->.
  { induction Hpre as [|c pre -> _ IH]; [done|].
    rewrite filter_cons_False; [exact IH | by intros ?]. }
  simpl. induction Hl as [|c l (Hc & Hd & _) _ IH]; [done|].
  rewrite filter_cons_True, IH; [done|].
  unfold Path.proper_comp.
  destruct (String.eqb_spec c ""); [done|]. by destruct (String.eqb_spec c ".").
Qed.

Section Containment.
Context (E : env).

(** The absolute normalised path is slashes followed by the key. *)
Lemma abspath_shape (p : string) :
  exists pre, (pre = "/" \/ pre = "//")
              /\ abspath E p = pre +:+ Str.join "/" (path_key E p)
              /\ Forall plain (path_key E p).
Proof.
  assert (abspath E p = Path.normpath (anchored E p)) as Habs.
  { unfold abspath, Path.abspath, anchored. by destruct (Str.startswith p "/"). }
  pose proof (anchored_absolute E p) as Hanch.
  assert (Forall plain (path_key E p)) as Hplain.
  { rewrite path_key_eq. apply norm_comps_plain; [constructor | apply split_fields_no_sep]. }
  rewrite Habs. rewrite path_key_eq in *. unfold Path.normpath.
  destruct (String.eqb_spec (anchored E p) "") as [Hn|_]; [by rewrite Hn in Hanch|].
  rewrite Hanch.
  destruct (Str.startswith (anchored E p) "//" && negb (Str.startswith (anchored E p) "///"));
    simpl; [exists "//" | exists "/"]; auto.
Qed.

Lemma split_abspath (p : string) :
  filter (fun c => Is_true (Path.proper_comp c)) (Str.split Str.slash (abspath E p))
  = path_key E p.
Proof.
  destruct (abspath_shape p) as (pre & Hpre & -> & Hplain).
  assert (filter (fun c => Is_true (Path.proper_comp c))
                 (Str.split Str.slash (Str.join "/" (path_key E p)))
          = path_key E p) as Hl.
  { destruct (path_key E p) as [|x t] eqn:Hk; [done|].
    rewrite split_join; [|done|].
    - by apply (filter_proper_plain []).
    - eapply Forall_impl; [exact Hplain|]. by intros c (_ & _ & ?). }
  destruct Hpre as [-> | ->].
  - change ("/" +:+ Str.join "/" (path_key E p))
      with ("" +:+ String Str.slash (Str.join "/" (path_key E p))).
    rewrite split_app_sep. simpl. rewrite filter_cons_False by (by intros ?). exact Hl.
  - change ("//" +:+ Str.join "/" (path_key E p))
      with ("" +:+ String Str.slash ("" +:+ String Str.slash (Str.join "/" (path_key E p)))).
    rewrite !split_app_sep. simpl. rewrite !filter_cons_False by (by intros ?). exact Hl.
Qed.

Lemma abspath_absolute (p : string) : Str.startswith (abspath E p) "/" = true.
Proof. destruct (abspath_shape p) as (pre & [-> | ->] & -> & _); done. Qed.

(** [is_subdir] never raises: it compares the common path with [b]. *)
Lemma is_subdir_eq (a b : string) :
  is_subdir E a b
  = Ret (String.eqb ("/" +:+ Str.join "/" (Path.common_prefix (path_key E a) (path_key E b)))
                    (abspath E b)).
Proof.
  unfold is_subdir, Path.commonpath.
  rewrite !abspath_absolute. simpl. by rewrite !split_abspath.
Qed.

(** On paths that do not begin with two slashes, [is_subdir a b] says
    that [a] is [b] or lies below it. *)
Lemma is_subdir_spec (a b : string) :
  Str.startswith (abspath E b) "//" = false ->
  is_subdir E a b = Ret (bool_decide (path_key E b `prefix_of` path_key E a)).
Proof.
  intros Hb. rewrite is_subdir_eq. f_equal.
  destruct (abspath_shape b) as (pre & Hpre & Hshape & Hplain).
  destruct (abspath_shape a) as (_ & _ & _ & Hplain_a).
  rewrite Hshape in *. destruct Hpre as [-> | ->]; [|done].
  assert (Forall plain (Path.common_prefix (path_key E a) (path_key E b))) as Hcp.
  { clear -Hplain_a. revert Hplain_a. generalize (path_key E b) as lb.
    induction (path_key E a) as [|x la IH]; intros lb Hla; [by destruct lb|].
    destruct lb as [|y lb]; [constructor|]. simpl.
    inversion Hla; subst. destruct (String.eqb x y); [|constructor].
    constructor; [done | by apply IH]. }
  destruct (bool_decide_reflect (path_key E b `prefix_of` path_key E a)) as [Hp|Hp].
  - apply common_prefix_is_prefix in Hp. rewrite Hp. apply String.eqb_refl.
  - apply String.eqb_neq. intros Heq. apply Hp, common_prefix_is_prefix.
    apply join_plain_inj; [done | done |]. by injection Heq.
Qed.

End Containment.

(** * Extraction into the staging directory *)

Lemma agree_outside_refl (K : key -> Prop) (f : FS) : agree_outside K f f.
Proof. done. Qed.

Lemma agree_outside_trans (K : key -> Prop) (f1 f2 f3 : FS) :
  agree_outside K f1 f2 -> agree_outside K f2 f3 -> agree_outside K f1 f3.
Proof. intros H12 H23 k Hk. by rewrite H23, H12. Qed.

Lemma makedirs_from_below (target base rest : key) (f : FS) :
  target `prefix_of` base ->
  agree_outside (prefix target) f (Fs.makedirs_from base rest f).1.
Proof.
  revert base f. induction rest as [|c rest IH]; intros base f Hbase; simpl.
  - apply agree_outside_refl.
  - assert (target `prefix_of` base ++ [c]) as Hk by by apply prefix_app_r.
    destruct (f !! (base ++ [c])) as [[d|]|] eqn:Hlook.
    + apply agree_outside_refl.
    + by apply IH.
    + eapply agree_outside_trans; [by apply agree_outside_insert | by apply IH].
Qed.

Lemma extract_member_below (target : key) (name : string) (d : data) (f : FS) :
  agree_outside (prefix target) f (Fs.extract_member target name d f).1.
Proof.
  unfold Fs.extract_member.
  set (parts := Fs.clean_parts name). set (k := target ++ parts).
  assert (target `prefix_of` k) as Hk by by apply prefix_app_r.
  pose proof (makedirs_from_below target target (removelast parts) f) as Hmk.
  destruct (Fs.at_key f (Fs.parent k)).
  - repeat case_match; simplify_eq; simpl;
      first [apply agree_outside_refl | by apply agree_outside_insert].
  - destruct (Fs.makedirs_from target (removelast parts) f) as [f1 e1].
    simpl in Hmk. specialize (Hmk ltac:(done)).
    repeat case_match; simplify_eq; simpl; try done;
      (eapply agree_outside_trans; [exact Hmk | by apply agree_outside_insert]).
Qed.

Lemma lookup_rmtree (base k : key) (f : FS) :
  Fs.rmtree base f !! k = if decide (base `prefix_of` k) then None else f !! k.
Proof.
  unfold Fs.rmtree. destruct (decide (base `prefix_of` k)) as [Hp|Hp].
  - apply map_lookup_filter_None. right. intros n _. simpl. auto.
  - destruct (f !! k) as [n|] eqn:Hk.
    + by apply map_lookup_filter_Some.
    + apply map_lookup_filter_None. by left.
Qed.

Section Staging.
Context (E : env).

Lemma commit_confined (K : key -> Prop) (r : FS * option exn) (w : world) o w' :
  agree_outside K (fs w) r.1 -> commit r w = (o, w') -> confined K w w'.
Proof.
  intros Hag. unfold commit, bind, put_fs, ret, raise.
  destruct r.2; intros [= <- <-]; (split; [done|]); exists [r.1];
    (split; [done | by constructor]).
Qed.

Lemma zip_extract_confined zf name target :
  preserves (confined (prefix (path_key E target))) (zip_extract E zf name target).
Proof.
  intros w o w'. unfold zip_extract, bind at 1, get_fs at 1.
  destruct (zip_getinfo name zf) as [d|]; [|intros [= <- <-]; reflexivity].
  apply commit_confined, extract_member_below.
Qed.

Lemma extract_matching_confined zf or_folder tempd :
  preserves (confined (prefix (path_key E tempd)))
            (extract_matching E zf or_folder tempd).
Proof. unfold extract_matching. pres. apply zip_extract_confined. Qed.

End Staging.

(** * The override extraction *)

(** C1 as stated fails: with an empty overrides folder the staging
    subdirectory is the staging root itself, not a strict descendant,
    and yet the assertion passes and the whole archive is copied to the
    destination. *)
Lemma root_overrides_pass_the_assertion :
  let w := Demo.boot Demo.root_overrides_pack in
  let tempd := abspath Demo.E (tmp_name Demo.E) in
  let run := extract_overrides Demo.E Demo.root_overrides_pack "pack/minecraft" w in
  get_manifest Demo.root_overrides_pack
  = Ret (Demo.manifest Demo.sentinel [("overrides", JStr "")] Demo.forge)
  /\ Py.getitem (Demo.manifest Demo.sentinel [("overrides", JStr "")] Demo.forge)
                "overrides" = Ret (JStr "")
  /\ strict_descendant Demo.E (Path.join tempd "") tempd = false
  /\ is_subdir Demo.E (Path.join tempd "") tempd = Ret true
  /\ run.1 = Ret tt
  /\ fs run.2 !! ["home"; "u"; "pack"; "minecraft"; "overrides"; "config"; "a.cfg"]
     = Some (File (Bytes "k=v"))
  /\ fs w !! ["home"; "u"; "pack"; "minecraft"; "overrides"; "config"; "a.cfg"] = None.
Proof. vm_compute. repeat split; reflexivity. Qed.

(** C1, amended.  The assertion of [extract_overrides] is [is_subdir]:
    the staging subdirectory must be the staging root or lie below it.
    When it does not hold, the run stops with an exception, an
    [AssertionError] unless the extraction itself had failed before, and
    nothing is copied: every state the file system passes through
    differs from the initial one below the staging directory only, and
    after the staging directory is removed the file system is the
    initial one. *)
Theorem escaping_overrides_stop_the_run (E : env) :
  (forall a b : string,
      Str.startswith (abspath E b) "//" = false ->
      is_subdir E a b = Ret (bool_decide (path_key E b `prefix_of` path_key E a)))
  /\ (forall (mpack_zip : list (string * data)) (output_dir : string) (w : world)
             (mf : json) (or_folder : string),
         let tempd := abspath E (tmp_name E) in
         let staging := path_key E tempd in
         get_manifest mpack_zip = Ret mf ->
         Py.getitem mf "overrides" = Ret (JStr or_folder) ->
         (forall k, staging `prefix_of` k -> fs w !! k = None) ->
         Fs.check_parent (fs w) staging = None ->
         is_subdir E (Path.join tempd or_folder) tempd = Ret false ->
         exists e w' hs,
           extract_overrides E mpack_zip output_dir w = (Raise e, w')
           /\ fs w' = fs w
           /\ fs_trace w' = fs_trace w ++ hs
           /\ Forall (agree_outside (prefix staging) (fs w)) hs
           /\ ((extract_matching E mpack_zip (JStr or_folder) tempd
                  (set_fs (<[staging := Dir]> (fs w)) w)).1 = Ret tt ->
               e = AssertionError)).
Proof.
  split; [apply is_subdir_spec|].
  intros mpack_zip output_dir w mf or_folder tempd staging Hmf Hov Hfresh Hparent Hcheck.
  assert (Fs.at_key (fs w) staging = None) as Hnone.
  { destruct staging as [|c t] eqn:Hst; [done|]. simpl. by apply Hfresh. }
  set (w0 := set_fs (<[staging := Dir]> (fs w)) w).
  destruct (extract_matching E mpack_zip (JStr or_folder) tempd w0) as [r1 w1] eqn:Hext.
  pose proof (extract_matching_confined E _ _ _ _ _ _ Hext) as (Hag1 & hs1 & Ht1 & HF1).
  fold staging in Hag1, HF1.
  assert (agree_outside (prefix staging) (fs w) (fs w0)) as Hag0.
  { apply agree_outside_insert. done. }
  set (w' := set_fs (Fs.rmtree staging (fs w1)) w1).
  assert (fs w' = fs w) as Hfs.
  { apply map_eq. intros k. subst w'. simpl. rewrite lookup_rmtree.
    destruct (decide (staging `prefix_of` k)) as [Hp|Hp].
    - symmetry. by apply Hfresh.
    - rewrite Hag1 by done. by apply Hag0. }
  assert (exists e, extract_overrides E mpack_zip output_dir w = (Raise e, w')
                    /\ (r1 = Ret tt -> e = AssertionError)) as (e & Hrun & He).
  { unfold extract_overrides, with_tempdir. fold tempd. fold staging.
    unfold bind at 1, get_fs at 1. rewrite Hnone, Hparent.
    unfold bind at 1, put_fs at 1. fold (set_fs (<[staging:=Dir]> (fs w)) w). fold w0.
    unfold finally. rewrite Hmf.
    unfold bind at 1, lift at 1. rewrite Hov.
    unfold bind at 1, lift at 1.
    unfold bind at 1. rewrite Hext.
    destruct r1 as [[]|e1].
    - exists AssertionError. split; [|done].
      simpl Py.as_str. unfold bind at 1, lift at 1. rewrite Hcheck.
      unfold bind at 1, lift at 1. reflexivity.
    - exists e1. split; [reflexivity | done]. }
  exists e, w', ([fs w0] ++ hs1 ++ [fs w']). repeat split; try done.
  - subst w'. simpl. rewrite Ht1. subst w0. simpl. by rewrite <- !app_assoc.
  - apply Forall_app. split; [by constructor|].
    apply Forall_app. split.
    + eapply Forall_impl; [exact HF1|]. intros s Hs.
      by eapply agree_outside_trans.
    + constructor; [|constructor]. rewrite Hfs. apply agree_outside_refl.
Qed.

Lemma escaping_overrides_stop_the_run_witness :
  let w := Demo.boot Demo.escaping_pack in
  let tempd := abspath Demo.E (tmp_name Demo.E) in
  let staging := path_key Demo.E tempd in
  is_subdir Demo.E (Path.join tempd "../outside") tempd
  = Ret (bool_decide (path_key Demo.E tempd
                        `prefix_of` path_key Demo.E (Path.join tempd "../outside")))
  /\ exists e w' hs,
    extract_overrides Demo.E Demo.escaping_pack "pack/minecraft" w = (Raise e, w')
    /\ fs w' = fs w
    /\ fs_trace w' = fs_trace w ++ hs
    /\ Forall (agree_outside (prefix staging) (fs w)) hs
    /\ ((extract_matching Demo.E Demo.escaping_pack (JStr "../outside") tempd
           (set_fs (<[staging := Dir]> (fs w)) w)).1 = Ret tt ->
        e = AssertionError).
Proof.
  intros w tempd staging. split.
  { apply (proj1 (escaping_overrides_stop_the_run Demo.E)). reflexivity. }
  apply (proj2 (escaping_overrides_stop_the_run Demo.E) Demo.escaping_pack
           "pack/minecraft" w
           (Demo.manifest Demo.sentinel [("overrides", JStr "../outside")]
              Demo.forge)
           "../outside").
  - reflexivity.
  - reflexivity.
  - intros k [l ->]. apply eq_None_not_Some. intros [n Hn].
    apply elem_of_map_to_list in Hn.
    let m := eval vm_compute in (map_to_list (fs w)) in
    assert (map_to_list (fs w) = m) as Hl by (vm_compute; reflexivity).
    rewrite Hl in Hn. vm_compute in Hn.
    repeat (apply elem_of_cons in Hn as [Hn|Hn]; [discriminate Hn|]).
    by apply elem_of_nil in Hn.
  - vm_compute. reflexivity.
  - vm_compute. reflexivity.
Defined.

(** The run on the escaping pack: the assertion fails after the output
    directory was made, and nothing is extracted into it. *)
Example escaping_pack_run :
  let run := main Demo.E Demo.argv (Demo.boot Demo.escaping_pack) in
  run.1 = Raise AssertionError
  /\ fs run.2 !! ["home"; "u"; "pack"] = Some Dir
  /\ fs run.2 !! ["home"; "u"; "pack"; "minecraft"] = None
  /\ fs run.2 !! ["home"; "u"; "outside"] = None
  /\ fs run.2 !! ["tmp"; "tmpk3x"] = None.
Proof. vm_compute. repeat split; reflexivity. Qed.

(** * A manifest without primary loader *)

(** Without a primary entry the loader phase ends in
    [UnboundLocalError], whatever the manifest otherwise holds. *)
Lemma retrieve_forge_without_primary (E : env) (mf minecraft : json)
    (loaders : list json) (out_dname : string) (w : world) :
  Py.getitem mf "minecraft" = Ret minecraft ->
  Py.getitem minecraft "modLoaders" = Ret (JArr loaders) ->
  Forall (fun x => exists i, loader_ref i false x) loaders ->
  retrieve_forge E mf out_dname w
  = (Raise UnboundLocalError, add_output [Line "Retrieving Forge..." []] w).
Proof.
  intros Hmc Hml Hnone. unfold retrieve_forge. rewrite Hmc.
  unfold bind at 1, print at 1. unfold bind at 1, lift at 1. rewrite Hml.
  unfold bind at 1, lift at 1. unfold bind at 1, lift at 1. simpl Py.iter.
  cbv iota beta. rewrite (scan_loaders_no_primary _ None Hnone).
  reflexivity.
Qed.

(** C4, at a manifest without primary loader: [modloader_id] is never
    bound, the run ends in [UnboundLocalError] after the mods were
    downloaded, and nothing about the loader is printed. *)
Lemma main_crashes_without_primary_loader :
  let run := main Demo.E Demo.argv (Demo.boot Demo.no_primary_pack) in
  run.1 = Raise UnboundLocalError
  /\ List.last (stdout run.2) (Line "" []) = Line "Retrieving Forge..." [].
Proof. vm_compute. split; reflexivity. Qed.

(** * The installation, run twice *)

(** The second run of the example installation: five requests, none of
    them a download, and the same files. *)
Example second_run_of_example :
  let again := main Demo.E Demo.argv Demo.installed in
  again.1 = Ret tt
  /\ drop (length (requests Demo.installed)) (requests again.2)
     = [Request (info_request (JInt 10)) false;
        Request (download_url_request (JInt 10) (JInt 20)) false;
        Request (info_request (JInt 11)) false;
        Request (download_url_request (JInt 11) (JInt 21)) false;
        Request (modloader_request "forge-36.0.0") false]
  /\ map fst (map_to_list (fs again.2)) = map fst (map_to_list (fs Demo.installed)).
Proof. vm_compute. repeat split; reflexivity. Qed.

(** * The output directory and the first steps of [main] *)

Lemma basename_after_slash (p x : string) :
  Str.has_char Str.slash x = false ->
  Path.basename (p +:+ "/" +:+ x) = x.
Proof.
  intros Hx. unfold Path.basename.
  change (p +:+ "/" +:+ x) with (p +:+ String Str.slash x).
  rewrite split_app_sep, (split_no_sep _ x) by done.
  unfold Str.last. apply last_last.
Qed.

Lemma basename_plain (x : string) :
  Str.has_char Str.slash x = false -> Path.basename x = x.
Proof. intros Hx. unfold Path.basename. by rewrite split_no_sep. Qed.

(** X1. The output directory is the base name of the archive without a
    trailing [.zip], whatever directory the archive lies in; a base name
    without that extension is kept whole; the result never contains a
    slash, so the directory is made in the working directory. *)
Theorem output_dir_is_stem_of_archive :
  (forall p stem : string,
      Str.has_char Str.slash stem = false ->
      output_dir_for_zip (stem +:+ ".zip") = stem
      /\ output_dir_for_zip (p +:+ "/" +:+ stem +:+ ".zip") = stem)
  /\ (forall fname : string,
         Str.endswith (Path.basename fname) ".zip" = false ->
         output_dir_for_zip fname = Path.basename fname)
  /\ (forall fname : string,
         Str.has_char Str.slash (output_dir_for_zip fname) = false).
Proof.
  split; [|split].
  - intros p stem Hstem.
    assert (Str.has_char Str.slash (stem +:+ ".zip") = false) as Hs
        by (by rewrite has_char_app, Hstem).
    unfold output_dir_for_zip.
    rewrite basename_after_slash, basename_plain by done.
    rewrite endswith_app. split; by apply drop_last_app.
  - intros fname Hno. unfold output_dir_for_zip. by rewrite Hno.
  - intros fname. unfold output_dir_for_zip.
    pose proof (last_no_sep Str.slash fname) as Hb. fold (Path.basename fname) in Hb.
    destruct (Str.endswith (Path.basename fname) ".zip") eqn:Hend; [|done].
    apply endswith_inv in Hend as [stem Hstem]. rewrite Hstem in *.
    rewrite drop_last_app by done.
    rewrite has_char_app in Hb. by apply orb_false_elim in Hb as [? _].
Qed.

Lemma output_dir_is_stem_of_archive_witness :
  (output_dir_for_zip ("Skyblock-1.2" +:+ ".zip") = "Skyblock-1.2"
   /\ output_dir_for_zip ("/home/u/Downloads" +:+ "/" +:+ "Skyblock-1.2" +:+ ".zip")
      = "Skyblock-1.2")
  /\ output_dir_for_zip "packs/notes.txt" = Path.basename "packs/notes.txt".
Proof.
  split.
  - apply (proj1 output_dir_is_stem_of_archive). reflexivity.
  - apply (proj1 (proj2 output_dir_is_stem_of_archive)). reflexivity.
Defined.

Section FirstSteps.
Context (E : env).

(** X2. On an archive whose manifest is an object with a
    [manifestType], the validity check returns a boolean without
    touching the world, and it returns true exactly when the value is
    the string [minecraftModpack]. *)
Theorem is_modpack_zip_tests_the_sentinel
    (fpath : string) (w : world) members (mf t : json) :
  stat E (fs w) fpath = Some (File (ZipArchive members)) ->
  get_manifest members = Ret mf ->
  Py.getitem mf "manifestType" = Ret t ->
  exists b, is_modpack_zip E fpath w = (Ret b, w)
            /\ (b = true <-> t = JStr "minecraftModpack").
Proof.
  intros Hs Hmf Ht. rewrite (is_modpack_zip_archive E _ _ _ Hs), Hmf, Ht.
  eexists. split; [reflexivity|].
  destruct t; simpl; try (split; [done | discriminate]).
  split.
  - intros Heq%String.eqb_eq. by subst.
  - intros [= ->]. apply String.eqb_refl.
Qed.

(** X4. Without a second argument [main] raises [IndexError] before
    it prints anything, the usage text included. *)
Theorem main_needs_an_argument (argv : list string) (w : world) :
  (length argv < 2)%nat ->
  main E argv w = (Raise IndexError, w).
Proof.
  intros Hlen. unfold main.
  rewrite (lookup_ge_None_2 argv 1) by lia. reflexivity.
Qed.



End FirstSteps.

Lemma is_modpack_zip_tests_the_sentinel_witness :
  exists b, is_modpack_zip Demo.E "pack.zip" (Demo.boot Demo.good_pack)
            = (Ret b, Demo.boot Demo.good_pack)
            /\ (b = true <-> JStr Demo.sentinel = JStr "minecraftModpack").
Proof.
  apply (is_modpack_zip_tests_the_sentinel Demo.E "pack.zip" (Demo.boot Demo.good_pack)
           Demo.good_pack
           (Demo.manifest Demo.sentinel [("overrides", JStr "overrides")] Demo.forge)).
  - vm_compute. reflexivity.
  - reflexivity.
  - reflexivity.
Defined.

Lemma main_needs_an_argument_witness :
  main Demo.E ["modpack_dl.py"] (Demo.boot Demo.good_pack)
  = (Raise IndexError, Demo.boot Demo.good_pack).
Proof. apply main_needs_an_argument. simpl. lia. Defined.



(** * The catalog client *)

(** X6. An id that is not an integer stops the catalog calls at their
    assertion: no request is made with it.  The per-mod step therefore
    fails on a record whose [projectID] is not an integer before it
    asks the catalog anything. *)
Theorem non_integer_ids_are_not_requested (E : env) :
  (forall (p : json) (w : world),
      Py.is_int p = false -> get_info E p w = (Raise AssertionError, w))
  /\ (forall (p i : json) (w : world),
         Py.is_int p = false \/ Py.is_int i = false ->
         get_download_url E p i w = (Raise AssertionError, w))
  /\ (forall (f p : json) (folder : string) (force : bool) (w : world),
         Py.getitem f "projectID" = Ret p ->
         Py.is_int p = false ->
         download_manifest_file E f folder force w = (Raise AssertionError, w)).
Proof.
  assert (forall (p : json) (w : world),
             Py.is_int p = false -> get_info E p w = (Raise AssertionError, w)) as Hinfo.
  { intros p w Hp. unfold get_info. by rewrite Hp. }
  split; [exact Hinfo|]. split.
  - intros p i w [Hp | Hi]; unfold get_download_url.
    + by rewrite Hp.
    + rewrite Hi. by destruct (Py.is_int p).
  - intros f p folder force w Hf Hp. unfold download_manifest_file.
    rewrite Hf. unfold bind at 1, lift at 1.
    by rewrite (bind_raise_eq _ _ _ _ _ (Hinfo p w Hp)).
Qed.

Lemma non_integer_ids_are_not_requested_witness :
  get_info Demo.E (JStr "10/../../evil") (Demo.boot Demo.good_pack)
  = (Raise AssertionError, Demo.boot Demo.good_pack)
  /\ get_download_url Demo.E (JInt 10) (JFloat 41 2) (Demo.boot Demo.good_pack)
     = (Raise AssertionError, Demo.boot Demo.good_pack)
  /\ download_manifest_file Demo.E
       (JObj [("projectID", JStr "10"); ("fileID", JInt 20); ("required", JBool true)])
       "pack/minecraft/mods" false (Demo.boot Demo.good_pack)
     = (Raise AssertionError, Demo.boot Demo.good_pack).
Proof.
  split; [|split].
  - apply (proj1 (non_integer_ids_are_not_requested Demo.E)). reflexivity.
  - apply (proj1 (proj2 (non_integer_ids_are_not_requested Demo.E))). by right.
  - eapply (proj2 (proj2 (non_integer_ids_are_not_requested Demo.E))); reflexivity.
Defined.

(** ** Quoting of the loader id *)


Lemma hex_digit_inj (a b : N) :
  (a < 16)%N -> (b < 16)%N -> Url.hex_digit a = Url.hex_digit b -> a = b.
Proof.
  intros Ha Hb Heq. apply (f_equal N_of_ascii) in Heq. unfold Url.hex_digit in Heq.
  destruct (N.ltb_spec a 10), (N.ltb_spec b 10);
    rewrite !N_ascii_embedding in Heq by lia; lia.
Qed.

Lemma quote_cons (c : ascii) (s : string) :
  Url.quote (String c s)
  = if Url.unreserved c then String c (Url.quote s)
    else String "%" (String (Url.hex_digit (N_of_ascii c / 16))
                       (String (Url.hex_digit (N_of_ascii c mod 16)) (Url.quote s))).
Proof. reflexivity. Qed.

Lemma str_app_inj_l (a x y : string) : a +:+ x = a +:+ y -> x = y.
Proof.
  induction a as [|c a IH]; [done|]. rewrite !str_app_cons. intros [= H]. by apply IH.
Qed.



(** X8. Quoting loses nothing: different loader ids are quoted
    differently, so they are looked up under different request URLs. *)
Theorem loader_requests_are_distinct (a b : string) :
  (Url.quote a = Url.quote b -> a = b)
  /\ (modloader_request a = modloader_request b -> a = b).
Proof.
  assert (forall a b, Url.quote a = Url.quote b -> a = b) as Hinj.
  { clear. induction a as [|c a IH]; intros [|d b].
    - done.
    - rewrite quote_cons. by destruct (Url.unreserved d).
    - rewrite quote_cons. by destruct (Url.unreserved c).
    - rewrite !quote_cons.
      destruct (Url.unreserved c) eqn:Hc, (Url.unreserved d) eqn:Hd.
      + intros [= -> Hq]. f_equal. by apply IH.
      + intros [= -> _]. done.
      + intros [= <- _]. done.
      + intros [= Hh Hl Hq]. f_equal; [|by apply IH].
        pose proof (N_ascii_bounded c). pose proof (N_ascii_bounded d).
        apply hex_digit_inj in Hh; [|by apply N.Div0.div_lt_upper_bound|by apply N.Div0.div_lt_upper_bound].
        apply hex_digit_inj in Hl; [|by apply N.mod_lt|by apply N.mod_lt].
        rewrite <- (ascii_N_embedding c), <- (ascii_N_embedding d). f_equal.
        rewrite (N.div_mod (N_of_ascii c) 16), (N.div_mod (N_of_ascii d) 16) by done.
        by rewrite Hh, Hl. }
  split; [apply Hinj|].
  unfold modloader_request. intros Heq.
  apply str_app_inj_l in Heq. by apply str_app_inj_l, Hinj in Heq.
Qed.

Lemma loader_requests_are_distinct_witness :
  "forge-36.0.0" = "forge-36.0.0" /\ "forge 36" = "forge 36".
Proof.
  split.
  - apply (proj1 (loader_requests_are_distinct "forge-36.0.0" "forge-36.0.0")).
    reflexivity.
  - apply (proj2 (loader_requests_are_distinct "forge 36" "forge 36")).
    reflexivity.
Defined.

(** * The mods loop and the loader phase, run through *)

Lemma for_each_app {A} (l1 l2 : list A) (body : A -> M unit) (w : world) :
  for_each (l1 ++ l2) body w = (for_each l1 body ;; for_each l2 body) w.
Proof.
  revert w. induction l1 as [|x l1 IH]; intros w; simpl; [done|].
  unfold bind in *. destruct (body x w) as [[[]|e] w1]; [|done].
  apply IH.
Qed.

Section Phases.
Context (E : env).

(** X9. The mods are handled in the order of the manifest and the
    first one that fails ends the run: the exception of its step
    leaves [download_mods] with the world as that step left it, so
    nothing is asked or fetched for the records after it. *)
Theorem first_failing_mod_stops_the_run
    (mf f : json) (before after : list json) (folder : string)
    (w w1 w2 : world) (e : exn) :
  Py.getitem mf "files" = Ret (JArr (before ++ f :: after)) ->
  for_each before (fun f => download_manifest_file E f folder false)
    (add_output [Line "Downloading {} mods..."
                      [JInt (Z.of_nat (length (before ++ f :: after)))]] w)
  = (Ret tt, w1) ->
  download_manifest_file E f folder false w1 = (Raise e, w2) ->
  download_mods E mf folder w = (Raise e, w2).
Proof.
  intros Hfiles Hbefore Hf.
  assert (download_mods E mf folder w
          = for_each (before ++ f :: after)
              (fun f => download_manifest_file E f folder false)
              (add_output [Line "Downloading {} mods..."
                 [JInt (Z.of_nat (length (before ++ f :: after)))]] w)) as ->.
  { unfold download_mods. rewrite Hfiles. reflexivity. }
  rewrite for_each_app, (bind_ret_eq _ _ _ _ _ Hbefore). simpl.
  by rewrite (bind_raise_eq _ _ _ _ _ Hf).
Qed.

Lemma get_modloader_info_run (id : string) (info : json) (cs : list string) (w : world) :
  answers E (modloader_request id) cs (Some info) ->
  get_modloader_info E (JStr id) w
  = (Ret info, add_requests [Request (modloader_request id) false] w).
Proof.
  intros Ha. destruct (session_get_answers E _ _ _ w Ha) as (r & Hr & Hs & _ & Hj).
  unfold get_modloader_info. simpl Py.as_str.
  unfold bind at 1, lift at 1.
  rewrite (bind_ret_eq _ _ _ _ _ Hr), Hs.
  unfold bind, ret, response_json. by rewrite Hj.
Qed.

(** The loader phase up to the answer of the catalog. *)
Lemma retrieve_forge_resolved (mf minecraft loaders info : json) (ls : list json)
    (id out_dname : string) (cs : list string) (w : world) :
  Py.getitem mf "minecraft" = Ret minecraft ->
  Py.getitem minecraft "modLoaders" = Ret loaders ->
  Py.iter loaders = Ret ls ->
  scan_loaders ls None = Ret (Some (JStr id)) ->
  answers E (modloader_request id) cs (Some info) ->
  retrieve_forge E mf out_dname w
  = (has_url <- lift (Py.contains info "downloadUrl") ;;
     if has_url : bool then
       dest_fname <- lift (Py.getitem info "filename") ;;
       dest_fname <- lift (Py.as_str dest_fname) ;;
       let dest_path := Path.join out_dname dest_fname in
       url <- lift (Py.getitem info "downloadUrl") ;;
       target <- lift (installer_target dest_path url) ;;
       fetch_installer E info target.2 target.1 ;;
       print "Running Forge installer." [] ;;
       subprocess_run E ["java"; "-jar"; target.1] ;;
       print "Done." []
     else
       print "Could not get download link for modloader '{}'" [JStr id])
      (add_requests [Request (modloader_request id) false]
         (add_output [Line "Retrieving Forge..." []] w)).
Proof.
  intros Hmc Hml Hiter Hscan Ha. unfold retrieve_forge. rewrite Hmc.
  unfold bind at 1, print at 1. unfold bind at 1, lift at 1. rewrite Hml.
  unfold bind at 1, lift at 1. rewrite Hiter. unfold bind at 1, lift at 1.
  rewrite Hscan. unfold bind at 1, lift at 1. unfold bind at 1, ret at 1.
  rewrite (bind_ret_eq _ _ _ _ _ (get_modloader_info_run id info cs _ Ha)).
  reflexivity.
Qed.

(** X10. A loader without [downloadUrl] in its metadata is reported
    and the phase returns normally: one request, nothing downloaded,
    nothing launched, the file system untouched. *)
Theorem missing_download_url_is_reported
    (mf minecraft loaders info : json) (ls : list json) (id out_dname : string)
    (cs : list string) (w : world) :
  Py.getitem mf "minecraft" = Ret minecraft ->
  Py.getitem minecraft "modLoaders" = Ret loaders ->
  Py.iter loaders = Ret ls ->
  scan_loaders ls None = Ret (Some (JStr id)) ->
  answers E (modloader_request id) cs (Some info) ->
  Py.contains info "downloadUrl" = Ret false ->
  exists w',
    retrieve_forge E mf out_dname w = (Ret tt, w')
    /\ stdout w'
       = stdout w ++ [Line "Retrieving Forge..." [];
                      Line "Could not get download link for modloader '{}'" [JStr id]]
    /\ requests w' = requests w ++ [Request (modloader_request id) false]
    /\ launched w' = launched w
    /\ fs w' = fs w
    /\ fs_trace w' = fs_trace w.
Proof.
  intros Hmc Hml Hiter Hscan Ha Hno.
  rewrite (retrieve_forge_resolved _ _ _ _ _ _ _ _ _ Hmc Hml Hiter Hscan Ha), Hno.
  eexists. split; [reflexivity|]. simpl. by rewrite <- app_assoc.
Qed.

(** X11. With the installer file already there, the loader phase makes
    its one metadata request, downloads nothing, hands
    [java -jar <installer>] to the system and prints [Done.] when the
    call returns; the file system is what the installer made of it. *)
Theorem present_installer_is_launched
    (mf minecraft loaders info url url' name : json) (ls : list json)
    (id out_dname fname dest_path : string) (cs : list string) (w : world) (after : FS) :
  Py.getitem mf "minecraft" = Ret minecraft ->
  Py.getitem minecraft "modLoaders" = Ret loaders ->
  Py.iter loaders = Ret ls ->
  scan_loaders ls None = Ret (Some (JStr id)) ->
  answers E (modloader_request id) cs (Some info) ->
  Py.contains info "downloadUrl" = Ret true ->
  Py.getitem info "filename" = Ret (JStr fname) ->
  Py.getitem info "downloadUrl" = Ret url ->
  Py.getitem info "name" = Ret name ->
  installer_target (Path.join out_dname fname) url = Ret (dest_path, url') ->
  is_Some (stat E (fs w) dest_path) ->
  run_process E ["java"; "-jar"; dest_path] (fs w) = Ret after ->
  exists w',
    retrieve_forge E mf out_dname w = (Ret tt, w')
    /\ stdout w'
       = stdout w ++ [Line "Retrieving Forge..." [];
                      Line "    Downloading '{}'" [name];
                      Line "Running Forge installer." [];
                      Line "Done." []]
    /\ requests w' = requests w ++ [Request (modloader_request id) false]
    /\ launched w' = launched w ++ [["java"; "-jar"; dest_path]]
    /\ fs w' = after.
Proof.
  intros Hmc Hml Hiter Hscan Ha Hhas Hfn Hurl Hname Htarget Hex Hrun.
  rewrite (retrieve_forge_resolved _ _ _ _ _ _ _ _ _ Hmc Hml Hiter Hscan Ha), Hhas.
  unfold bind at 1, lift at 1. cbv iota beta. rewrite Hfn.
  unfold bind at 1, lift at 1. simpl Py.as_str. unfold bind at 1, lift at 1.
  cbv zeta. rewrite Hurl. unfold bind at 1, lift at 1. rewrite Htarget.
  unfold bind at 1, lift at 1. simpl fst. simpl snd.
  set (w0 := add_requests _ _).
  assert (is_Some (stat E (fs w0) dest_path)) as Hex0 by exact Hex.
  rewrite (bind_ret_eq _ _ _ _ _ (fetch_installer_present E info url' name dest_path w0 Hname Hex0)).
  unfold subprocess_run, bind, log_launch, get_fs, put_fs, print, lift. simpl.
  rewrite Hrun. eexists. split; [reflexivity|]. simpl.
  by rewrite <- !app_assoc.
Qed.

End Phases.

Lemma first_failing_mod_stops_the_run_witness :
  let mf := JObj [("files", JArr [Demo.file_record 10 20 true;
                                  Demo.file_record 12 22 true;
                                  Demo.file_record 11 21 false])] in
  let w1 := (for_each [Demo.file_record 10 20 true]
               (fun f => download_manifest_file Demo.E f "pack/minecraft/mods" false)
               (add_output [Line "Downloading {} mods..." [JInt 3]] Demo.installed)).2 in
  let w2 := (download_manifest_file Demo.E (Demo.file_record 12 22 true)
               "pack/minecraft/mods" false w1).2 in
  download_mods Demo.E mf "pack/minecraft/mods" Demo.installed = (Raise HTTPError, w2)
  /\ requests w2
     = requests Demo.installed
       ++ [Request (info_request (JInt 10)) false;
           Request (download_url_request (JInt 10) (JInt 20)) false;
           Request (info_request (JInt 12)) false].
Proof.
  intros mf w1 w2. split.
  - apply (first_failing_mod_stops_the_run Demo.E mf (Demo.file_record 12 22 true)
             [Demo.file_record 10 20 true] [Demo.file_record 11 21 false]
             "pack/minecraft/mods" Demo.installed w1 w2 HTTPError).
    + reflexivity.
    + apply injective_projections; [vm_compute; reflexivity | reflexivity].
    + apply injective_projections; [vm_compute; reflexivity | reflexivity].
  - vm_compute. reflexivity.
Defined.

Lemma missing_download_url_is_reported_witness :
  let E := Env ["home"; "u"]
             (fun _ => Reply 200 [] true (Some (JObj [("name", JStr "fabric")])))
             "/tmp/tmpk3x" (fun _ f => Ret f) in
  exists w',
    retrieve_forge E (Demo.manifest Demo.sentinel [] Demo.forge) "pack"
      (Demo.boot Demo.good_pack) = (Ret tt, w')
    /\ stdout w'
       = stdout (Demo.boot Demo.good_pack)
         ++ [Line "Retrieving Forge..." [];
             Line "Could not get download link for modloader '{}'" [JStr "forge-36.0.0"]]
    /\ requests w'
       = requests (Demo.boot Demo.good_pack)
         ++ [Request (modloader_request "forge-36.0.0") false]
    /\ launched w' = launched (Demo.boot Demo.good_pack)
    /\ fs w' = fs (Demo.boot Demo.good_pack)
    /\ fs_trace w' = fs_trace (Demo.boot Demo.good_pack).
Proof.
  intros E.
  apply (missing_download_url_is_reported E
           (Demo.manifest Demo.sentinel [] Demo.forge)
           (JObj [("version", JStr "1.16.5"); ("modLoaders", JArr Demo.forge)])
           (JArr Demo.forge) (JObj [("name", JStr "fabric")]) Demo.forge
           "forge-36.0.0" "pack" []).
  - reflexivity.
  - reflexivity.
  - reflexivity.
  - reflexivity.
  - exists 200%Z. split; reflexivity.
  - reflexivity.
Defined.

Lemma present_installer_is_launched_witness :
  exists w',
    retrieve_forge Demo.E (Demo.manifest Demo.sentinel [] Demo.forge) "pack"
      Demo.installed = (Ret tt, w')
    /\ stdout w'
       = stdout Demo.installed
         ++ [Line "Retrieving Forge..." [];
             Line "    Downloading '{}'" [JStr "forge"];
             Line "Running Forge installer." [];
             Line "Done." []]
    /\ requests w'
       = requests Demo.installed ++ [Request (modloader_request "forge-36.0.0") false]
    /\ launched w'
       = launched Demo.installed ++ [["java"; "-jar"; "pack/forge-36.0.0-installer.jar"]]
    /\ fs w' = fs Demo.installed.
Proof.
  apply (present_installer_is_launched Demo.E
           (Demo.manifest Demo.sentinel [] Demo.forge)
           (JObj [("version", JStr "1.16.5"); ("modLoaders", JArr Demo.forge)])
           (JArr Demo.forge)
           (JObj [("name", JStr "forge"); ("filename", JStr "forge-36.0.0.jar");
                  ("downloadUrl", JStr "https://maven/forge-36.0.0.jar")])
           (JStr "https://maven/forge-36.0.0.jar")
           (JStr "https://maven/forge-36.0.0-installer.jar")
           (JStr "forge") Demo.forge "forge-36.0.0" "pack" "forge-36.0.0.jar"
           "pack/forge-36.0.0-installer.jar" []).
  - reflexivity.
  - reflexivity.
  - reflexivity.
  - reflexivity.
  - exists 200%Z. split; reflexivity.
  - reflexivity.
  - reflexivity.
  - reflexivity.
  - reflexivity.
  - reflexivity.
  - eexists. vm_compute. reflexivity.
  - reflexivity.
Defined.

(** * Where a mod file is written *)

Lemma no_slash_not_absolute (n : string) :
  Str.has_char Str.slash n = false -> Str.startswith n "/" = false.
Proof.
  destruct n as [|c n]; [done|]. simpl.
  destruct (Ascii.eqb_spec c "/") as [->|Hc]; [done|].
  intros _. destruct (Ascii.eqb_spec c "/"); done.
Qed.

Lemma long_not_dot (a t : string) :
  (2 < String.length t)%nat -> a +:+ t <> "" /\ a +:+ t <> "." /\ a +:+ t <> "..".
Proof.
  intros Ht. repeat split; intros Heq; apply (f_equal String.length) in Heq;
    rewrite str_length_app in Heq; simpl in Heq; lia.
Qed.

Lemma norm_comps_snoc (b n : string) :
  Str.has_char Str.slash n = false -> n <> "" -> n <> "." -> n <> ".." ->
  Path.norm_comps true [] (Str.split Str.slash (b +:+ String Str.slash n))
  = Path.norm_comps true [] (Str.split Str.slash b) ++ [n].
Proof.
  intros Hn H0 H1 H2. rewrite split_app_sep, (split_no_sep _ n) by done.
  destruct (norm_comps_app true [] (Str.split Str.slash b)) as [acc Hacc].
  rewrite Hacc. specialize (Hacc []). rewrite app_nil_r in Hacc. rewrite Hacc.
  simpl. apply String.eqb_neq in H0, H1, H2. by rewrite H0, H1, H2.
Qed.

Lemma norm_comps_trailing_slash (b : string) :
  Path.norm_comps true [] (Str.split Str.slash (b +:+ "/"))
  = Path.norm_comps true [] (Str.split Str.slash b).
Proof.
  change "/" with (String Str.slash ""). rewrite split_app_sep.
  destruct (norm_comps_app true [] (Str.split Str.slash b)) as [acc Hacc].
  rewrite Hacc. specialize (Hacc []). rewrite app_nil_r in Hacc. by rewrite Hacc.
Qed.

Section Inside.
Context (E : env).

Lemma getcwd_not_empty : String.eqb (getcwd E) "" = false.
Proof. unfold getcwd. by rewrite str_app_cons. Qed.

Lemma anchored_app_nonempty (p t : string) :
  p <> "" -> anchored E (p +:+ t) = anchored E p +:+ t.
Proof.
  intros Hp. destruct p as [|c p]; [done|]. unfold anchored.
  rewrite (str_app_cons c p t). simpl Str.startswith.
  destruct (Ascii.eqb c "/") eqn:Hc; simpl; [done|].
  rewrite !join_eq. unfold join_prefix. simpl Str.startswith. rewrite Hc. simpl.
  by rewrite <- str_app_cons, str_app_assoc.
Qed.

(** Joining a plain name to a folder adds one component to its key. *)
Lemma path_key_join (folder n : string) :
  Str.has_char Str.slash n = false -> n <> "" -> n <> "." -> n <> ".." ->
  path_key E (Path.join folder n) = path_key E folder ++ [n].
Proof.
  intros Hn H0 H1 H2. rewrite !path_key_eq.
  pose proof (no_slash_not_absolute n Hn) as Hrel.
  assert (exists b, anchored E (Path.join folder n) = b +:+ String Str.slash n
                    /\ (anchored E folder = b \/ anchored E folder = b +:+ "/"))
    as (b & -> & Hb).
  { unfold Path.join. rewrite Hrel.
    destruct (String.eqb_spec folder "") as [->|Hf]; simpl.
    - rewrite str_app_nil. unfold anchored. rewrite Hrel. simpl.
      rewrite !join_eq. unfold join_prefix. rewrite Hrel. simpl Str.startswith.
      cbv iota. rewrite getcwd_not_empty. cbn [orb].
      destruct (Str.endswith (getcwd E) "/") eqn:He.
      + apply endswith_inv in He as [p Hp]. exists p. rewrite Hp.
        split; [by rewrite str_app_assoc | right; apply str_app_empty_r].
      + exists (getcwd E). split; [by rewrite str_app_assoc|]. right.
        apply str_app_empty_r.
    - destruct (Str.endswith folder "/") eqn:He.
      + rewrite anchored_app by done.
        apply endswith_inv in He as [p ->].
        unfold anchored. destruct (Str.startswith (p +:+ "/") "/").
        * exists p. split; [by rewrite str_app_assoc | by right].
        * rewrite join_eq. exists (join_prefix (getcwd E) (p +:+ "/") +:+ p).
          split; [by rewrite !str_app_assoc | right; by rewrite !str_app_assoc].
      + exists (anchored E folder). split; [|by left].
        rewrite <- anchored_app_nonempty by done.
        by rewrite ?str_app_assoc, ?str_app_cons, ?str_app_nil. }
  rewrite norm_comps_snoc by done.
  destruct Hb as [-> | ->]; [done|]. by rewrite norm_comps_trailing_slash.
Qed.

(** X12. The download URL cannot steer a mod out of the mods folder:
    the temporary file of the download lies directly in the folder,
    under the final segment of the URL with its marker and [.part],
    and so does the destination, unless the record is required and
    the URL's final segment is empty or a dot name. *)
Theorem mods_land_in_the_folder (folder url : string) (required : bool) :
  let filename := Str.last (Str.split Str.slash url) in
  let name := filename +:+ (if required then "" else ".disabled") in
  Str.has_char Str.slash name = false
  /\ path_key E (manifest_destpath folder url (JBool required) +:+ ".part")
     = path_key E folder ++ [name +:+ ".part"]
  /\ (required = false \/ ~ In filename [""; "."; ".."] ->
      path_key E (manifest_destpath folder url (JBool required))
      = path_key E folder ++ [name]).
Proof.
  intros filename name.
  assert (Str.has_char Str.slash filename = false) as Hfn by apply last_no_sep.
  assert (Str.has_char Str.slash name = false) as Hname.
  { unfold name. rewrite has_char_app, Hfn. by destruct required. }
  assert (manifest_destpath folder url (JBool required) = Path.join folder name)
    as ->.
  { unfold manifest_destpath. fold filename. rewrite !join_eq.
    assert (join_prefix folder name = join_prefix folder filename) as ->.
    { unfold join_prefix, name. rewrite startswith_slash_app; [done|].
      by destruct required. }
    unfold name. destruct required; simpl.
    - by rewrite !str_app_empty_r.
    - by rewrite str_app_assoc. }
  split; [done|]. split.
  - assert (Path.join folder name +:+ ".part" = Path.join folder (name +:+ ".part"))
      as ->.
    { rewrite !join_eq. unfold join_prefix.
      rewrite (startswith_slash_app name ".part") by done.
      by rewrite str_app_assoc. }
    destruct (long_not_dot name ".part") as (? & ? & ?); [simpl; lia|].
    apply path_key_join; [|done..]. by rewrite has_char_app, Hname.
  - intros Hcase.
    assert (name <> "" /\ name <> "." /\ name <> "..") as (? & ? & ?).
    { unfold name. destruct required.
      - destruct Hcase as [? | Hnot]; [done|]. rewrite str_app_empty_r.
        repeat split; intros Heq; apply Hnot; rewrite Heq; simpl; tauto.
      - apply long_not_dot. simpl. lia. }
    by apply path_key_join.
Qed.

End Inside.

Lemma mods_land_in_the_folder_witness :
  path_key Demo.E (manifest_destpath "pack/minecraft/mods"
                     "https://cdn/files/../b.jar" (JBool false))
  = ["home"; "u"; "pack"; "minecraft"; "mods"; "b.jar.disabled"]
  /\ path_key Demo.E (manifest_destpath "pack/minecraft/mods"
                        "https://cdn/files/a.jar" (JBool true))
     = ["home"; "u"; "pack"; "minecraft"; "mods"; "a.jar"].
Proof.
  split.
  - apply (mods_land_in_the_folder Demo.E "pack/minecraft/mods"
             "https://cdn/files/../b.jar" false). by left.
  - apply (mods_land_in_the_folder Demo.E "pack/minecraft/mods"
             "https://cdn/files/a.jar" true).
    right. simpl. intros [H | [H | [H | []]]]; discriminate H.
Defined.

(** * What unpacking the overrides touches *)

Lemma agree_outside_mono (K K' : key -> Prop) (f f' : FS) :
  (forall k, K k -> K' k) -> agree_outside K f f' -> agree_outside K' f f'.
Proof. intros Hsub Hag k Hk. apply Hag. auto. Qed.

Lemma confined_mono (K K' : key -> Prop) (w w' : world) :
  (forall k, K k -> K' k) -> confined K w w' -> confined K' w w'.
Proof.
  intros Hsub (Hag & hs & Ht & HF). split; [by eapply agree_outside_mono|].
  exists hs. split; [done|]. eapply Forall_impl; [exact HF|].
  intros s Hs. by eapply agree_outside_mono.
Qed.

(** [makedirs] creates directories on the way to its target only. *)
Lemma makedirs_from_above (base rest : key) (f : FS) :
  agree_outside (fun k => k `prefix_of` base ++ rest) f (Fs.makedirs_from base rest f).1.
Proof.
  revert base f. induction rest as [|c rest IH]; intros base f; simpl.
  - apply agree_outside_refl.
  - assert (forall g, agree_outside (fun k => k `prefix_of` base ++ c :: rest) g
                        (Fs.makedirs_from (base ++ [c]) rest g).1) as IH'.
    { intros g. specialize (IH (base ++ [c]) g).
      by rewrite <- app_assoc in IH. }
    destruct (f !! (base ++ [c])) as [[d|]|] eqn:Hlook.
    + apply agree_outside_refl.
    + apply IH'.
    + eapply agree_outside_trans; [|apply IH'].
      apply agree_outside_insert. rewrite (cons_middle c base rest), app_assoc.
      by apply prefix_app_r.
Qed.

Lemma copy_entry_below (dst s : key) (n : node) (f : FS) :
  agree_outside (prefix dst) f (Fs.copy_entry dst s n f).1.
Proof.
  unfold Fs.copy_entry. destruct n as [d|].
  - pose proof (makedirs_from_below dst dst (removelast s) f ltac:(done)) as Hmk.
    destruct (Fs.makedirs_from dst (removelast s) f) as [f' [e|]]; [done|].
    simpl in Hmk.
    repeat case_match; simplify_eq; simpl; try done;
      (eapply agree_outside_trans; [exact Hmk|]; apply agree_outside_insert);
      rewrite <- ?app_assoc; by apply prefix_app_r.
  - pose proof (makedirs_from_below dst dst s f ltac:(done)) as Hmk.
    by destruct (Fs.makedirs_from dst s f) as [f' [e|]].
Qed.

Lemma copy_entries_below (src dst : key) (entries : list (key * node)) (f : FS) :
  agree_outside (prefix dst) f (Fs.copy_entries src dst entries f).1.
Proof.
  unfold Fs.copy_entries. generalize true.
  revert f. induction entries as [|kv entries IH]; intros f b; simpl.
  - apply agree_outside_refl.
  - destruct (drop (length src) kv.1) as [|c s] eqn:Hs; [apply IH|].
    pose proof (copy_entry_below dst (c :: s) kv.2 f) as Hone.
    destruct (Fs.copy_entry dst (c :: s) kv.2 f) as [f' ok].
    eapply agree_outside_trans; [exact Hone | apply IH].
Qed.

(** [copytree] writes below its destination, and creates the
    directories above it that are missing. *)
Lemma copytree_around (src dst : key) (f : FS) :
  agree_outside (fun k => k `prefix_of` dst \/ dst `prefix_of` k) f
                (Fs.copytree src dst f).1.
Proof.
  unfold Fs.copytree.
  destruct (Fs.at_key f src) as [[d|]|]; try apply agree_outside_refl.
  pose proof (makedirs_from_above [] dst f) as Hmk. unfold Fs.makedirs.
  destruct (Fs.makedirs_from [] dst f) as [f1 [e|]]; simpl in *.
  - eapply agree_outside_mono; [|exact Hmk]. auto.
  - match goal with |- context [Fs.copy_entries src dst ?l f1] =>
      pose proof (copy_entries_below src dst l f1) as Hcp;
      destruct (Fs.copy_entries src dst l f1) as [f2 ok] end.
    simpl in *. eapply agree_outside_trans.
    + eapply agree_outside_mono; [|exact Hmk]. auto.
    + eapply agree_outside_mono; [|exact Hcp]. auto.
Qed.

Section Overrides.
Context (E : env).

Lemma shutil_copytree_confined (src dst : string) :
  preserves (confined (fun k => k `prefix_of` path_key E dst
                                \/ path_key E dst `prefix_of` k))
            (shutil_copytree E src dst).
Proof.
  intros w o w'. unfold shutil_copytree, bind at 1, get_fs at 1.
  destruct (String.eqb src "" || String.eqb dst ""); [intros [= <- <-]; reflexivity|].
  apply commit_confined, copytree_around.
Qed.

(** X13. Unpacking the overrides touches the staging directory and the
    output directory only.  When the staging path is free at the
    start, then however the call ends (returning or raising) every
    state the file system passes through differs from the initial one
    only below the staging directory, below the output directory, or
    at a directory above the output directory that had to be created;
    and in the end the staging directory is gone with all it held, so
    that the final state differs from the initial one at the output
    directory and around it only. *)
Theorem overrides_touch_staging_and_output_only
    (mpack_zip : list (string * data)) (output_dir : string) (w : world) :
  let staging := path_key E (abspath E (tmp_name E)) in
  let out := path_key E output_dir in
  let touched := fun k => staging `prefix_of` k \/ k `prefix_of` out \/ out `prefix_of` k in
  let run := extract_overrides E mpack_zip output_dir w in
  (forall k, staging `prefix_of` k -> fs w !! k = None) ->
  (forall k, staging `prefix_of` k -> fs run.2 !! k = None)
  /\ (forall k, ~ k `prefix_of` out -> ~ out `prefix_of` k ->
        fs run.2 !! k = fs w !! k)
  /\ exists hs, fs_trace run.2 = fs_trace w ++ hs
                /\ Forall (agree_outside touched (fs w)) hs
                /\ List.last hs (fs w) = fs run.2.
Proof.
  intros staging out touched run Hfresh.
  assert (forall tempd, path_key E tempd = staging ->
            preserves (confined touched)
              (mf <- lift (get_manifest mpack_zip) ;;
               or_folder <- lift (Py.getitem mf "overrides") ;;
               extract_matching E mpack_zip or_folder tempd ;;
               prefix <- lift (Py.as_str or_folder) ;;
               let output_override_dir := Path.join tempd prefix in
               inside <- lift (is_subdir E output_override_dir tempd) ;;
               assert inside ;;
               shutil_copytree E output_override_dir output_dir)) as Hbody.
  { intros tempd Htemp. pres.
    - eapply preserves_weaken; [|apply extract_matching_confined].
      intros wa wb. apply confined_mono. rewrite Htemp. subst touched. simpl. auto.
    - eapply preserves_weaken; [|apply shutil_copytree_confined].
      intros wa wb. apply confined_mono. subst touched out. simpl. auto. }
  subst run. destruct (extract_overrides E mpack_zip output_dir w) as [r w'] eqn:Hrun.
  cbn [snd].
  assert (w' = w ->
            (forall k, staging `prefix_of` k -> fs w' !! k = None)
            /\ (forall k, ~ k `prefix_of` out -> ~ out `prefix_of` k ->
                  fs w' !! k = fs w !! k)
            /\ exists hs, fs_trace w' = fs_trace w ++ hs
                          /\ Forall (agree_outside touched (fs w)) hs
                          /\ List.last hs (fs w) = fs w') as Hsame.
  { intros ->. repeat split; [done..|]. exists []. by rewrite app_nil_r. }
  unfold extract_overrides, with_tempdir in Hrun. fold staging in Hrun.
  unfold bind at 1, get_fs at 1 in Hrun.
  destruct (Fs.at_key (fs w) staging); [injection Hrun as _ <-; by apply Hsame|].
  destruct (Fs.check_parent (fs w) staging); [injection Hrun as _ <-; by apply Hsame|].
  clear Hsame. unfold bind at 1, put_fs at 1 in Hrun.
  fold (set_fs (<[staging:=Dir]> (fs w)) w) in Hrun.
  set (w0 := set_fs (<[staging:=Dir]> (fs w)) w) in Hrun. unfold finally in Hrun.
  match type of Hrun with context [let (r, w') := ?m w0 in _] =>
    destruct (m w0) as [r1 w1] eqn:Hbody1 end.
  injection Hrun as _ <-.
  apply (Hbody _ ltac:(fold staging; reflexivity)) in Hbody1
    as (Hag1 & hs1 & Ht1 & HF1).
  assert (agree_outside touched (fs w) (fs w0)) as Hag0.
  { apply agree_outside_insert. subst touched. simpl. auto. }
  assert (agree_outside touched (fs w) (fs w1)) as Hag
    by exact (agree_outside_trans _ _ _ _ Hag0 Hag1).
  simpl. split; [|split].
  - intros k Hk. rewrite lookup_rmtree. by rewrite decide_True.
  - intros k Hk1 Hk2. rewrite lookup_rmtree.
    destruct (decide (staging `prefix_of` k)) as [Hp|Hp].
    + symmetry. by apply Hfresh.
    + apply Hag. subst touched. simpl. tauto.
  - exists ([fs w0] ++ hs1 ++ [Fs.rmtree staging (fs w1)]). split; [|split].
    + rewrite Ht1. subst w0. simpl. by rewrite <- !app_assoc.
    + apply Forall_app. split; [by constructor|].
      apply Forall_app. split.
      * eapply Forall_impl; [exact HF1|]. intros s Hs.
        exact (agree_outside_trans _ _ _ _ Hag0 Hs).
      * constructor; [|constructor]. intros k Hk. rewrite lookup_rmtree.
        destruct (decide (staging `prefix_of` k)) as [Hp|Hp].
        -- exfalso. apply Hk. subst touched. simpl. auto.
        -- by apply Hag.
    + rewrite app_assoc. by rewrite last_last.
Qed.

End Overrides.

Lemma overrides_touch_staging_and_output_only_witness :
  let w := Demo.boot Demo.good_pack in
  let staging := path_key Demo.E (abspath Demo.E (tmp_name Demo.E)) in
  let out := path_key Demo.E "pack/minecraft" in
  let touched := fun k => staging `prefix_of` k \/ k `prefix_of` out \/ out `prefix_of` k in
  let run := extract_overrides Demo.E Demo.good_pack "pack/minecraft" w in
  (forall k, staging `prefix_of` k -> fs run.2 !! k = None)
  /\ (forall k, ~ k `prefix_of` out -> ~ out `prefix_of` k ->
        fs run.2 !! k = fs w !! k)
  /\ exists hs, fs_trace run.2 = fs_trace w ++ hs
                /\ Forall (agree_outside touched (fs w)) hs
                /\ List.last hs (fs w) = fs run.2.
Proof.
  intros w staging out touched run.
  apply (overrides_touch_staging_and_output_only Demo.E Demo.good_pack
           "pack/minecraft" w).
  intros k [l ->]. apply eq_None_not_Some. intros [n Hn].
  apply elem_of_map_to_list in Hn.
  let m := eval vm_compute in (map_to_list (fs w)) in
  assert (map_to_list (fs w) = m) as Hl by (vm_compute; reflexivity).
  rewrite Hl in Hn. vm_compute in Hn.
  repeat (apply elem_of_cons in Hn as [Hn|Hn]; [discriminate Hn|]).
  by apply elem_of_nil in Hn.
Defined.

(** The overrides of the example pack arrive below the output directory,
    the directories above it are made, and the staging directory is
    gone. *)
Example overrides_of_the_good_pack :
  let run := extract_overrides Demo.E Demo.good_pack "pack/minecraft"
               (Demo.boot Demo.good_pack) in
  run.1 = Ret tt
  /\ fs run.2 !! ["home"; "u"; "pack"] = Some Dir
  /\ fs run.2 !! ["home"; "u"; "pack"; "minecraft"] = Some Dir
  /\ fs run.2 !! ["home"; "u"; "pack"; "minecraft"; "config"; "a.cfg"]
     = Some (File (Bytes "k=v"))
  /\ fs run.2 !! ["tmp"; "tmpk3x"] = None.
Proof. vm_compute. repeat split; reflexivity. Qed.

(** * The output directory *)

Section OutputDirectory.
Context (E : env).

(** X14. The output directory is made with [os.mkdir] unless it is a
    directory already: when a file of that name is in the way, the run
    on a valid pack ends in [FileExistsError] with nothing printed and
    nothing changed. *)
Theorem file_in_place_of_output_directory
    (argv : list string) (tgt_zip : string) (w : world) members (mf : json) (d : data) :
  argv !! 1%nat = Some tgt_zip ->
  existsb (String.eqb "-h") argv || existsb (String.eqb "--help") argv = false ->
  stat E (fs w) tgt_zip = Some (File (ZipArchive members)) ->
  get_manifest members = Ret mf ->
  Py.getitem mf "manifestType" = Ret (JStr "minecraftModpack") ->
  stat E (fs w) (output_dir_for_zip tgt_zip) = Some (File d) ->
  main E argv w = (Raise FileExistsError, w).
Proof.
  intros Harg Hh Hzip Hmf Hty Hout.
  assert (os_path_isdir E (output_dir_for_zip tgt_zip) w = (Ret false, w)) as Hisd.
  { unfold os_path_isdir, bind, get_fs, ret. by rewrite Hout. }
  assert (os_mkdir E (output_dir_for_zip tgt_zip) w = (Raise FileExistsError, w))
    as Hmk.
  { unfold os_mkdir, bind, get_fs. unfold stat in Hout.
    destruct (String.eqb (output_dir_for_zip tgt_zip) ""); [done|].
    by rewrite Hout. }
  assert (is_modpack_zip E tgt_zip w = (Ret true, w)) as Hvalid.
  { by rewrite (is_modpack_zip_archive E _ _ _ Hzip), Hmf, Hty. }
  unfold main. rewrite Harg, Hh.
  unfold bind at 1, lift at 1. unfold bind at 1, ret at 1.
  rewrite (bind_ret_eq _ _ _ _ _ Hvalid). cbn [negb]. cbv iota zeta.
  rewrite (bind_ret_eq _ _ _ _ _ Hisd). cbv iota.
  by rewrite (bind_raise_eq _ _ _ _ _ Hmk).
Qed.

End OutputDirectory.

Lemma file_in_place_of_output_directory_witness :
  let w := World (<[ ["home"; "u"; "pack"] := File (Bytes "notes") ]>
                    (Demo.disk Demo.good_pack)) [] [] [] [] in
  main Demo.E Demo.argv w = (Raise FileExistsError, w).
Proof.
  intros w.
  apply (file_in_place_of_output_directory Demo.E Demo.argv "pack.zip" w Demo.good_pack
           (Demo.manifest Demo.sentinel [("overrides", JStr "overrides")] Demo.forge)
           (Bytes "notes")).
  - reflexivity.
  - reflexivity.
  - vm_compute. reflexivity.
  - reflexivity.
  - reflexivity.
  - vm_compute. reflexivity.
Defined.
